(** * Desired-state rendering and reconciliation of the operator

    A shallow embedding of four parts of the operator:

    - the deep packet inspection (DPI) component renderer (package [dpi]);
    - the affinity rule of the ES Gateway renderer, whose tests are part of
      the sources (package [esgateway]);
    - the [Reconcile] passes of the API server and compliance controllers
      (packages [apiserver] and [compliance]), and of the management
      cluster connection controller (package [clusterconnection]);
    - the set-up of these three controllers ([Add], [newReconciler] and
      [add]).

    Go values are modelled as follows.  Strings are [string]; a
    [map[string]string] is a [gmap string string] wrapped in [option] where
    the code distinguishes the nil map; slices are lists (a nil slice is
    the empty list); [int32]/[int64]/[int] are [Z]; a pointer that the code
    tests against nil is an [option]; structs are records; a [client.Object]
    is a sum over the Go types that the renderers emit.  A run-time panic
    (index out of range, nil dereference, write to a nil map) is [None] in
    the option monad. *)

From Stdlib Require Import ZArith List Bool.
From stdpp Require Import base option list strings gmap.

Local Open Scope Z_scope.

(** ** Kubernetes API objects *)

Module K8s.

(** [map[string]string]: [None] is the nil map. *)
Definition StringMap : Type := option (gmap string string).

(** Reading a key of a possibly nil map. *)
Definition getKey (m : StringMap) (k : string) : option string :=
  match m with
  | Some g => g !! k
  | None => None
  end.

Record TypeMeta := {
  Kind : string;
  APIVersion : string
}.

Record ObjectMeta := {
  Name : string;
  Namespace : string;
  Labels : StringMap;
  Annotations : StringMap
}.

Definition TypeMeta_zero : TypeMeta := {| Kind := ""; APIVersion := "" |}.

Record Secret := {
  Secret_TypeMeta : TypeMeta;
  Secret_ObjectMeta : ObjectMeta;
  Secret_Data : option (gmap string string)
}.

Record Namespace_ := {
  Namespace_TypeMeta : TypeMeta;
  Namespace_ObjectMeta : ObjectMeta
}.

Record ServiceAccount := {
  ServiceAccount_TypeMeta : TypeMeta;
  ServiceAccount_ObjectMeta : ObjectMeta
}.

Record PolicyRule := {
  APIGroups : list string;
  Resources : list string;
  Verbs : list string;
  ResourceNames : list string
}.

Record ClusterRole := {
  ClusterRole_TypeMeta : TypeMeta;
  ClusterRole_ObjectMeta : ObjectMeta;
  Rules : list PolicyRule
}.

Record RoleRef := {
  RoleRef_APIGroup : string;
  RoleRef_Kind : string;
  RoleRef_Name : string
}.

Record Subject := {
  Subject_Kind : string;
  Subject_Name : string;
  Subject_Namespace : string
}.

Record ClusterRoleBinding := {
  ClusterRoleBinding_TypeMeta : TypeMeta;
  ClusterRoleBinding_ObjectMeta : ObjectMeta;
  RoleRef_ : RoleRef;
  Subjects : list Subject
}.

Record ObjectFieldSelector := { FieldPath : string }.

Record EnvVarSource := { FieldRef : option ObjectFieldSelector }.

Record EnvVar := {
  EnvVar_Name : string;
  EnvVar_Value : string;
  EnvVar_ValueFrom : option EnvVarSource
}.

Record VolumeMount := {
  VolumeMount_Name : string;
  VolumeMount_MountPath : string;
  VolumeMount_ReadOnly : bool
}.

Inductive HostPathType := HostPathDirectoryOrCreate | HostPathDirectory | HostPathFile.

Record HostPathVolumeSource := {
  HostPath_Path : string;
  HostPath_Type : option HostPathType
}.

(** [corev1.VolumeSource] is a struct with one pointer per kind of source,
    of which exactly one is set; the kinds met here are listed. *)
Inductive VolumeSource :=
| HostPathSource (h : HostPathVolumeSource)
| SecretSource (secretName : string) (defaultMode : option Z)
| ConfigMapSource (configMapName : string)
| EmptyDirSource.

Record Volume := {
  Volume_Name : string;
  Volume_VolumeSource : VolumeSource
}.

Record SecurityContext := { Privileged : option bool }.

Inductive URIScheme := URISchemeHTTP | URISchemeHTTPS.

Inductive IntOrString := FromInt (i : Z) | FromString (s : string).

Record HTTPGetAction := {
  HTTPGet_Host : string;
  HTTPGet_Path : string;
  HTTPGet_Port : IntOrString;
  HTTPGet_Scheme : URIScheme
}.

Record Handler := { HTTPGet : option HTTPGetAction }.

Record Probe := {
  Probe_Handler : Handler;
  TimeoutSeconds : Z;
  InitialDelaySeconds : Z;
  PeriodSeconds : Z
}.

Record ResourceRequirements := {
  Limits : StringMap;
  Requests : StringMap
}.

Record Container := {
  Container_Name : string;
  Image : string;
  Container_Resources : ResourceRequirements;
  Env : list EnvVar;
  VolumeMounts : list VolumeMount;
  Container_SecurityContext : option SecurityContext;
  ReadinessProbe : option Probe
}.

Record Toleration := {
  Toleration_Key : string;
  Toleration_Operator : string;
  Toleration_Value : string;
  Toleration_Effect : string
}.

Record LocalObjectReference := { LocalObjectReference_Name : string }.

Inductive DNSPolicy :=
  DNSClusterFirstWithHostNet | DNSClusterFirst | DNSDefault | DNSNone.

(** The anti-affinity rule of [podaffinity.NewPodAntiAffinity name namespace]:
    a preferred pod anti-affinity term selecting the workload's own pods. *)
Record PodAntiAffinity := {
  AntiAffinity_name : string;
  AntiAffinity_namespace : string
}.

Record Affinity := { PodAntiAffinity_ : option PodAntiAffinity }.

Record PodSpec := {
  Tolerations : list Toleration;
  ImagePullSecrets : list LocalObjectReference;
  ServiceAccountName : string;
  TerminationGracePeriodSeconds : option Z;
  HostNetwork : bool;
  DNSPolicy_ : option DNSPolicy;
  InitContainers : list Container;
  Containers : list Container;
  Volumes : list Volume;
  Affinity_ : option Affinity
}.

Record PodTemplateSpec := {
  PodTemplate_ObjectMeta : ObjectMeta;
  PodTemplate_Spec : PodSpec
}.

Record DaemonSetSpec := { DaemonSet_Template : PodTemplateSpec }.

Record DaemonSet := {
  DaemonSet_TypeMeta : TypeMeta;
  DaemonSet_ObjectMeta : ObjectMeta;
  DaemonSet_Spec : DaemonSetSpec
}.

Record DeploymentSpec := {
  Replicas : option Z;
  Deployment_Template : PodTemplateSpec
}.

Record Deployment := {
  Deployment_TypeMeta : TypeMeta;
  Deployment_ObjectMeta : ObjectMeta;
  Deployment_Spec : DeploymentSpec
}.

(** [client.Object]: the interface value carries its Go type, by which
    the client tells the kind of a typed object; [TypeMeta] may be left
    empty. *)
Inductive Object :=
| ONamespace (n : Namespace_)
| OSecret (s : Secret)
| OServiceAccount (sa : ServiceAccount)
| OClusterRole (cr : ClusterRole)
| OClusterRoleBinding (crb : ClusterRoleBinding)
| ODaemonSet (ds : DaemonSet)
| ODeployment (dp : Deployment).

Inductive ObjectKind :=
  KNamespace | KSecret | KServiceAccount | KClusterRole
| KClusterRoleBinding | KDaemonSet | KDeployment.

Definition kindOf (o : Object) : ObjectKind :=
  match o with
  | ONamespace _ => KNamespace
  | OSecret _ => KSecret
  | OServiceAccount _ => KServiceAccount
  | OClusterRole _ => KClusterRole
  | OClusterRoleBinding _ => KClusterRoleBinding
  | ODaemonSet _ => KDaemonSet
  | ODeployment _ => KDeployment
  end.

Definition metaOf (o : Object) : ObjectMeta :=
  match o with
  | ONamespace n => Namespace_ObjectMeta n
  | OSecret s => Secret_ObjectMeta s
  | OServiceAccount sa => ServiceAccount_ObjectMeta sa
  | OClusterRole cr => ClusterRole_ObjectMeta cr
  | OClusterRoleBinding crb => ClusterRoleBinding_ObjectMeta crb
  | ODaemonSet ds => DaemonSet_ObjectMeta ds
  | ODeployment dp => Deployment_ObjectMeta dp
  end.

(** Identity of a resource descriptor: (kind, namespace, name). *)
Definition identity (o : Object) : ObjectKind * string * string :=
  (kindOf o, Namespace (metaOf o), Name (metaOf o)).

Global Instance ObjectKind_eq_dec : EqDecision ObjectKind.
Proof. solve_decision. Defined.

End K8s.

(** ** Operator API types and the helper packages of the renderers *)

Module Operator.
Import K8s.

(** [operatorv1.Provider] and [operatorv1.ProductVariant] are string types. *)
Definition Provider : Type := string.
Definition ProductVariant : Type := string.
Definition PodSecurityStandard : Type := string.

Inductive OSType := OSTypeLinux | OSTypeWindows.

Record InstallationSpec := {
  Variant : ProductVariant;
  Registry : string;
  ImagePath : string;
  ImagePrefix : string;
  KubernetesProvider : Provider;
  ControlPlaneReplicas : option Z
}.

Record ComponentResource := {
  ComponentName : string;
  ComponentResource_ResourceRequirements : option ResourceRequirements
}.

Record IntrusionDetectionSpec := { ComponentResources : list ComponentResource }.

Record IntrusionDetection := { IntrusionDetection_Spec : IntrusionDetectionSpec }.

Record ImageSet := { ImageSet_Images : list (string * string) }.

(** A [components.component]: image name and version. *)
Record component := {
  component_Image : string;
  component_Version : string
}.

(** Go's [error]: its message, and what [errors.IsNotFound] answers on it. *)
Record error := {
  Error : string;
  IsNotFound : bool
}.

(** [fmt.Errorf msg] *)
Definition Errorf (msg : string) : error := {| Error := msg; IsNotFound := false |}.

(** [certificatemanagement.KeyPairInterface], by the methods the renderer
    calls.  The interface is implemented outside the sources at hand; a
    value of this record is one implementation's answers. *)
Record KeyPairInterface := {
  UseCertificateManagement : bool;
  InitContainer : string -> Container;
  KeyPair_Volume : Volume;
  KeyPair_VolumeMount : OSType -> VolumeMount;
  HashAnnotationKey : string;
  HashAnnotationValue : string;
  VolumeMountCertificateFilePath : string;
  VolumeMountKeyFilePath : string;
  KeyPair_Secret : string -> Secret
}.

(** Modelled from the spec: the contract of a key pair under certificate
    management, whose implementation is not at hand.  TLS material managed
    by an external issuer is materialised by an initialization step at pod
    start instead of being mounted from a pre-populated secret: the volume
    of such a key pair is an empty directory. *)
Definition certificateManagementContract (kp : KeyPairInterface) : Prop :=
  UseCertificateManagement kp = true →
  Volume_VolumeSource (KeyPair_Volume kp) = EmptyDirSource.

(** [certificatemanagement.TrustedBundle], likewise.  [HashAnnotations]
    answers with a map of its own (or with the nil map). *)
Record TrustedBundle := {
  HashAnnotations : StringMap;
  Bundle_Volume : Volume;
  Bundle_VolumeMount : OSType -> VolumeMount;
  MountPath : string
}.

(** [render.TyphaNodeTLS]. *)
Record TyphaNodeTLS := {
  TrustedBundle_ : TrustedBundle;
  NodeSecret : KeyPairInterface;
  TyphaCommonName : string;
  TyphaURISAN : string
}.

(** [relasticsearch.ClusterConfig], by its accessors. *)
Record ClusterConfig := {
  ClusterName : string;
  ESReplicas : Z;
  Shards : Z
}.

(** Functions and constants that the DPI renderer imports from packages
    whose sources are not at hand.  They are left uninterpreted: every
    result below holds for whatever these are, or states what it needs
    of them. *)
Class Imports := {
  (* render *)
  CreateNamespace : string -> Provider -> PodSecurityStandard -> Namespace_;
  PSSPrivileged : PodSecurityStandard;
  TyphaServiceName : string;
  ElasticsearchIntrusionDetectionUserSecret : string;
  (* render/common/secret *)
  CopyToNamespace : string -> list Secret -> list Secret;
  GetReferenceList : list Secret -> list LocalObjectReference;
  (* render/common/elasticsearch *)
  PublicCertSecret : string;
  DecorateAnnotations :
    PodTemplateSpec -> ClusterConfig -> list Secret -> PodTemplateSpec;
  ContainerDecorate :
    Container -> string -> string -> string -> OSType -> Container;
  ContainerDecorateIndexCreator : Container -> Z -> Z -> Container;
  (* render/common/meta, common, components, api/v1 *)
  TolerateAll : list Toleration;
  CalicoNamespace : string;
  ComponentDeepPacketInspection : component;
  GetReference :
    component -> string -> string -> string -> option ImageSet ->
    string * option error;
  ProviderOpenShift : Provider
}.

(** Modelled from the spec: [secret.ToRuntimeObjects], of package
    [render/common/secret], whose source is not at hand.  It hands a list
    of secrets to a render result as resource descriptors: each
    [*corev1.Secret] is seen as a [client.Object]. *)
Definition ToRuntimeObjects (secrets : list Secret) : list Object :=
  map OSecret secrets.

End Operator.

(** ** The DPI component renderer (package [dpi]) *)

Module Dpi.
Import K8s Operator.

Definition DeepPacketInspectionNamespace : string := "tigera-dpi".
Definition DeepPacketInspectionName : string := "tigera-dpi".
Definition DefaultMemoryLimit : string := "1Gi".
Definition DefaultMemoryRequest : string := "100Mi".
Definition DefaultCPULimit : string := "1".
Definition DefaultCPURequest : string := "100m".

(** The pointer fields of [DPIConfig] are modelled by what they point to:
    the controller fills them in before it renders. *)
Record DPIConfig := {
  IntrusionDetection_ : IntrusionDetection;
  Installation : InstallationSpec;
  TyphaNodeTLS_ : TyphaNodeTLS;
  PullSecrets : list Secret;
  Openshift : bool;
  HasNoLicense : bool;
  HasNoDPIResource : bool;
  ESSecrets : list Secret;
  ESClusterConfig : ClusterConfig;
  ClusterDomain : string
}.

Record dpiComponent := {
  cfg : DPIConfig;
  dpiImage : string
}.

Definition DPI (c : DPIConfig) : dpiComponent :=
  {| cfg := c; dpiImage := "" |}.

Section Renderer.
Context {imports : Imports}.

(** [ResolveImages] assigns [d.dpiImage] and returns the error; the
    component after the call is the first component of the result. *)
Definition ResolveImages (d : dpiComponent) (imageSet : option ImageSet)
  : dpiComponent * option error :=
  let '(image, err) :=
    GetReference ComponentDeepPacketInspection
      (Registry (Installation (cfg d)))
      (ImagePath (Installation (cfg d)))
      (ImagePrefix (Installation (cfg d)))
      imageSet in
  let d := {| cfg := cfg d; dpiImage := image |} in
  match err with
  | Some e => (d, Some e)
  | None => (d, None)
  end.

Definition Ready (d : dpiComponent) : bool := true.

Definition SupportedOSType (d : dpiComponent) : OSType := OSTypeLinux.

(** The assignment [annotations[key] = value] panics on the nil map. *)
Definition dpiAnnotations (d : dpiComponent) : option StringMap :=
  if HasNoDPIResource (cfg d) || HasNoLicense (cfg d) then Some None
  else
    annotations ← HashAnnotations (TrustedBundle_ (TyphaNodeTLS_ (cfg d)));
    let annotations :=
      <[ HashAnnotationKey (NodeSecret (TyphaNodeTLS_ (cfg d))) :=
         HashAnnotationValue (NodeSecret (TyphaNodeTLS_ (cfg d))) ]> annotations in
    Some (Some annotations).

Definition dpiClusterRole (d : dpiComponent) : ClusterRole :=
  let rules := [
    {| APIGroups := ["crd.projectcalico.org"];
       Resources := ["deeppacketinspections"];
       Verbs := ["get"; "list"; "watch"];
       ResourceNames := [] |};
    {| APIGroups := ["crd.projectcalico.org"];
       Resources := ["deeppacketinspections/status"];
       Verbs := ["update"];
       ResourceNames := [] |};
    {| APIGroups := [""];
       Resources := ["endpoints"; "services"];
       Verbs := ["watch"; "list"; "get"];
       ResourceNames := [] |} ] in
  let rules :=
    if decide (KubernetesProvider (Installation (cfg d)) ≠ ProviderOpenShift) then
      rules ++ [ {| APIGroups := ["policy"];
                    Resources := ["podsecuritypolicies"];
                    Verbs := ["use"];
                    ResourceNames := [DeepPacketInspectionName] |} ]
    else rules in
  {| ClusterRole_TypeMeta :=
       {| Kind := "ClusterRole"; APIVersion := "rbac.authorization.k8s.io/v1" |};
     ClusterRole_ObjectMeta :=
       {| Name := DeepPacketInspectionName; Namespace := "";
          Labels := None; Annotations := None |};
     Rules := rules |}.

Definition dpiClusterRoleBinding (d : dpiComponent) : ClusterRoleBinding :=
  {| ClusterRoleBinding_TypeMeta :=
       {| Kind := "ClusterRoleBinding"; APIVersion := "rbac.authorization.k8s.io/v1" |};
     ClusterRoleBinding_ObjectMeta :=
       {| Name := DeepPacketInspectionName; Namespace := "";
          Labels := Some ∅; Annotations := None |};
     RoleRef_ :=
       {| RoleRef_APIGroup := "rbac.authorization.k8s.io";
          RoleRef_Kind := "ClusterRole";
          RoleRef_Name := DeepPacketInspectionName |};
     Subjects := [
       {| Subject_Kind := "ServiceAccount";
          Subject_Name := DeepPacketInspectionName;
          Subject_Namespace := DeepPacketInspectionNamespace |} ] |}.

Definition dpiServiceAccount (d : dpiComponent) : ServiceAccount :=
  {| ServiceAccount_TypeMeta := {| Kind := "ServiceAccount"; APIVersion := "v1" |};
     ServiceAccount_ObjectMeta :=
       {| Name := DeepPacketInspectionName;
          Namespace := DeepPacketInspectionNamespace;
          Labels := None; Annotations := None |} |}.

Definition dpiReadinessProbes (d : dpiComponent) : Probe :=
  {| Probe_Handler :=
       {| HTTPGet := Some
            {| HTTPGet_Host := "localhost";
               HTTPGet_Path := "/readiness";
               HTTPGet_Port := FromInt 9097;
               HTTPGet_Scheme := URISchemeHTTP |} |};
     TimeoutSeconds := 10;
     InitialDelaySeconds := 90;
     PeriodSeconds := 10 |}.

Definition dpiVolumeMounts (d : dpiComponent) : list VolumeMount :=
  [ Bundle_VolumeMount (TrustedBundle_ (TyphaNodeTLS_ (cfg d))) (SupportedOSType d);
    KeyPair_VolumeMount (NodeSecret (TyphaNodeTLS_ (cfg d))) (SupportedOSType d);
    {| VolumeMount_Name := "log-snort-alters";
       VolumeMount_MountPath := "/var/log/calico/snort-alerts";
       VolumeMount_ReadOnly := false |} ].

Definition dpiEnvVars (d : dpiComponent) : list EnvVar :=
  let tls := TyphaNodeTLS_ (cfg d) in
  let env := [
    {| EnvVar_Name := "DPI_NODENAME"; EnvVar_Value := "";
       EnvVar_ValueFrom :=
         Some {| FieldRef := Some {| FieldPath := "spec.nodeName" |} |} |};
    {| EnvVar_Name := "DPI_TYPHAK8SNAMESPACE"; EnvVar_Value := CalicoNamespace;
       EnvVar_ValueFrom := None |};
    {| EnvVar_Name := "DPI_TYPHAK8SSERVICENAME"; EnvVar_Value := TyphaServiceName;
       EnvVar_ValueFrom := None |};
    {| EnvVar_Name := "DPI_TYPHACAFILE"; EnvVar_Value := MountPath (TrustedBundle_ tls);
       EnvVar_ValueFrom := None |};
    {| EnvVar_Name := "DPI_TYPHACERTFILE";
       EnvVar_Value := VolumeMountCertificateFilePath (NodeSecret tls);
       EnvVar_ValueFrom := None |};
    {| EnvVar_Name := "DPI_TYPHAKEYFILE";
       EnvVar_Value := VolumeMountKeyFilePath (NodeSecret tls);
       EnvVar_ValueFrom := None |} ] in
  let env :=
    if decide (TyphaCommonName tls ≠ "") then
      env ++ [ {| EnvVar_Name := "DPI_TYPHACN"; EnvVar_Value := TyphaCommonName tls;
                  EnvVar_ValueFrom := None |} ]
    else env in
  let env :=
    if decide (TyphaURISAN tls ≠ "") then
      env ++ [ {| EnvVar_Name := "DPI_TYPHAURISAN"; EnvVar_Value := TyphaURISAN tls;
                  EnvVar_ValueFrom := None |} ]
    else env in
  env.

Definition dpiVolumes (d : dpiComponent) : list Volume :=
  let dirOrCreate := HostPathDirectoryOrCreate in
  [ Bundle_Volume (TrustedBundle_ (TyphaNodeTLS_ (cfg d)));
    KeyPair_Volume (NodeSecret (TyphaNodeTLS_ (cfg d)));
    {| Volume_Name := "log-snort-alters";
       Volume_VolumeSource :=
         HostPathSource {| HostPath_Path := "/var/log/calico/snort-alerts";
                           HostPath_Type := Some dirOrCreate |} |} ].

(** [*d.cfg.IntrusionDetection.Spec.ComponentResources[0].ResourceRequirements]:
    the index panics on an empty slice, the dereference on a nil pointer. *)
Definition dpiResources (c : DPIConfig) : option ResourceRequirements :=
  cr ← ComponentResources (IntrusionDetection_Spec (IntrusionDetection_ c)) !! 0%nat;
  ComponentResource_ResourceRequirements cr.

Definition dpiContainer (d : dpiComponent) : option Container :=
  let privileged := false in
  let privileged := if Openshift (cfg d) then true else privileged in
  resources ← dpiResources (cfg d);
  let dpiContainer :=
    {| Container_Name := DeepPacketInspectionName;
       Image := dpiImage d;
       Container_Resources := resources;
       Env := dpiEnvVars d;
       VolumeMounts := dpiVolumeMounts d;
       Container_SecurityContext := Some {| Privileged := Some privileged |};
       ReadinessProbe := Some (dpiReadinessProbes d) |} in
  Some (ContainerDecorateIndexCreator
          (ContainerDecorate dpiContainer (ClusterName (ESClusterConfig (cfg d)))
             ElasticsearchIntrusionDetectionUserSecret (ClusterDomain (cfg d))
             OSTypeLinux)
          (ESReplicas (ESClusterConfig (cfg d))) (Shards (ESClusterConfig (cfg d)))).

Definition dpiDaemonset (d : dpiComponent) : option DaemonSet :=
  let terminationGracePeriod := 0 in
  let initContainers : list Container := [] in
  let initContainers :=
    if UseCertificateManagement (NodeSecret (TyphaNodeTLS_ (cfg d))) then
      initContainers ++
        [InitContainer (NodeSecret (TyphaNodeTLS_ (cfg d))) DeepPacketInspectionNamespace]
    else initContainers in
  annotations ← dpiAnnotations d;
  container ← dpiContainer d;
  let podTemplate :=
    DecorateAnnotations
      {| PodTemplate_ObjectMeta :=
           {| Name := ""; Namespace := ""; Labels := None;
              Annotations := annotations |};
         PodTemplate_Spec :=
           {| Tolerations := TolerateAll;
              ImagePullSecrets := GetReferenceList (PullSecrets (cfg d));
              ServiceAccountName := DeepPacketInspectionName;
              TerminationGracePeriodSeconds := Some terminationGracePeriod;
              HostNetwork := true;
              DNSPolicy_ := Some DNSClusterFirstWithHostNet;
              InitContainers := initContainers;
              Containers := [container];
              Volumes := dpiVolumes d;
              Affinity_ := None |} |}
      (ESClusterConfig (cfg d)) (ESSecrets (cfg d)) in
  Some {| DaemonSet_TypeMeta := {| Kind := "DaemonSet"; APIVersion := "apps/v1" |};
          DaemonSet_ObjectMeta :=
            {| Name := DeepPacketInspectionName;
               Namespace := DeepPacketInspectionNamespace;
               Labels := None; Annotations := None |};
          DaemonSet_Spec := {| DaemonSet_Template := podTemplate |} |}.

Definition Objects (d : dpiComponent) : option (list Object * list Object) :=
  let toCreate : list Object := [] in
  let toDelete : list Object := [] in
  let namespace :=
    ONamespace (CreateNamespace DeepPacketInspectionNamespace
                  (KubernetesProvider (Installation (cfg d))) PSSPrivileged) in
  let '(toCreate, toDelete) :=
    if HasNoLicense (cfg d) then (toCreate, toDelete ++ [namespace])
    else (toCreate ++ [namespace], toDelete) in
  if HasNoDPIResource (cfg d) || HasNoLicense (cfg d) then
    let toDelete :=
      toDelete ++ [ OSecret
        {| Secret_TypeMeta := {| Kind := "Secret"; APIVersion := "v1" |};
           Secret_ObjectMeta :=
             {| Name := PublicCertSecret; Namespace := DeepPacketInspectionNamespace;
                Labels := None; Annotations := None |};
           Secret_Data := None |} ] in
    let toDelete :=
      toDelete ++ ToRuntimeObjects
        (CopyToNamespace DeepPacketInspectionNamespace (PullSecrets (cfg d))) in
    daemonset ← dpiDaemonset d;
    let toDelete :=
      toDelete ++ [ OServiceAccount (dpiServiceAccount d);
                    OClusterRole (dpiClusterRole d);
                    OClusterRoleBinding (dpiClusterRoleBinding d);
                    ODaemonSet daemonset ] in
    Some (toCreate, toDelete)
  else
    let toCreate :=
      toCreate ++ ToRuntimeObjects
        (CopyToNamespace DeepPacketInspectionNamespace (ESSecrets (cfg d))) in
    let toCreate :=
      toCreate ++ ToRuntimeObjects
        (CopyToNamespace DeepPacketInspectionNamespace (PullSecrets (cfg d))) in
    daemonset ← dpiDaemonset d;
    let toCreate :=
      toCreate ++ [ OServiceAccount (dpiServiceAccount d);
                    OClusterRole (dpiClusterRole d);
                    OClusterRoleBinding (dpiClusterRoleBinding d);
                    ODaemonSet daemonset ] in
    Some (toCreate, toDelete).

(** [Objects] returns, rather than panics, exactly on these components
    (see [Objects_returns] below). *)
Definition renders (d : dpiComponent) : bool :=
  match dpiResources (cfg d), dpiAnnotations d with
  | Some _, Some _ => true
  | _, _ => false
  end.

(** [dpiAnnotations] writes into the map that [HashAnnotations] hands out.
    Should a bundle hand out its own map rather than a fresh one, a call
    of [Objects] leaves the bundle with the stamped map; [stamped d] is
    the component as the next call then finds it. *)
Definition stamped (d : dpiComponent) : dpiComponent :=
  match dpiAnnotations d with
  | Some (Some annotations) =>
      let c := cfg d in
      let tls := TyphaNodeTLS_ c in
      let bundle := TrustedBundle_ tls in
      {| cfg :=
           {| IntrusionDetection_ := IntrusionDetection_ c;
              Installation := Installation c;
              TyphaNodeTLS_ :=
                {| TrustedBundle_ :=
                     {| HashAnnotations := Some annotations;
                        Bundle_Volume := Bundle_Volume bundle;
                        Bundle_VolumeMount := Bundle_VolumeMount bundle;
                        MountPath := MountPath bundle |};
                   NodeSecret := NodeSecret tls;
                   TyphaCommonName := TyphaCommonName tls;
                   TyphaURISAN := TyphaURISAN tls |};
              PullSecrets := PullSecrets c;
              Openshift := Openshift c;
              HasNoLicense := HasNoLicense c;
              HasNoDPIResource := HasNoDPIResource c;
              ESSecrets := ESSecrets c;
              ESClusterConfig := ESClusterConfig c;
              ClusterDomain := ClusterDomain c |};
         dpiImage := dpiImage d |}
  | _ => d
  end.

(** *** Names for the parts of a render result *)

Definition namespaceObject (d : dpiComponent) : Object :=
  ONamespace (CreateNamespace DeepPacketInspectionNamespace
                (KubernetesProvider (Installation (cfg d))) PSSPrivileged).

Definition publicCertSecretObject : Object :=
  OSecret {| Secret_TypeMeta := {| Kind := "Secret"; APIVersion := "v1" |};
             Secret_ObjectMeta :=
               {| Name := PublicCertSecret; Namespace := DeepPacketInspectionNamespace;
                  Labels := None; Annotations := None |};
             Secret_Data := None |}.

Definition pullSecretObjects (d : dpiComponent) : list Object :=
  ToRuntimeObjects (CopyToNamespace DeepPacketInspectionNamespace (PullSecrets (cfg d))).

Definition esSecretObjects (d : dpiComponent) : list Object :=
  ToRuntimeObjects (CopyToNamespace DeepPacketInspectionNamespace (ESSecrets (cfg d))).

Definition workloadObjects (d : dpiComponent) (ds : DaemonSet) : list Object :=
  [ OServiceAccount (dpiServiceAccount d);
    OClusterRole (dpiClusterRole d);
    OClusterRoleBinding (dpiClusterRoleBinding d);
    ODaemonSet ds ].

(** The pod template of the rendered daemonset. *)
Definition podTemplateOf (ds : DaemonSet) : PodTemplateSpec :=
  DaemonSet_Template (DaemonSet_Spec ds).

(** The rule that grants the use of the pod security policy. *)
Definition podSecurityPolicyRule : PolicyRule :=
  {| APIGroups := ["policy"];
     Resources := ["podsecuritypolicies"];
     Verbs := ["use"];
     ResourceNames := [DeepPacketInspectionName] |}.

(** The container images of the daemonsets in a list of objects. *)
Definition daemonsetImages (objs : list Object) : list string :=
  flat_map (λ o,
    match o with
    | ODaemonSet ds => map Image (Containers (PodTemplate_Spec (podTemplateOf ds)))
    | _ => []
    end) objs.

(** *** What is asked of the imported decorators

    The Elasticsearch decorators add their own annotations and
    environment; the properties below name what a result needs them to
    leave alone. *)

Definition DecorateAnnotations_keeps_key (k : string) : Prop :=
  ∀ pt c s,
    getKey (Annotations (PodTemplate_ObjectMeta (DecorateAnnotations pt c s))) k
    = getKey (Annotations (PodTemplate_ObjectMeta pt)) k.

Definition DecorateAnnotations_keeps_spec : Prop :=
  ∀ pt c s, PodTemplate_Spec (DecorateAnnotations pt c s) = PodTemplate_Spec pt.

Definition ContainerDecorate_keeps_security : Prop :=
  (∀ c cluster secret domain os,
     Container_SecurityContext (ContainerDecorate c cluster secret domain os)
     = Container_SecurityContext c) ∧
  (∀ c replicas shards,
     Container_SecurityContext (ContainerDecorateIndexCreator c replicas shards)
     = Container_SecurityContext c).

End Renderer.

End Dpi.

(** ** The ES Gateway renderer (package [esgateway]) *)

Module EsGateway.
Import K8s Operator.

(** The part of [esgateway.Config] that the affinity rule reads. *)
Record Config := {
  Installation : InstallationSpec;
  PullSecrets : list Secret;
  ClusterDomain : string;
  EsAdminUserName : string
}.

Section Renderer.
(** [DeploymentName] and [render.ElasticsearchNamespace], named by the
    tests. *)
Context (DeploymentName ElasticsearchNamespace : string).

(** Modelled from the spec: [podaffinity.NewPodAntiAffinity], whose source
    is not at hand.  It is the scheduling anti-affinity constraint by
    which the replicas of the named workload prefer distinct hosts. *)
Definition NewPodAntiAffinity (name namespace : string) : Affinity :=
  {| PodAntiAffinity_ :=
       Some {| AntiAffinity_name := name; AntiAffinity_namespace := namespace |} |}.

(** Modelled from the spec: the deployment of the ES Gateway renderer,
    whose source file is not at hand (its tests are).  Replica-aware
    anti-affinity: a workload configured for more than one replica gets
    the anti-affinity constraint, otherwise none is added.  The tests
    fix the constraint to
    [NewPodAntiAffinity DeploymentName ElasticsearchNamespace]. *)
Definition esGatewayAffinity (c : Config) : option Affinity :=
  match ControlPlaneReplicas (Installation c) with
  | Some replicas =>
      if decide (1 < replicas)
      then Some (NewPodAntiAffinity DeploymentName ElasticsearchNamespace)
      else None
  | None => None
  end.

(** Modelled from the spec: the rendered deployment.  The spec describes
    its identity and the affinity rule; the rest of the pod template is
    whatever the renderer puts there, [rest] below. *)
Definition esGatewayDeployment (rest : PodSpec) (c : Config) : Deployment :=
  {| Deployment_TypeMeta := {| Kind := "Deployment"; APIVersion := "apps/v1" |};
     Deployment_ObjectMeta :=
       {| Name := DeploymentName; Namespace := ElasticsearchNamespace;
          Labels := None; Annotations := None |};
     Deployment_Spec :=
       {| Replicas := ControlPlaneReplicas (Installation c);
          Deployment_Template :=
            {| PodTemplate_ObjectMeta :=
                 {| Name := DeploymentName; Namespace := ElasticsearchNamespace;
                    Labels := None; Annotations := None |};
               PodTemplate_Spec :=
                 {| Tolerations := Tolerations rest;
                    ImagePullSecrets := ImagePullSecrets rest;
                    ServiceAccountName := ServiceAccountName rest;
                    TerminationGracePeriodSeconds := TerminationGracePeriodSeconds rest;
                    HostNetwork := HostNetwork rest;
                    DNSPolicy_ := DNSPolicy_ rest;
                    InitContainers := InitContainers rest;
                    Containers := Containers rest;
                    Volumes := Volumes rest;
                    Affinity_ := esGatewayAffinity c |} |} |} |}.

(** What the tests read: [deploy.Spec.Template.Spec.Affinity]. *)
Definition deploymentAffinity (dp : Deployment) : option Affinity :=
  Affinity_ (PodTemplate_Spec (Deployment_Template (Deployment_Spec dp))).

End Renderer.

End EsGateway.

(** ** What a reconciliation pass does: results, effects, and their trace *)

Module Controller.
Import K8s Operator.

(** [reconcile.Result]; [RequeueAfter] in seconds. *)
Record Result := {
  Requeue : bool;
  RequeueAfter : Z
}.

Definition Result_zero : Result := {| Requeue := false; RequeueAfter := 0 |}.

(** Custom resources a pass reads; of their content the controllers
    inspect the status state only. *)
Record APIServer := {
  APIServer_ObjectMeta : ObjectMeta;
  APIServer_Status_State : string
}.

Record Compliance := {
  Compliance_ObjectMeta : ObjectMeta;
  Compliance_Status_State : string
}.

Record ManagementCluster := { ManagementCluster_ObjectMeta : ObjectMeta }.

Record ManagementClusterConnection :=
  { ManagementClusterConnection_ObjectMeta : ObjectMeta }.

Record AmazonCloudIntegration := { AmazonCloudIntegration_ObjectMeta : ObjectMeta }.

Record Authentication := {
  Authentication_ObjectMeta : ObjectMeta;
  Authentication_Status_State : string
}.

Record LicenseKey := { LicenseKey_Features : list string }.

Record ServiceEndpoint := {
  ServiceEndpoint_Host : string;
  ServiceEndpoint_Port : string
}.

Record KeyValidatorConfig := { Issuer : string }.

Record CertificateInterface := {
  Certificate_Name : string;
  Certificate_Namespace : string
}.

(** *** Configurations handed to the renderers *)

Record APIServerConfiguration := {
  APIServerCfg_K8SServiceEndpoint : ServiceEndpoint;
  APIServerCfg_Installation : InstallationSpec;
  APIServerCfg_ForceHostNetwork : bool;
  APIServerCfg_ManagementCluster : option ManagementCluster;
  APIServerCfg_ManagementClusterConnection : option ManagementClusterConnection;
  APIServerCfg_AmazonCloudIntegration : option AmazonCloudIntegration;
  APIServerCfg_TLSKeyPair : KeyPairInterface;
  APIServerCfg_PullSecrets : list Secret;
  APIServerCfg_Openshift : bool;
  APIServerCfg_TunnelCASecret : option KeyPairInterface;
  APIServerCfg_UsePSP : bool
}.

(** [rcertificatemanagement.NewKeyPairOption keyPair initContainer clusterRole] *)
Record KeyPairOption := {
  KeyPairOption_keyPair : option KeyPairInterface;
  KeyPairOption_initContainer : bool;
  KeyPairOption_clusterRole : bool
}.

Definition NewKeyPairOption (keyPair : option KeyPairInterface)
    (initContainer clusterRole : bool) : KeyPairOption :=
  {| KeyPairOption_keyPair := keyPair;
     KeyPairOption_initContainer := initContainer;
     KeyPairOption_clusterRole := clusterRole |}.

Record CertificateManagementConfig := {
  CertCfg_Namespace : string;
  CertCfg_ServiceAccounts : list string;
  CertCfg_KeyPairOptions : list KeyPairOption;
  CertCfg_TrustedBundle : option TrustedBundle
}.

Record PacketCaptureApiConfiguration := {
  PacketCaptureCfg_PullSecrets : list Secret;
  PacketCaptureCfg_Openshift : bool;
  PacketCaptureCfg_Installation : InstallationSpec;
  PacketCaptureCfg_KeyValidatorConfig : option KeyValidatorConfig;
  PacketCaptureCfg_ServerCertSecret : KeyPairInterface;
  PacketCaptureCfg_ClusterDomain : string
}.

Record ComplianceConfiguration := {
  ComplianceCfg_ESSecrets : list Secret;
  ComplianceCfg_TrustedBundle : TrustedBundle;
  ComplianceCfg_Installation : InstallationSpec;
  ComplianceCfg_ComplianceServerCertSecret : option KeyPairInterface;
  ComplianceCfg_ESClusterConfig : ClusterConfig;
  ComplianceCfg_PullSecrets : list Secret;
  ComplianceCfg_Openshift : bool;
  ComplianceCfg_ManagementCluster : option ManagementCluster;
  ComplianceCfg_ManagementClusterConnection : option ManagementClusterConnection;
  ComplianceCfg_KeyValidatorConfig : option KeyValidatorConfig;
  ComplianceCfg_ClusterDomain : string;
  ComplianceCfg_HasNoLicense : bool;
  ComplianceCfg_UsePSP : bool
}.

(** A [render.Component], by the renderer that builds it and the
    configuration it is built from. *)
Inductive Component :=
| APIServerComponent (c : APIServerConfiguration)
| CertificateManagementComponent (c : CertificateManagementConfig)
| PassthroughComponent (objs : list Object)
| PacketCaptureAPIComponent (c : PacketCaptureApiConfiguration)
| ComplianceComponent (c : ComplianceConfiguration).

(** *** The trace of a pass *)

Inductive Resource :=
| RAPIServer | RCompliance | RInstallation | RCertificateAuthority
| RKeyPair (name namespace : string)
| RCertificate (name namespace : string)
| RPullSecrets | RManagementCluster | RManagementClusterConnection
| RAmazonCloudIntegration | RK8sServiceEndpoint | RAuthentication
| RKeyValidatorConfig | RAPIServerReady | RLicenseKey
| RElasticsearchClusterConfig | RElasticsearchSecrets.

(** What a pass does to the world outside, in the order it does it:
    calls on the status manager [r.status], reads through the client
    (with whether a resource came back), calls of a renderer, and the
    steps that apply a render result. *)
Inductive Event :=
| OnCRNotFound
| OnCRFound
| SetDegraded (reason msg : string)
| ClearDegraded
| AddToStatusManager (namespace : string)
| Read (what : Resource) (found : bool)
| Render (c : Component)
| ApplyImageSetCall (components : list Component)
| CreateOrUpdateOrDeleteCall (c : Component)
| StatusUpdateCall (state : string).

Definition isRender (e : Event) : bool :=
  match e with Render _ => true | _ => false end.

Definition isApply (e : Event) : bool :=
  match e with
  | ApplyImageSetCall _ | CreateOrUpdateOrDeleteCall _ | StatusUpdateCall _ => true
  | _ => false
  end.

(** What [Reconcile] returns. *)
Definition Return : Type := Result * option error.

(** A step of a pass either goes on with a value or returns from
    [Reconcile]; either way it has left a trace. *)
Definition M (A : Type) : Type := (A + Return) * list Event.

Global Instance M_ret : MRet M := λ A a, (inl a, []).

Global Instance M_bind : MBind M := λ A B f m,
  match m with
  | (inl a, w) => let '(x, w') := f a in (x, w ++ w')
  | (inr r, w) => (inr r, w)
  end.

Definition tell (e : Event) : M unit := (inl tt, [e]).

(** [return res, err] *)
Definition exit {A : Type} (res : Result) (err : option error) : M A :=
  (inr (res, err), []).

Definition run (m : M Return) : Return * list Event :=
  match m with
  | (inl r, w) => (r, w)
  | (inr r, w) => (r, w)
  end.

(** [for _, x := range l { body }] *)
Fixpoint forM_ {A : Type} (l : list A) (body : A -> M unit) : M unit :=
  match l with
  | [] => mret tt
  | x :: l' => body x;; forM_ l' body
  end.

Definition ok {A E : Type} (x : A + E) : bool :=
  match x with inl _ => true | inr _ => false end.

Definition present {A E : Type} (x : option A + E) : bool :=
  match x with inl (Some _) => true | _ => false end.

Definition observe (what : Resource) (found : bool) : M unit :=
  tell (Read what found).

(** The cluster as one pass meets it, and the packages the controllers
    call that are not among the sources at hand: each call is given by
    its answer. *)
Class Cluster := {
  CertificateManager : Type;
  (* controller/utils *)
  GetAPIServer : APIServer + (string * error);
  GetInstallation : (ProductVariant * InstallationSpec) + error;
  GetNetworkingPullSecrets : InstallationSpec -> list Secret + error;
  GetManagementCluster : option ManagementCluster + error;
  GetManagementClusterConnection : option ManagementClusterConnection + error;
  GetAmazonCloudIntegration : option AmazonCloudIntegration * option error;
  GetK8sServiceEndPoint : option error;
  GetAuthentication : option Authentication * option error;
  GetKeyValidatorConfig :
    option Authentication -> string -> option KeyValidatorConfig + error;
  IsAPIServerReady : bool;
  FetchLicenseKey : LicenseKey + error;
  IsFeatureActive : LicenseKey -> string -> bool;
  GetElasticsearchClusterConfig : ClusterConfig + error;
  ElasticsearchSecrets : list string -> list Secret + error;
  (* the Compliance resource, read by [GetCompliance] *)
  ClientGetCompliance : Compliance + error;
  (* controller/certificatemanager, tls/certificatemanagement *)
  Create : InstallationSpec -> string -> CertificateManager + error;
  GetOrCreateKeyPair :
    CertificateManager -> string -> string -> list string -> KeyPairInterface + error;
  GetKeyPair :
    CertificateManager -> string -> string -> option KeyPairInterface * option error;
  GetCertificate :
    CertificateManager -> string -> string -> option CertificateInterface + error;
  CreateTrustedBundle :
    CertificateManager -> list (option CertificateInterface) -> TrustedBundle;
  CreateSelfSignedSecret : string -> string -> string -> list string -> Secret + error;
  NewKeyPair : Secret -> KeyPairInterface;
  (* names *)
  APIServerNamespace : ProductVariant -> string;
  ProjectCalicoApiServerTLSSecretName : ProductVariant -> string;
  ProjectCalicoApiServerServiceName : ProductVariant -> string;
  ApiServerServiceAccountName : ProductVariant -> string;
  GetServiceDNSNames : string -> string -> string -> list string;
  OperatorNamespace : string;
  VoltronTunnelSecretName : string;
  PacketCaptureCertSecret : string;
  PacketCaptureServiceName : string;
  PacketCaptureNamespace : string;
  PacketCaptureServiceAccountName : string;
  ComplianceNamespace : string;
  ComplianceServiceName : string;
  ComplianceServerSAName : string;
  ComplianceServerCertSecret : string;
  ManagerInternalTLSSecretName : string;
  ESPublicCertSecret : string;
  ElasticsearchComplianceBenchmarkerUserSecret : string;
  ElasticsearchComplianceControllerUserSecret : string;
  ElasticsearchComplianceReporterUserSecret : string;
  ElasticsearchComplianceSnapshotterUserSecret : string;
  ElasticsearchComplianceServerUserSecret : string;
  ComplianceFeature : string;
  TigeraSecureEnterprise : ProductVariant;
  TigeraStatusReady : string;
  OpenShift : Provider;
  Endpoint : ServiceEndpoint;
  (* render *)
  APIServer_error : APIServerConfiguration -> option error;
  Compliance_error : ComplianceConfiguration -> option error;
  (* imageset, the component handler, the status manager, the client *)
  ApplyImageSet : ProductVariant -> list Component -> option error;
  CreateOrUpdateOrDelete : Component -> option error;
  IsAvailable : bool;
  StatusUpdate : string -> option error
}.

(** *** Reading a trace *)

(** The error of a pass that found both a [ManagementCluster] and a
    [ManagementClusterConnection]. *)
Definition bothError : error :=
  Errorf "having both a ManagementCluster and a ManagementClusterConnection is not supported".

(** Both resources were present in the pass: its reads of the two gave a
    resource each. *)
Definition readsBoth (tr : list Event) : Prop :=
  Read RManagementCluster true ∈ tr ∧ Read RManagementClusterConnection true ∈ tr.

(** The pass returned [bothError], its last act was to set the status
    degraded with that error, and it neither called a renderer nor applied
    anything. *)
Definition rejected (out : Return * list Event) : Prop :=
  fst out = (Result_zero, Some bothError) ∧
  last (snd out) = Some (SetDegraded (Error bothError) "") ∧
  Forall (λ e, isRender e = false ∧ isApply e = false) (snd out).

Definition noTopologyRead (e : Event) : Prop :=
  e ≠ Read RManagementCluster true ∧ e ≠ Read RManagementClusterConnection true.

(** A computation that reads neither resource. *)
Definition quiet {A : Type} (m : M A) : Prop := Forall noTopologyRead (snd m).

(** A computation run after the trace [w0]: where it goes on, the two
    resources have not both been read; where it returns after reading
    both, it has rejected them. *)
Definition guarded {A : Type} (w0 : list Event) (m : M A) : Prop :=
  match m with
  | (inl _, w) => ¬ readsBoth (w0 ++ w)
  | (inr r, w) => readsBoth (w0 ++ w) → rejected (r, w0 ++ w)
  end.

End Controller.

(** ** The API server controller (package [apiserver]) *)

Module ApiServer.
Import K8s Operator Controller.

(** The reconciler's own data; its [client], [scheme] and [status] are
    the world the pass acts on, see [Cluster] and [Event]. *)
Record ReconcileAPIServer := {
  provider : Provider;
  amazonCRDExists : bool;
  enterpriseCRDsExist : bool;
  clusterDomain : string;
  usePSP : bool
}.

Section Reconcile.
Context {cluster : Cluster}.

Definition Reconcile (r : ReconcileAPIServer) : M Return :=
  let res := GetAPIServer in
  observe RAPIServer (ok res);;
  instance ← match res with
    | inr (msg, err) =>
        if IsNotFound err then
          tell OnCRNotFound;;
          exit Result_zero None
        else
          tell (SetDegraded msg (Error err));;
          exit Result_zero (Some err)
    | inl instance => mret instance
    end;
  tell OnCRFound;;

  (* Query for the installation object. *)
  let res := GetInstallation in
  observe RInstallation (ok res);;
  '(variant, network) ← match res with
    | inr err =>
        if IsNotFound err then
          tell (SetDegraded "Installation not found" (Error err));;
          exit Result_zero (Some err)
        else
          tell (SetDegraded "Error querying installation" (Error err));;
          exit Result_zero (Some err)
    | inl vn => mret vn
    end;
  (if decide (variant = "") then
     tell (SetDegraded "Waiting for Installation to be ready" "");;
     exit Result_zero None
   else mret tt);;
  let ns := APIServerNamespace variant in

  let res := Create network (clusterDomain r) in
  observe RCertificateAuthority (ok res);;
  certificateManager ← match res with
    | inr err =>
        tell (SetDegraded "Unable to create the Tigera CA" (Error err));;
        exit Result_zero (Some err)
    | inl cm => mret cm
    end;

  (* We need separate certificates for OSS vs Enterprise. *)
  let secretName := ProjectCalicoApiServerTLSSecretName (Variant network) in
  let res :=
    GetOrCreateKeyPair certificateManager secretName OperatorNamespace
      (GetServiceDNSNames (ProjectCalicoApiServerServiceName (Variant network))
         (APIServerNamespace (Variant network)) (clusterDomain r)) in
  observe (RKeyPair secretName OperatorNamespace) (ok res);;
  tlsSecret ← match res with
    | inr err =>
        tell (SetDegraded "Unable to get or create tls key pair" (Error err));;
        exit Result_zero (Some err)
    | inl kp => mret kp
    end;

  tell (AddToStatusManager ns);;

  let res := GetNetworkingPullSecrets network in
  observe RPullSecrets (ok res);;
  pullSecrets ← match res with
    | inr err =>
        tell (SetDegraded "Error retrieving pull secrets" (Error err));;
        exit Result_zero (Some err)
    | inl ps => mret ps
    end;

  (* Query enterprise-only data. *)
  '(tunnelCASecret, amazon, managementCluster, managementClusterConnection,
    tunnelSecretPassthrough) ←
    (if decide (variant = TigeraSecureEnterprise) then
       let res := GetManagementCluster in
       observe RManagementCluster (present res);;
       managementCluster ← match res with
         | inr err =>
             tell (SetDegraded "Error reading ManagementCluster" (Error err));;
             exit Result_zero (Some err)
         | inl mc => mret mc
         end;

       let res := GetManagementClusterConnection in
       observe RManagementClusterConnection (present res);;
       managementClusterConnection ← match res with
         | inr err =>
             tell (SetDegraded "Error reading ManagementClusterConnection" (Error err));;
             exit Result_zero (Some err)
         | inl mcc => mret mcc
         end;

       match managementClusterConnection, managementCluster with
       | Some _, Some _ =>
           let err :=
             Errorf "having both a ManagementCluster and a ManagementClusterConnection is not supported" in
           tell (SetDegraded (Error err) "");;
           exit Result_zero (Some err)
       | _, _ => mret tt
       end;;

       '(tunnelCASecret, tunnelSecretPassthrough) ←
         match managementCluster with
         | Some _ =>
             let '(tunnelCASecret, err) :=
               GetKeyPair certificateManager VoltronTunnelSecretName OperatorNamespace in
             observe (RKeyPair VoltronTunnelSecretName OperatorNamespace)
               (bool_decide (is_Some tunnelCASecret));;
             '(tunnelCASecret, tunnelSecretPassthrough) ←
               match tunnelCASecret with
               | None =>
                   (* this [err] is a new variable of the inner block *)
                   match
                     CreateSelfSignedSecret VoltronTunnelSecretName OperatorNamespace
                       "tigera-voltron" ["voltron"]
                   with
                   | inl tunnelSecret =>
                       let tunnelCASecret := NewKeyPair tunnelSecret in
                       (* Creating the voltron tunnel secret is not (yet)
                          supported by certificate mananger. *)
                       let passthrough :=
                         PassthroughComponent
                           [OSecret (KeyPair_Secret tunnelCASecret OperatorNamespace)] in
                       tell (Render passthrough);;
                       mret (Some tunnelCASecret, Some passthrough)
                   | inr _ => mret (None, None)
                   end
               | Some kp => mret (Some kp, None)
               end;
             match err with
             | Some err =>
                 tell (SetDegraded "Unable to get or create the tunnel secret" (Error err));;
                 exit Result_zero (Some err)
             | None => mret (tunnelCASecret, tunnelSecretPassthrough)
             end
         | None => mret (None, None)
         end;

       amazon ←
         (if amazonCRDExists r then
            let '(amazon, err) := GetAmazonCloudIntegration in
            observe RAmazonCloudIntegration (bool_decide (is_Some amazon));;
            match err with
            | Some err =>
                if IsNotFound err then mret None
                else
                  tell (SetDegraded "Error reading AmazonCloudIntegration" (Error err));;
                  exit Result_zero (Some err)
            | None => mret amazon
            end
          else mret None);
       mret (tunnelCASecret, amazon, managementCluster, managementClusterConnection,
             tunnelSecretPassthrough)
     else mret (None, None, None, None, None));

  let err := GetK8sServiceEndPoint in
  observe RK8sServiceEndpoint (bool_decide (err = None));;
  match err with
  | Some err =>
      tell (SetDegraded "Error reading services endpoint configmap" (Error err));;
      exit Result_zero (Some err)
  | None => mret tt
  end;;

  (* Render the desired objects from the CRD and create or update them. *)
  let apiServerCfg :=
    {| APIServerCfg_K8SServiceEndpoint := Endpoint;
       APIServerCfg_Installation := network;
       APIServerCfg_ForceHostNetwork := false;
       APIServerCfg_ManagementCluster := managementCluster;
       APIServerCfg_ManagementClusterConnection := managementClusterConnection;
       APIServerCfg_AmazonCloudIntegration := amazon;
       APIServerCfg_TLSKeyPair := tlsSecret;
       APIServerCfg_PullSecrets := pullSecrets;
       APIServerCfg_Openshift := bool_decide (provider r = OpenShift);
       APIServerCfg_TunnelCASecret := tunnelCASecret;
       APIServerCfg_UsePSP := usePSP r |} in

  tell (Render (APIServerComponent apiServerCfg));;
  component ← match APIServer_error apiServerCfg with
    | Some err =>
        tell (SetDegraded "Error rendering APIServer" (Error err));;
        exit Result_zero (Some err)
    | None => mret (APIServerComponent apiServerCfg)
    end;
  let certificateManagement :=
    CertificateManagementComponent
      {| CertCfg_Namespace := APIServerNamespace variant;
         CertCfg_ServiceAccounts := [ApiServerServiceAccountName variant];
         CertCfg_KeyPairOptions :=
           [ NewKeyPairOption (Some tlsSecret) true true;
             NewKeyPairOption tunnelCASecret true true ];
         CertCfg_TrustedBundle := None |} in
  tell (Render certificateManagement);;
  let components := [component; certificateManagement] in
  let components :=
    match tunnelSecretPassthrough with
    | Some passthrough => components ++ [passthrough]
    | None => components
    end in

  components ←
    (if decide (variant = TigeraSecureEnterprise) then
       let res :=
         GetOrCreateKeyPair certificateManager PacketCaptureCertSecret OperatorNamespace
           (GetServiceDNSNames PacketCaptureServiceName PacketCaptureNamespace
              (clusterDomain r)) in
       observe (RKeyPair PacketCaptureCertSecret OperatorNamespace) (ok res);;
       packetCaptureCertSecret ← match res with
         | inr err =>
             tell (SetDegraded "Error retrieve or creating packet capture TLS certificate"
                     (Error err));;
             exit Result_zero (Some err)
         | inl kp => mret kp
         end;

       (* Fetch the Authentication spec. If present, we use to configure
          user authentication. *)
       let '(authenticationCR, err) := GetAuthentication in
       observe RAuthentication (bool_decide (is_Some authenticationCR));;
       match err with
       | Some err =>
           if negb (IsNotFound err) then
             tell (SetDegraded "Error querying Authentication" (Error err));;
             exit Result_zero (Some err)
           else mret tt
       | None => mret tt
       end;;

       let res := GetKeyValidatorConfig authenticationCR (clusterDomain r) in
       observe RKeyValidatorConfig (present res);;
       keyValidatorConfig ← match res with
         | inr err =>
             tell (SetDegraded "Failed to process the authentication CR." (Error err));;
             exit Result_zero (Some err)
         | inl kvc => mret kvc
         end;

       let packetCaptureApiCfg :=
         {| PacketCaptureCfg_PullSecrets := pullSecrets;
            PacketCaptureCfg_Openshift := bool_decide (provider r = OpenShift);
            PacketCaptureCfg_Installation := network;
            PacketCaptureCfg_KeyValidatorConfig := keyValidatorConfig;
            PacketCaptureCfg_ServerCertSecret := packetCaptureCertSecret;
            PacketCaptureCfg_ClusterDomain := clusterDomain r |} in
       let pc := PacketCaptureAPIComponent packetCaptureApiCfg in
       tell (Render pc);;
       let packetCaptureCertificates :=
         CertificateManagementComponent
           {| CertCfg_Namespace := PacketCaptureNamespace;
              CertCfg_ServiceAccounts := [PacketCaptureServiceAccountName];
              CertCfg_KeyPairOptions :=
                [ NewKeyPairOption (Some packetCaptureCertSecret) true true ];
              CertCfg_TrustedBundle := None |} in
       tell (Render packetCaptureCertificates);;
       let components := components ++ [pc; packetCaptureCertificates] in
       tell (AddToStatusManager PacketCaptureNamespace);;
       mret components
     else mret components);

  tell (ApplyImageSetCall components);;
  match ApplyImageSet variant components with
  | Some err =>
      tell (SetDegraded "Error with images from ImageSet" (Error err));;
      exit Result_zero (Some err)
  | None => mret tt
  end;;

  forM_ components (λ component,
    tell (CreateOrUpdateOrDeleteCall component);;
    match CreateOrUpdateOrDelete component with
    | Some err =>
        tell (SetDegraded "Error creating / updating resource" (Error err));;
        exit Result_zero (Some err)
    | None => mret tt
    end);;

  (* Clear the degraded bit if we've reached this far. *)
  tell ClearDegraded;;

  (if negb IsAvailable then
     (* Schedule a kick to check again in the near future. *)
     exit {| Requeue := false; RequeueAfter := 30 |} None
   else mret tt);;

  (* Everything is available - update the CRD status. *)
  tell (StatusUpdateCall TigeraStatusReady);;
  match StatusUpdate TigeraStatusReady with
  | Some err => exit Result_zero (Some err)
  | None => exit Result_zero None
  end.

End Reconcile.

End ApiServer.

(** ** The compliance controller (package [compliance]) *)

Module ComplianceController.
Import K8s Operator Controller.

(** The reconciler's own data; [licenseAPIReady] is the value of the
    ready flag when the pass reads it. *)
Record ReconcileCompliance := {
  provider : Provider;
  clusterDomain : string;
  licenseAPIReady : bool;
  usePSP : bool
}.

Section Reconcile.
Context {cluster : Cluster}.

Definition GetCompliance : Compliance + error :=
  match ClientGetCompliance with
  | inr err => inr err
  | inl instance => inl instance
  end.

Definition Reconcile (r : ReconcileCompliance) : M Return :=
  (* Fetch the Compliance instance *)
  let res := GetCompliance in
  observe RCompliance (ok res);;
  instance ← match res with
    | inr err =>
        if IsNotFound err then
          tell OnCRNotFound;;
          exit Result_zero None
        else
          tell (SetDegraded "Error querying compliance" (Error err));;
          exit Result_zero (Some err)
    | inl instance => mret instance
    end;
  tell OnCRFound;;

  let ready := IsAPIServerReady in
  observe RAPIServerReady ready;;
  (if negb ready then
     tell (SetDegraded "Waiting for Tigera API server to be ready" "");;
     exit Result_zero None
   else mret tt);;

  (if negb (licenseAPIReady r) then
     tell (SetDegraded "Waiting for LicenseKeyAPI to be ready" "");;
     exit {| Requeue := false; RequeueAfter := 10 |} None
   else mret tt);;

  let res := FetchLicenseKey in
  observe RLicenseKey (ok res);;
  license ← match res with
    | inr err =>
        if IsNotFound err then
          tell (SetDegraded "License not found" (Error err));;
          exit {| Requeue := false; RequeueAfter := 10 |} None
        else
          tell (SetDegraded "Error querying license" (Error err));;
          exit {| Requeue := false; RequeueAfter := 10 |} None
    | inl license => mret license
    end;

  (* Query for the installation object. *)
  let res := GetInstallation in
  observe RInstallation (ok res);;
  '(variant, network) ← match res with
    | inr err =>
        if IsNotFound err then
          tell (SetDegraded "Installation not found" (Error err));;
          exit Result_zero (Some err)
        else
          tell (SetDegraded "Error querying installation" (Error err));;
          exit Result_zero (Some err)
    | inl vn => mret vn
    end;

  let res := GetNetworkingPullSecrets network in
  observe RPullSecrets (ok res);;
  pullSecrets ← match res with
    | inr err =>
        tell (SetDegraded "Failed to retrieve pull secrets" (Error err));;
        exit Result_zero (Some err)
    | inl ps => mret ps
    end;

  let res := GetElasticsearchClusterConfig in
  observe RElasticsearchClusterConfig (ok res);;
  esClusterConfig ← match res with
    | inr err =>
        if IsNotFound err then
          tell (SetDegraded
                  "Elasticsearch cluster configuration is not available, waiting for it to become available"
                  (Error err));;
          exit Result_zero None
        else
          tell (SetDegraded "Failed to get the elasticsearch cluster configuration"
                  (Error err));;
          exit Result_zero (Some err)
    | inl c => mret c
    end;

  let secretsToWatch :=
    [ ElasticsearchComplianceBenchmarkerUserSecret;
      ElasticsearchComplianceControllerUserSecret;
      ElasticsearchComplianceReporterUserSecret;
      ElasticsearchComplianceSnapshotterUserSecret ] in

  let res := GetManagementCluster in
  observe RManagementCluster (present res);;
  managementCluster ← match res with
    | inr err =>
        tell (SetDegraded "Error reading ManagementCluster" (Error err));;
        exit Result_zero (Some err)
    | inl mc => mret mc
    end;

  let res := GetManagementClusterConnection in
  observe RManagementClusterConnection (present res);;
  managementClusterConnection ← match res with
    | inr err =>
        tell (SetDegraded "Error reading ManagementClusterConnection" (Error err));;
        exit Result_zero (Some err)
    | inl mcc => mret mcc
    end;

  match managementClusterConnection, managementCluster with
  | Some _, Some _ =>
      let err :=
        Errorf "having both a ManagementCluster and a ManagementClusterConnection is not supported" in
      tell (SetDegraded (Error err) "");;
      exit Result_zero (Some err)
  | _, _ => mret tt
  end;;

  (* Compliance server is only for Standalone or Management clusters *)
  let secretsToWatch :=
    match managementClusterConnection with
    | None => secretsToWatch ++ [ElasticsearchComplianceServerUserSecret]
    | Some _ => secretsToWatch
    end in

  let res := ElasticsearchSecrets secretsToWatch in
  observe RElasticsearchSecrets (ok res);;
  esSecrets ← match res with
    | inr err =>
        if IsNotFound err then
          tell (SetDegraded
                  "Elasticsearch secrets are not available yet, waiting until they become available"
                  (Error err));;
          exit Result_zero None
        else
          tell (SetDegraded "Failed to get Elasticsearch credentials" (Error err));;
          exit Result_zero (Some err)
    | inl s => mret s
    end;

  let res := Create network (clusterDomain r) in
  observe RCertificateAuthority (ok res);;
  certificateManager ← match res with
    | inr err =>
        tell (SetDegraded "Unable to create the Tigera CA" (Error err));;
        exit Result_zero (Some err)
    | inl cm => mret cm
    end;
  managerInternalTLSSecret ←
    match managementCluster with
    | Some _ =>
        let res :=
          GetCertificate certificateManager ManagerInternalTLSSecretName
            OperatorNamespace in
        observe (RCertificate ManagerInternalTLSSecretName OperatorNamespace)
          (present res);;
        match res with
        | inr err =>
            tell (SetDegraded
                    ("failed to retrieve / validate  " +:+ ManagerInternalTLSSecretName)
                    (Error err));;
            exit Result_zero (Some err)
        | inl c => mret c
        end
    | None => mret None
    end;
  let res := GetCertificate certificateManager ESPublicCertSecret OperatorNamespace in
  observe (RCertificate ESPublicCertSecret OperatorNamespace) (present res);;
  esgwCertificate ← match res with
    | inr err =>
        tell (SetDegraded ("Failed to retrieve / validate  " +:+ ESPublicCertSecret)
                (Error err));;
        exit Result_zero (Some err)
    | inl None =>
        tell (SetDegraded
                "Elasticsearch gateway certificate are not available yet, waiting until they become available"
                "");;
        exit Result_zero None
    | inl (Some c) => mret c
    end;
  let trustedBundle :=
    CreateTrustedBundle certificateManager
      [managerInternalTLSSecret; Some esgwCertificate] in

  complianceServerCertSecret ←
    match managementClusterConnection with
    | None =>
        let res :=
          GetOrCreateKeyPair certificateManager ComplianceServerCertSecret
            OperatorNamespace
            (GetServiceDNSNames ComplianceServiceName ComplianceNamespace
               (clusterDomain r)) in
        observe (RKeyPair ComplianceServerCertSecret OperatorNamespace) (ok res);;
        match res with
        | inr err =>
            tell (SetDegraded
                    ("failed to retrieve / validate  " +:+ ComplianceServerCertSecret)
                    (Error err));;
            exit Result_zero (Some err)
        | inl kp => mret (Some kp)
        end
    | Some _ => mret None
    end;
  tell (AddToStatusManager ComplianceNamespace);;

  (* Fetch the Authentication spec. If present, we use to configure user
     authentication. *)
  let '(authenticationCR, err) := GetAuthentication in
  observe RAuthentication (bool_decide (is_Some authenticationCR));;
  match err with
  | Some err =>
      if negb (IsNotFound err) then
        tell (SetDegraded "Error querying Authentication" (Error err));;
        exit Result_zero (Some err)
      else mret tt
  | None => mret tt
  end;;
  match authenticationCR with
  | Some cr =>
      if decide (Authentication_Status_State cr ≠ TigeraStatusReady) then
        tell (SetDegraded "Authentication is not ready"
                ("authenticationCR status: " +:+ Authentication_Status_State cr));;
        exit Result_zero None
      else mret tt
  | None => mret tt
  end;;

  let res := GetKeyValidatorConfig authenticationCR (clusterDomain r) in
  observe RKeyValidatorConfig (present res);;
  keyValidatorConfig ← match res with
    | inr err =>
        tell (SetDegraded "Failed to process the authentication CR." (Error err));;
        exit Result_zero (Some err)
    | inl kvc => mret kvc
    end;

  let hasNoLicense := negb (IsFeatureActive license ComplianceFeature) in
  let openshift := bool_decide (provider r = OpenShift) in
  let complianceCfg :=
    {| ComplianceCfg_ESSecrets := esSecrets;
       ComplianceCfg_TrustedBundle := trustedBundle;
       ComplianceCfg_Installation := network;
       ComplianceCfg_ComplianceServerCertSecret := complianceServerCertSecret;
       ComplianceCfg_ESClusterConfig := esClusterConfig;
       ComplianceCfg_PullSecrets := pullSecrets;
       ComplianceCfg_Openshift := openshift;
       ComplianceCfg_ManagementCluster := managementCluster;
       ComplianceCfg_ManagementClusterConnection := managementClusterConnection;
       ComplianceCfg_KeyValidatorConfig := keyValidatorConfig;
       ComplianceCfg_ClusterDomain := clusterDomain r;
       ComplianceCfg_HasNoLicense := hasNoLicense;
       ComplianceCfg_UsePSP := usePSP r |} in
  (* Render the desired objects from the CRD and create or update them. *)
  tell (Render (ComplianceComponent complianceCfg));;
  comp ← match Compliance_error complianceCfg with
    | Some err =>
        tell (SetDegraded "Error rendering Compliance" (Error err));;
        exit Result_zero (Some err)
    | None => mret (ComplianceComponent complianceCfg)
    end;

  tell (ApplyImageSetCall [comp]);;
  match ApplyImageSet variant [comp] with
  | Some err =>
      tell (SetDegraded "Error with images from ImageSet" (Error err));;
      exit Result_zero (Some err)
  | None => mret tt
  end;;
  let certificateComponent :=
    CertificateManagementComponent
      {| CertCfg_Namespace := ComplianceNamespace;
         CertCfg_ServiceAccounts := [ComplianceServerSAName];
         CertCfg_KeyPairOptions :=
           [ NewKeyPairOption complianceServerCertSecret true true ];
         CertCfg_TrustedBundle := Some trustedBundle |} in
  tell (Render certificateComponent);;

  forM_ [comp; certificateComponent] (λ comp,
    tell (CreateOrUpdateOrDeleteCall comp);;
    match CreateOrUpdateOrDelete comp with
    | Some err =>
        tell (SetDegraded "Error creating / updating / deleting resource" (Error err));;
        exit Result_zero (Some err)
    | None => mret tt
    end);;

  (if hasNoLicense then
     tell (SetDegraded "Feature is not active" "License does not support this feature");;
     exit Result_zero None
   else mret tt);;

  (* Clear the degraded bit if we've reached this far. *)
  tell ClearDegraded;;

  (if negb IsAvailable then
     exit {| Requeue := false; RequeueAfter := 30 |} None
   else mret tt);;

  (* Everything is available - update the CRD status. *)
  tell (StatusUpdateCall TigeraStatusReady);;
  match StatusUpdate TigeraStatusReady with
  | Some err => exit Result_zero (Some err)
  | None => exit Result_zero None
  end.

End Reconcile.

End ComplianceController.

(** ** Concrete inputs

    One implementation of the imported helpers and one cluster, on which
    the renderer and the passes can be run. *)

Module Examples.
Import K8s Operator.

Definition setAnnotation (k v : string) (pt : PodTemplateSpec) : PodTemplateSpec :=
  {| PodTemplate_ObjectMeta :=
       {| Name := Name (PodTemplate_ObjectMeta pt);
          Namespace := Namespace (PodTemplate_ObjectMeta pt);
          Labels := Labels (PodTemplate_ObjectMeta pt);
          Annotations :=
            Some (<[ k := v ]>
                    (default ∅ (Annotations (PodTemplate_ObjectMeta pt)))) |};
     PodTemplate_Spec := PodTemplate_Spec pt |}.

Definition addEnv (c : Container) (env : list EnvVar) : Container :=
  {| Container_Name := Container_Name c;
     Image := Image c;
     Container_Resources := Container_Resources c;
     Env := Env c ++ env;
     VolumeMounts := VolumeMounts c;
     Container_SecurityContext := Container_SecurityContext c;
     ReadinessProbe := ReadinessProbe c |}.

Definition copySecret (ns : string) (s : Secret) : Secret :=
  {| Secret_TypeMeta := Secret_TypeMeta s;
     Secret_ObjectMeta :=
       {| Name := Name (Secret_ObjectMeta s); Namespace := ns;
          Labels := Labels (Secret_ObjectMeta s); Annotations := None |};
     Secret_Data := Secret_Data s |}.

(** Helpers that behave as their names say: secrets are copied with the
    namespace replaced, the decorators add an annotation and environment
    variables of their own, the image reference is
    registry + image + ":" + version, or registry + image + "@" + digest
    when an image set names the image. *)
Definition imports : Imports :=
  {| CreateNamespace name provider pss :=
       {| Namespace_TypeMeta := {| Kind := "Namespace"; APIVersion := "v1" |};
          Namespace_ObjectMeta :=
            {| Name := name; Namespace := "";
               Labels := Some {[ "name" := name ]};
               Annotations := None |} |};
     PSSPrivileged := "privileged";
     TyphaServiceName := "calico-typha";
     ElasticsearchIntrusionDetectionUserSecret :=
       "tigera-ee-intrusion-detection-elasticsearch-access";
     CopyToNamespace ns secrets := map (copySecret ns) secrets;
     GetReferenceList secrets :=
       map (λ s, {| LocalObjectReference_Name := Name (Secret_ObjectMeta s) |}) secrets;
     PublicCertSecret := "tigera-secure-es-http-certs-public";
     DecorateAnnotations pt config secrets :=
       setAnnotation "hash.operator.tigera.io/elasticsearch-configmap"
         (ClusterName config) pt;
     ContainerDecorate c cluster secret domain os :=
       addEnv c [ {| EnvVar_Name := "ELASTIC_INDEX_SUFFIX"; EnvVar_Value := cluster;
                     EnvVar_ValueFrom := None |} ];
     ContainerDecorateIndexCreator c replicas shards :=
       addEnv c [ {| EnvVar_Name := "ELASTIC_REPLICAS"; EnvVar_Value := "";
                     EnvVar_ValueFrom := None |} ];
     TolerateAll :=
       [ {| Toleration_Key := ""; Toleration_Operator := "Exists";
            Toleration_Value := ""; Toleration_Effect := "" |} ];
     CalicoNamespace := "calico-system";
     ComponentDeepPacketInspection :=
       {| component_Image := "tigera/deep-packet-inspection";
          component_Version := "v1.0" |};
     GetReference c registry imagePath imagePrefix imageSet :=
       match imageSet with
       | None =>
           (registry +:+ component_Image c +:+ ":" +:+ component_Version c, None)
       | Some set =>
           match
             (list_to_map (ImageSet_Images set) : gmap string string)
               !! component_Image c
           with
           | Some digest => (registry +:+ component_Image c +:+ "@" +:+ digest, None)
           | None => ("", Some (Errorf "ImageSet did not contain image"))
           end
       end;
     ProviderOpenShift := "OpenShift" |}.

Definition secretNamed (name ns : string) : Secret :=
  {| Secret_TypeMeta := TypeMeta_zero;
     Secret_ObjectMeta :=
       {| Name := name; Namespace := ns; Labels := None; Annotations := None |};
     Secret_Data := None |}.

Definition containerNamed (name : string) : Container :=
  {| Container_Name := name; Image := "";
     Container_Resources := {| Limits := None; Requests := None |};
     Env := []; VolumeMounts := [];
     Container_SecurityContext := None; ReadinessProbe := None |}.

(** A key pair that keeps the contract of certificate management: under
    certificate management its volume is an empty directory that the init
    container fills, otherwise the secret itself. *)
Definition nodeSecret (certificateManagement : bool) : KeyPairInterface :=
  {| UseCertificateManagement := certificateManagement;
     InitContainer ns := containerNamed "node-certs-key-cert-provisioner";
     KeyPair_Volume :=
       {| Volume_Name := "node-certs";
          Volume_VolumeSource :=
            if certificateManagement then EmptyDirSource
            else SecretSource "node-certs" (Some 420) |};
     KeyPair_VolumeMount os :=
       {| VolumeMount_Name := "node-certs"; VolumeMount_MountPath := "/node-certs";
          VolumeMount_ReadOnly := true |};
     HashAnnotationKey := "hash.operator.tigera.io/node-certs";
     HashAnnotationValue := "f00d";
     VolumeMountCertificateFilePath := "/node-certs/tls.crt";
     VolumeMountKeyFilePath := "/node-certs/tls.key";
     KeyPair_Secret ns := secretNamed "node-certs" ns |}.

Definition bundle : TrustedBundle :=
  {| HashAnnotations := Some {[ "hash.operator.tigera.io/tigera-ca-private" := "cafe" ]};
     Bundle_Volume :=
       {| Volume_Name := "tigera-ca-bundle";
          Volume_VolumeSource := ConfigMapSource "tigera-ca-bundle" |};
     Bundle_VolumeMount os :=
       {| VolumeMount_Name := "tigera-ca-bundle";
          VolumeMount_MountPath := "/etc/pki/tls/certs/";
          VolumeMount_ReadOnly := true |};
     MountPath := "/etc/pki/tls/certs/tigera-ca-bundle.crt" |}.

Definition installation (provider : Provider) : InstallationSpec :=
  {| Variant := "TigeraSecureEnterprise";
     Registry := "testregistry.com/";
     ImagePath := ""; ImagePrefix := "";
     KubernetesProvider := provider;
     ControlPlaneReplicas := Some 2 |}.

Definition resources : ResourceRequirements :=
  {| Limits := Some {[ "memory" := Dpi.DefaultMemoryLimit; "cpu" := Dpi.DefaultCPULimit ]};
     Requests :=
       Some {[ "memory" := Dpi.DefaultMemoryRequest; "cpu" := Dpi.DefaultCPURequest ]} |}.

Definition config (hasNoLicense hasNoDPIResource certificateManagement : bool)
  : Dpi.DPIConfig :=
  {| Dpi.IntrusionDetection_ :=
       {| IntrusionDetection_Spec :=
            {| ComponentResources :=
                 [ {| ComponentName := "DeepPacketInspection";
                      ComponentResource_ResourceRequirements := Some resources |} ] |} |};
     Dpi.Installation := installation "";
     Dpi.TyphaNodeTLS_ :=
       {| TrustedBundle_ := bundle;
          NodeSecret := nodeSecret certificateManagement;
          TyphaCommonName := "typha-server";
          TyphaURISAN := "" |};
     Dpi.PullSecrets := [secretNamed "tigera-pull-secret" "tigera-operator"];
     Dpi.Openshift := false;
     Dpi.HasNoLicense := hasNoLicense;
     Dpi.HasNoDPIResource := hasNoDPIResource;
     Dpi.ESSecrets := [secretNamed "tigera-secure-es-http-certs-public" "tigera-operator"];
     Dpi.ESClusterConfig := {| ClusterName := "cluster"; ESReplicas := 1; Shards := 5 |};
     Dpi.ClusterDomain := "cluster.local" |}.

(** The same configuration with no component resources set: the renderer
    panics on it. *)
Definition configWithoutResources : Dpi.DPIConfig :=
  let c := config false false false in
  {| Dpi.IntrusionDetection_ := {| IntrusionDetection_Spec := {| ComponentResources := [] |} |};
     Dpi.Installation := Dpi.Installation c;
     Dpi.TyphaNodeTLS_ := Dpi.TyphaNodeTLS_ c;
     Dpi.PullSecrets := Dpi.PullSecrets c;
     Dpi.Openshift := Dpi.Openshift c;
     Dpi.HasNoLicense := Dpi.HasNoLicense c;
     Dpi.HasNoDPIResource := Dpi.HasNoDPIResource c;
     Dpi.ESSecrets := Dpi.ESSecrets c;
     Dpi.ESClusterConfig := Dpi.ESClusterConfig c;
     Dpi.ClusterDomain := Dpi.ClusterDomain c |}.

Definition imageSet : ImageSet :=
  {| ImageSet_Images := [("tigera/deep-packet-inspection", "sha256:0123")] |}.

Definition podSpec : PodSpec :=
  {| Tolerations := []; ImagePullSecrets := []; ServiceAccountName := "";
     TerminationGracePeriodSeconds := None; HostNetwork := false;
     DNSPolicy_ := None; InitContainers := []; Containers := []; Volumes := [];
     Affinity_ := None |}.

(** The configuration of the ES Gateway tests, by replica count. *)
Definition esGatewayConfig (replicas : Z) : EsGateway.Config :=
  {| EsGateway.Installation :=
       {| Variant := ""; Registry := "testregistry.com/";
          ImagePath := ""; ImagePrefix := "";
          KubernetesProvider := "";
          ControlPlaneReplicas := Some replicas |};
     EsGateway.PullSecrets := [secretNamed "tigera-pull-secret" ""];
     EsGateway.ClusterDomain := "cluster.local";
     EsGateway.EsAdminUserName := "elastic" |}.

Definition metaNamed (name : string) : ObjectMeta :=
  {| Name := name; Namespace := ""; Labels := None; Annotations := None |}.

(** An enterprise cluster in which every read succeeds and that holds
    both a [ManagementCluster] and a [ManagementClusterConnection]. *)
Definition cluster : Controller.Cluster :=
  {| Controller.CertificateManager := unit;
     Controller.GetAPIServer :=
       inl {| Controller.APIServer_ObjectMeta := metaNamed "tigera-secure";
              Controller.APIServer_Status_State := "" |};
     Controller.GetInstallation :=
       inl ("TigeraSecureEnterprise", installation "");
     Controller.GetNetworkingPullSecrets _ := inl [];
     Controller.GetManagementCluster :=
       inl (Some {| Controller.ManagementCluster_ObjectMeta := metaNamed "tigera-secure" |});
     Controller.GetManagementClusterConnection :=
       inl (Some {| Controller.ManagementClusterConnection_ObjectMeta :=
                      metaNamed "tigera-secure" |});
     Controller.GetAmazonCloudIntegration := (None, None);
     Controller.GetK8sServiceEndPoint := None;
     Controller.GetAuthentication := (None, None);
     Controller.GetKeyValidatorConfig _ _ := inl None;
     Controller.IsAPIServerReady := true;
     Controller.FetchLicenseKey :=
       inl {| Controller.LicenseKey_Features := ["compliance-reports"] |};
     Controller.IsFeatureActive license feature :=
       bool_decide (feature ∈ Controller.LicenseKey_Features license);
     Controller.GetElasticsearchClusterConfig :=
       inl {| ClusterName := "cluster"; ESReplicas := 1; Shards := 5 |};
     Controller.ElasticsearchSecrets names :=
       inl (map (λ n, secretNamed n "tigera-operator") names);
     Controller.ClientGetCompliance :=
       inl {| Controller.Compliance_ObjectMeta := metaNamed "tigera-secure";
              Controller.Compliance_Status_State := "" |};
     Controller.Create _ _ := inl ();
     Controller.GetOrCreateKeyPair _ _ _ _ := inl (nodeSecret false);
     Controller.GetKeyPair _ _ _ := (None, None);
     Controller.GetCertificate _ name namespace :=
       inl (Some {| Controller.Certificate_Name := name;
                    Controller.Certificate_Namespace := namespace |});
     Controller.CreateTrustedBundle _ _ := bundle;
     Controller.CreateSelfSignedSecret name namespace _ _ :=
       inl (secretNamed name namespace);
     Controller.NewKeyPair _ := nodeSecret false;
     Controller.APIServerNamespace _ := "tigera-system";
     Controller.ProjectCalicoApiServerTLSSecretName _ := "tigera-apiserver-certs";
     Controller.ProjectCalicoApiServerServiceName _ := "tigera-api";
     Controller.ApiServerServiceAccountName _ := "tigera-apiserver";
     Controller.GetServiceDNSNames service namespace domain :=
       [service; service +:+ "." +:+ namespace;
        service +:+ "." +:+ namespace +:+ ".svc." +:+ domain];
     Controller.OperatorNamespace := "tigera-operator";
     Controller.VoltronTunnelSecretName := "tigera-management-cluster-connection";
     Controller.PacketCaptureCertSecret := "tigera-packetcapture-server-tls";
     Controller.PacketCaptureServiceName := "tigera-packetcapture";
     Controller.PacketCaptureNamespace := "tigera-packetcapture";
     Controller.PacketCaptureServiceAccountName := "tigera-packetcapture";
     Controller.ComplianceNamespace := "tigera-compliance";
     Controller.ComplianceServiceName := "compliance";
     Controller.ComplianceServerSAName := "tigera-compliance-server";
     Controller.ComplianceServerCertSecret := "tigera-compliance-server-tls";
     Controller.ManagerInternalTLSSecretName := "internal-manager-tls";
     Controller.ESPublicCertSecret := "tigera-secure-es-http-certs-public";
     Controller.ElasticsearchComplianceBenchmarkerUserSecret :=
       "tigera-ee-compliance-benchmarker-elasticsearch-access";
     Controller.ElasticsearchComplianceControllerUserSecret :=
       "tigera-ee-compliance-controller-elasticsearch-access";
     Controller.ElasticsearchComplianceReporterUserSecret :=
       "tigera-ee-compliance-reporter-elasticsearch-access";
     Controller.ElasticsearchComplianceSnapshotterUserSecret :=
       "tigera-ee-compliance-snapshotter-elasticsearch-access";
     Controller.ElasticsearchComplianceServerUserSecret :=
       "tigera-ee-compliance-server-elasticsearch-access";
     Controller.ComplianceFeature := "compliance-reports";
     Controller.TigeraSecureEnterprise := "TigeraSecureEnterprise";
     Controller.TigeraStatusReady := "Ready";
     Controller.OpenShift := "OpenShift";
     Controller.Endpoint :=
       {| Controller.ServiceEndpoint_Host := ""; Controller.ServiceEndpoint_Port := "" |};
     Controller.APIServer_error _ := None;
     Controller.Compliance_error _ := None;
     Controller.ApplyImageSet _ _ := None;
     Controller.CreateOrUpdateOrDelete _ := None;
     Controller.IsAvailable := true;
     Controller.StatusUpdate _ := None |}.

Definition apiServerReconciler : ApiServer.ReconcileAPIServer :=
  {| ApiServer.provider := "";
     ApiServer.amazonCRDExists := false;
     ApiServer.enterpriseCRDsExist := true;
     ApiServer.clusterDomain := "cluster.local";
     ApiServer.usePSP := false |}.

Definition complianceReconciler : ComplianceController.ReconcileCompliance :=
  {| ComplianceController.provider := "";
     ComplianceController.clusterDomain := "cluster.local";
     ComplianceController.licenseAPIReady := true;
     ComplianceController.usePSP := false |}.

End Examples.
(** ** Effects over any events and any return type *)

Module Effects.

(** A computation that leaves a trace of events [E] and either goes on
    with a value or returns [R] from the function it is part of.
    [Controller.M] is the instance at [Controller.Event] and
    [Controller.Return]. *)
Definition MG (E R A : Type) : Type := (A + R) * list E.

#[export] Instance MG_ret {E R : Type} : MRet (MG E R) := λ A a, (inl a, []).

#[export] Instance MG_bind {E R : Type} : MBind (MG E R) := λ A B f m,
  match m with
  | (inl a, w) => let '(x, w') := f a in (x, w ++ w')
  | (inr r, w) => (inr r, w)
  end.

Definition tellG {E R : Type} (e : E) : MG E R unit := (inl tt, [e]).

Definition exitG {E R A : Type} (r : R) : MG E R A := (inr r, []).

Definition runG {E R : Type} (m : MG E R R) : R * list E :=
  match m with
  | (inl r, w) => (r, w)
  | (inr r, w) => (r, w)
  end.

(** [for _, x := range l { body }] *)
Fixpoint forG_ {E R A : Type} (l : list A) (body : A → MG E R unit) : MG E R unit :=
  match l with
  | [] => mret tt
  | x :: l' => body x;; forG_ l' body
  end.

(** A loop that updates a variable [s] of the enclosing function. *)
Fixpoint foldG {E R A S : Type} (l : list A) (s : S) (body : S → A → MG E R S)
  : MG E R S :=
  match l with
  | [] => mret s
  | x :: l' => s' ← body s x; foldG l' s' body
  end.

(** *** Statements about a computation *)

(** The shape of a computation's trace.  Where the computation goes on
    with a value [a], every event so far satisfies [P] and [V a] holds.
    Where it returns [r], the trace is a prefix of events that satisfy
    [P], followed by an ending that [S r] describes.  With [V] nowhere
    true the computation returns on every path. *)
Definition holds {E R A : Type} (P : E → Prop) (V : A → Prop)
    (S : R → list E → Prop) (m : MG E R A) : Prop :=
  match m with
  | (inl a, w) => Forall P w ∧ V a
  | (inr r, w) => ∃ pre post, w = pre ++ post ∧ Forall P pre ∧ S r post
  end.

End Effects.

(** ** Further names for the DPI renderer *)

Module DpiViews.
Import K8s Operator Dpi.

(** The component as the controller builds it when a license or a DPI
    resource comes or goes: the same configuration and image, the two
    gates as given. *)
Definition withGates (hasNoLicense hasNoDPIResource : bool) (d : dpiComponent)
  : dpiComponent :=
  let c := cfg d in
  {| cfg :=
       {| IntrusionDetection_ := IntrusionDetection_ c;
          Installation := Installation c;
          TyphaNodeTLS_ := TyphaNodeTLS_ c;
          PullSecrets := PullSecrets c;
          Openshift := Openshift c;
          HasNoLicense := hasNoLicense;
          HasNoDPIResource := hasNoDPIResource;
          ESSecrets := ESSecrets c;
          ESClusterConfig := ESClusterConfig c;
          ClusterDomain := ClusterDomain c |};
     dpiImage := dpiImage d |}.

(** The verbs that only read. *)
Definition readVerbs : list string := ["get"; "list"; "watch"].

Section Renderer.
Context {imports : Imports}.

(** What [ResolveImages] asks [components.GetReference] for. *)
Definition resolvedReference (d : dpiComponent) (imageSet : option ImageSet)
  : string * option error :=
  GetReference ComponentDeepPacketInspection
    (Registry (Installation (cfg d)))
    (ImagePath (Installation (cfg d)))
    (ImagePrefix (Installation (cfg d)))
    imageSet.

(** The Elasticsearch decorators leave the image of a container alone. *)
Definition ContainerDecorate_keeps_image : Prop :=
  (∀ c cluster secret domain os,
     Image (ContainerDecorate c cluster secret domain os) = Image c) ∧
  (∀ c replicas shards,
     Image (ContainerDecorateIndexCreator c replicas shards) = Image c).

(** The volume mounts of the trusted bundle and of the node key pair name
    the volumes that the two hand out. *)
Definition mountsNameVolumes (tls : TyphaNodeTLS) : Prop :=
  VolumeMount_Name (Bundle_VolumeMount (TrustedBundle_ tls) OSTypeLinux)
  = Volume_Name (Bundle_Volume (TrustedBundle_ tls)) ∧
  VolumeMount_Name (KeyPair_VolumeMount (NodeSecret tls) OSTypeLinux)
  = Volume_Name (KeyPair_Volume (NodeSecret tls)).

End Renderer.

End DpiViews.

(** ** The DPI component as an object with state *)

Module DpiState.
Import K8s Operator Dpi.

(** What a caller does with a component once [DPI] has built it. *)
Inductive Call :=
| CallResolveImages (imageSet : option ImageSet)
| CallObjects.

Section Renderer.
Context {imports : Imports}.

(** The component after its trusted bundle's map of hash annotations has
    become [annotations]. *)
Definition withHashAnnotations (annotations : StringMap) (d : dpiComponent)
  : dpiComponent :=
  let c := cfg d in
  let tls := TyphaNodeTLS_ c in
  let bundle := TrustedBundle_ tls in
  {| cfg :=
       {| IntrusionDetection_ := IntrusionDetection_ c;
          Installation := Installation c;
          TyphaNodeTLS_ :=
            {| TrustedBundle_ :=
                 {| HashAnnotations := annotations;
                    Bundle_Volume := Bundle_Volume bundle;
                    Bundle_VolumeMount := Bundle_VolumeMount bundle;
                    MountPath := MountPath bundle |};
               NodeSecret := NodeSecret tls;
               TyphaCommonName := TyphaCommonName tls;
               TyphaURISAN := TyphaURISAN tls |};
          PullSecrets := PullSecrets c;
          Openshift := Openshift c;
          HasNoLicense := HasNoLicense c;
          HasNoDPIResource := HasNoDPIResource c;
          ESSecrets := ESSecrets c;
          ESClusterConfig := ESClusterConfig c;
          ClusterDomain := ClusterDomain c |};
     dpiImage := dpiImage d |}.

(** [dpiAnnotations] with its write.  The assignment
    [annotations[key] = value] writes into the map that [HashAnnotations]
    handed out; where that is the bundle's own map ([shared]), the bundle
    hands out the written map from then on.  The result is the map
    returned and the component after the call. *)
Definition dpiAnnotationsS (shared : bool) (d : dpiComponent)
  : option (StringMap * dpiComponent) :=
  if HasNoDPIResource (cfg d) || HasNoLicense (cfg d) then Some (None, d)
  else
    annotations ← HashAnnotations (TrustedBundle_ (TyphaNodeTLS_ (cfg d)));
    let annotations :=
      <[ HashAnnotationKey (NodeSecret (TyphaNodeTLS_ (cfg d))) :=
         HashAnnotationValue (NodeSecret (TyphaNodeTLS_ (cfg d))) ]> annotations in
    Some (Some annotations,
          if shared then withHashAnnotations (Some annotations) d else d).

(** [dpiDaemonset], the component threaded through: the annotations are
    computed first, then the container and the volumes, from the
    component as the write left it. *)
Definition dpiDaemonsetS (shared : bool) (d : dpiComponent)
  : option (DaemonSet * dpiComponent) :=
  let terminationGracePeriod := 0 in
  let initContainers : list Container := [] in
  let initContainers :=
    if UseCertificateManagement (NodeSecret (TyphaNodeTLS_ (cfg d))) then
      initContainers ++
        [InitContainer (NodeSecret (TyphaNodeTLS_ (cfg d))) DeepPacketInspectionNamespace]
    else initContainers in
  '(annotations, d) ← dpiAnnotationsS shared d;
  container ← dpiContainer d;
  let podTemplate :=
    DecorateAnnotations
      {| PodTemplate_ObjectMeta :=
           {| Name := ""; Namespace := ""; Labels := None;
              Annotations := annotations |};
         PodTemplate_Spec :=
           {| Tolerations := TolerateAll;
              ImagePullSecrets := GetReferenceList (PullSecrets (cfg d));
              ServiceAccountName := DeepPacketInspectionName;
              TerminationGracePeriodSeconds := Some terminationGracePeriod;
              HostNetwork := true;
              DNSPolicy_ := Some DNSClusterFirstWithHostNet;
              InitContainers := initContainers;
              Containers := [container];
              Volumes := dpiVolumes d;
              Affinity_ := None |} |}
      (ESClusterConfig (cfg d)) (ESSecrets (cfg d)) in
  Some ({| DaemonSet_TypeMeta := {| Kind := "DaemonSet"; APIVersion := "apps/v1" |};
           DaemonSet_ObjectMeta :=
             {| Name := DeepPacketInspectionName;
                Namespace := DeepPacketInspectionNamespace;
                Labels := None; Annotations := None |};
           DaemonSet_Spec := {| DaemonSet_Template := podTemplate |} |},
        d).

(** [Objects], the component threaded through: what it returns and the
    component after the call; [None] where it panics. *)
Definition ObjectsS (shared : bool) (d : dpiComponent)
  : option ((list Object * list Object) * dpiComponent) :=
  let toCreate : list Object := [] in
  let toDelete : list Object := [] in
  let namespace :=
    ONamespace (CreateNamespace DeepPacketInspectionNamespace
                  (KubernetesProvider (Installation (cfg d))) PSSPrivileged) in
  let '(toCreate, toDelete) :=
    if HasNoLicense (cfg d) then (toCreate, toDelete ++ [namespace])
    else (toCreate ++ [namespace], toDelete) in
  if HasNoDPIResource (cfg d) || HasNoLicense (cfg d) then
    let toDelete :=
      toDelete ++ [ OSecret
        {| Secret_TypeMeta := {| Kind := "Secret"; APIVersion := "v1" |};
           Secret_ObjectMeta :=
             {| Name := PublicCertSecret; Namespace := DeepPacketInspectionNamespace;
                Labels := None; Annotations := None |};
           Secret_Data := None |} ] in
    let toDelete :=
      toDelete ++ ToRuntimeObjects
        (CopyToNamespace DeepPacketInspectionNamespace (PullSecrets (cfg d))) in
    let serviceAccount := dpiServiceAccount d in
    let clusterRole := dpiClusterRole d in
    let clusterRoleBinding := dpiClusterRoleBinding d in
    '(daemonset, d) ← dpiDaemonsetS shared d;
    let toDelete :=
      toDelete ++ [ OServiceAccount serviceAccount;
                    OClusterRole clusterRole;
                    OClusterRoleBinding clusterRoleBinding;
                    ODaemonSet daemonset ] in
    Some ((toCreate, toDelete), d)
  else
    let toCreate :=
      toCreate ++ ToRuntimeObjects
        (CopyToNamespace DeepPacketInspectionNamespace (ESSecrets (cfg d))) in
    let toCreate :=
      toCreate ++ ToRuntimeObjects
        (CopyToNamespace DeepPacketInspectionNamespace (PullSecrets (cfg d))) in
    let serviceAccount := dpiServiceAccount d in
    let clusterRole := dpiClusterRole d in
    let clusterRoleBinding := dpiClusterRoleBinding d in
    '(daemonset, d) ← dpiDaemonsetS shared d;
    let toCreate :=
      toCreate ++ [ OServiceAccount serviceAccount;
                    OClusterRole clusterRole;
                    OClusterRoleBinding clusterRoleBinding;
                    ODaemonSet daemonset ] in
    Some ((toCreate, toDelete), d).

(** The component after a sequence of calls; [None] where a call of
    [Objects] panicked. *)
Fixpoint perform (shared : bool) (calls : list Call) (d : dpiComponent)
  : option dpiComponent :=
  match calls with
  | [] => Some d
  | CallResolveImages imageSet :: calls =>
      perform shared calls (fst (ResolveImages d imageSet))
  | CallObjects :: calls =>
      '(_, d) ← ObjectsS shared d;
      perform shared calls d
  end.

(** The image set of the last call of [ResolveImages] among [calls], if
    there is one. *)
Fixpoint lastImageSet (calls : list Call) : option (option ImageSet) :=
  match calls with
  | [] => None
  | CallResolveImages imageSet :: calls =>
      match lastImageSet calls with
      | Some later => Some later
      | None => Some imageSet
      end
  | CallObjects :: calls => lastImageSet calls
  end.

(** The image reference that the calls leave resolved for a component
    built from [c]: what [GetReference] answered to the last call of
    [ResolveImages], and the empty reference before any. *)
Definition resolvedImage (c : DPIConfig) (calls : list Call) : string :=
  match lastImageSet calls with
  | Some imageSet => fst (DpiViews.resolvedReference (DPI c) imageSet)
  | None => ""
  end.

End Renderer.

End DpiState.

(** ** How a pass ends *)

Module Outcomes.
Import K8s Operator Controller.

(** The events by which a pass settles the status of its component. *)
Definition isStatus (e : Event) : bool :=
  match e with
  | OnCRNotFound | SetDegraded _ _ | ClearDegraded | StatusUpdateCall _ => true
  | _ => false
  end.

Section Outcomes.
Context {cluster : Cluster}.

(** The ways in which a pass of the API server controller or of the
    compliance controller ends, by its last acts [ending] and what it
    returns.  It stands down, the primary resource missing; it sets the
    status degraded, and returns either the error, whose text is the
    message (or, with no message, the reason), or no error and a delay
    from [waits]; it clears the degraded status and asks for another pass
    in thirty seconds, the component not yet available; or it clears the
    degraded status and updates the resource's status to ready, returning
    what the update returns. *)
Definition settled (waits : list Z) (r : Return) (ending : list Event) : Prop :=
  match ending with
  | [OnCRNotFound] => r = (Result_zero, None)
  | [SetDegraded reason msg] =>
      match snd r with
      | Some err =>
          fst r = Result_zero ∧ (msg = Error err ∨ (reason = Error err ∧ msg = ""))
      | None => Requeue (fst r) = false ∧ RequeueAfter (fst r) ∈ waits
      end
  | [ClearDegraded] =>
      r = ({| Requeue := false; RequeueAfter := 30 |}, None) ∧ IsAvailable = false
  | [ClearDegraded; StatusUpdateCall state] =>
      state = TigeraStatusReady ∧
      r = (Result_zero, StatusUpdate TigeraStatusReady) ∧
      IsAvailable = true
  | _ => False
  end.

(** The last acts of a pass of the API server controller that clears the
    degraded status: the image set is applied to the components and
    accepts them, every component is created or updated without error, in
    the order of the list, and then the status is cleared; what follows
    is at most the update of the resource's status. *)
Definition appliedThenCleared (ending : list Event) : Prop :=
  ∃ variant components tail,
    ending = ApplyImageSetCall components ::
               (CreateOrUpdateOrDeleteCall <$> components) ++ ClearDegraded :: tail ∧
    ApplyImageSet variant components = None ∧
    Forall (λ c, CreateOrUpdateOrDelete c = None) components ∧
    (tail = [] ∨ tail = [StatusUpdateCall TigeraStatusReady]).

(** The last acts of a pass of the compliance controller that clears the
    degraded status: the image set is applied to the compliance component
    alone and accepts it, the certificate management is rendered, both
    are created or updated without error, and then the status is
    cleared; the license read by the pass has the compliance feature. *)
Definition complianceAppliedThenCleared (ending : list Event) : Prop :=
  ∃ variant license comp certificates tail,
    ending = [ ApplyImageSetCall [comp]; Render certificates;
               CreateOrUpdateOrDeleteCall comp;
               CreateOrUpdateOrDeleteCall certificates;
               ClearDegraded ] ++ tail ∧
    ApplyImageSet variant [comp] = None ∧
    CreateOrUpdateOrDelete comp = None ∧
    CreateOrUpdateOrDelete certificates = None ∧
    FetchLicenseKey = inl license ∧
    IsFeatureActive license ComplianceFeature = true ∧
    (tail = [] ∨ tail = [StatusUpdateCall TigeraStatusReady]).

(** The last status act of a pass whose license lacks the feature. *)
Definition featureNotActive : Event :=
  SetDegraded "Feature is not active" "License does not support this feature".

(** The last acts of a pass of the compliance controller that finds the
    license without the compliance feature: it has applied the image set
    to the compliance component, rendered the certificate management and
    created, updated or deleted both without error, as with the feature;
    then it sets the status degraded and returns no error. *)
Definition complianceAppliedFeatureless (r : Return) (ending : list Event) : Prop :=
  ∃ variant license comp certificates,
    ending = [ ApplyImageSetCall [comp]; Render certificates;
               CreateOrUpdateOrDeleteCall comp;
               CreateOrUpdateOrDeleteCall certificates;
               featureNotActive ] ∧
    ApplyImageSet variant [comp] = None ∧
    CreateOrUpdateOrDelete comp = None ∧
    CreateOrUpdateOrDelete certificates = None ∧
    FetchLicenseKey = inl license ∧
    IsFeatureActive license ComplianceFeature = false ∧
    r = (Result_zero, None).

(** What the API server controller hands to the renderer of the API
    server, against what the cluster holds.  The installation is the one
    it read.  Off the enterprise variant no enterprise data goes in; on
    it, the two management resources go in as read.  Never both of them;
    a tunnel CA secret only with a [ManagementCluster]; an
    [AmazonCloudIntegration] only where its CRD exists. *)
Definition apiServerConfigured (r : ApiServer.ReconcileAPIServer)
    (c : APIServerConfiguration) : Prop :=
  ∃ variant,
    GetInstallation = inl (variant, APIServerCfg_Installation c) ∧
    GetNetworkingPullSecrets (APIServerCfg_Installation c)
    = inl (APIServerCfg_PullSecrets c) ∧
    (variant ≠ TigeraSecureEnterprise →
       APIServerCfg_ManagementCluster c = None ∧
       APIServerCfg_ManagementClusterConnection c = None ∧
       APIServerCfg_AmazonCloudIntegration c = None ∧
       APIServerCfg_TunnelCASecret c = None) ∧
    (variant = TigeraSecureEnterprise →
       GetManagementCluster = inl (APIServerCfg_ManagementCluster c) ∧
       GetManagementClusterConnection
       = inl (APIServerCfg_ManagementClusterConnection c)) ∧
    ¬ (is_Some (APIServerCfg_ManagementCluster c) ∧
       is_Some (APIServerCfg_ManagementClusterConnection c)) ∧
    (is_Some (APIServerCfg_TunnelCASecret c) →
       is_Some (APIServerCfg_ManagementCluster c)) ∧
    (is_Some (APIServerCfg_AmazonCloudIntegration c) →
       ApiServer.amazonCRDExists r = true).

(** The Elasticsearch user secrets that a pass of the compliance
    controller asks for: the compliance server's is left out on a managed
    cluster. *)
Definition complianceUserSecrets
    (managementClusterConnection : option ManagementClusterConnection)
  : list string :=
  [ ElasticsearchComplianceBenchmarkerUserSecret;
    ElasticsearchComplianceControllerUserSecret;
    ElasticsearchComplianceReporterUserSecret;
    ElasticsearchComplianceSnapshotterUserSecret ] ++
  match managementClusterConnection with
  | None => [ElasticsearchComplianceServerUserSecret]
  | Some _ => []
  end.

(** What the compliance controller hands to the renderer, against what
    the cluster holds.  The controller renders only with the API server
    and the license API ready and, where there is an [Authentication],
    with that ready.  Installation, pull secrets, Elasticsearch cluster
    configuration and secrets, and the two management resources are as
    read, never both of the latter; the license gate is closed exactly
    when the license read lacks the compliance feature; and there is a
    certificate for the compliance server exactly off managed
    clusters. *)
Definition complianceConfigured (r : ComplianceController.ReconcileCompliance)
    (c : ComplianceConfiguration) : Prop :=
  ∃ variant license,
    IsAPIServerReady = true ∧
    ComplianceController.licenseAPIReady r = true ∧
    (∀ cr, fst GetAuthentication = Some cr →
           Authentication_Status_State cr = TigeraStatusReady) ∧
    GetInstallation = inl (variant, ComplianceCfg_Installation c) ∧
    GetNetworkingPullSecrets (ComplianceCfg_Installation c)
    = inl (ComplianceCfg_PullSecrets c) ∧
    FetchLicenseKey = inl license ∧
    ComplianceCfg_HasNoLicense c = negb (IsFeatureActive license ComplianceFeature) ∧
    GetElasticsearchClusterConfig = inl (ComplianceCfg_ESClusterConfig c) ∧
    GetManagementCluster = inl (ComplianceCfg_ManagementCluster c) ∧
    GetManagementClusterConnection
    = inl (ComplianceCfg_ManagementClusterConnection c) ∧
    ¬ (is_Some (ComplianceCfg_ManagementCluster c) ∧
       is_Some (ComplianceCfg_ManagementClusterConnection c)) ∧
    ElasticsearchSecrets
      (complianceUserSecrets (ComplianceCfg_ManagementClusterConnection c))
    = inl (ComplianceCfg_ESSecrets c) ∧
    (ComplianceCfg_ComplianceServerCertSecret c = None ↔
     is_Some (ComplianceCfg_ManagementClusterConnection c)).

Definition rendersComplianceConfigured
    (r : ComplianceController.ReconcileCompliance) (e : Event) : Prop :=
  match e with
  | Render (ComplianceComponent c) => complianceConfigured r c
  | _ => True
  end.

Definition rendersConfigured (r : ApiServer.ReconcileAPIServer) (e : Event) : Prop :=
  match e with
  | Render (APIServerComponent c) => apiServerConfigured r c
  | _ => True
  end.

(** The events of a pass that keeps off everything enterprise: it reads
    none of the enterprise resources, renders neither a passthrough nor
    the packet capture API, and applies the image set to the API server
    and its certificate management alone. *)
Definition communityEvent (e : Event) : Prop :=
  match e with
  | Read RManagementCluster _ | Read RManagementClusterConnection _
  | Read RAmazonCloudIntegration _ | Read RAuthentication _
  | Read RKeyValidatorConfig _ => False
  | Render (PassthroughComponent _) | Render (PacketCaptureAPIComponent _) => False
  | ApplyImageSetCall components =>
      ∃ c cm, components = [APIServerComponent c; CertificateManagementComponent cm]
  | _ => True
  end.

End Outcomes.

End Outcomes.

(** ** The management cluster connection controller (package [clusterconnection]) *)

Module ClusterConnection.
Import K8s Operator Controller Effects.

(** [render.GuardianConfiguration] *)
Record GuardianConfiguration := {
  GuardianCfg_URL : string;
  GuardianCfg_PullSecrets : list Secret;
  GuardianCfg_Openshift : bool;
  GuardianCfg_Installation : InstallationSpec;
  GuardianCfg_TunnelSecret : Secret;
  GuardianCfg_TrustedCertBundle : TrustedBundle
}.

(** What a pass of this controller does to the world outside: the acts
    of the other controllers, the read of a secret through the client,
    and the render and apply steps of the guardian component. *)
Inductive ConnEvent :=
| Act (e : Event)
| ReadSecret (name namespace : string) (found : bool)
| RenderGuardian (c : GuardianConfiguration)
| ApplyImageSetGuardianCall (c : GuardianConfiguration)
| CreateOrUpdateOrDeleteGuardianCall (c : GuardianConfiguration).

(** The reconciler's own data; its [Client], [Scheme] and [status] are
    the world the pass acts on. *)
Record ReconcileConnection := {
  Provider_ : Provider;
  clusterDomain : string
}.

(** What this controller asks of the cluster and of the packages it
    calls, beyond what the other controllers ask: each call is given by
    its answer.  [ManagementClusterAddr] reads
    [Spec.ManagementClusterAddr] of the resource, and [AddCertificates]
    answers with the bundle as it is after the call. *)
Class Connection {cluster : Cluster} := {
  ManagementClusterAddr : ManagementClusterConnection → string;
  ClientGetSecret : string → string → Secret + error;
  GuardianSecretName : string;
  PrometheusTLSSecretName : string;
  AddCertificates : TrustedBundle → CertificateInterface → TrustedBundle;
  ApplyImageSetGuardian : ProductVariant → GuardianConfiguration → option error;
  CreateOrUpdateOrDeleteGuardian : GuardianConfiguration → option error
}.

Section Reconcile.
Context {cluster : Cluster} {connection : Connection}.

Definition Reconcile (r : ReconcileConnection) : MG ConnEvent Return Return :=
  let result := Result_zero in

  let res := GetInstallation in
  tellG (Act (Read RInstallation (ok res)));;
  '(variant, instl) ← match res with
    | inr err => exitG (result, Some err)
    | inl vi => mret vi
    end;

  let res := GetManagementCluster in
  tellG (Act (Read RManagementCluster (present res)));;
  managementCluster ← match res with
    | inr err =>
        tellG (Act (SetDegraded "Error reading ManagementCluster" (Error err)));;
        exitG (Result_zero, Some err)
    | inl mc => mret mc
    end;

  (* Fetch the managementClusterConnection. *)
  let res := GetManagementClusterConnection in
  tellG (Act (Read RManagementClusterConnection (present res)));;
  managementClusterConnection ← match res with
    | inr err =>
        tellG (Act (SetDegraded "Error querying ManagementClusterConnection"
                      (Error err)));;
        exitG (result, Some err)
    | inl None =>
        tellG (Act OnCRNotFound);;
        exitG (result, None)
    | inl (Some mcc) => mret mcc
    end;

  (* [managementClusterConnection] is not nil here *)
  match Some managementClusterConnection, managementCluster with
  | Some _, Some _ =>
      let err :=
        Errorf "having both a ManagementCluster and a ManagementClusterConnection is not supported" in
      tellG (Act (SetDegraded (Error err) ""));;
      exitG (Result_zero, Some err)
  | _, _ => mret tt
  end;;

  tellG (Act OnCRFound);;

  let res := GetNetworkingPullSecrets instl in
  tellG (Act (Read RPullSecrets (ok res)));;
  pullSecrets ← match res with
    | inr err =>
        tellG (Act (SetDegraded "Error retrieving pull secrets" (Error err)));;
        exitG (result, Some err)
    | inl ps => mret ps
    end;

  let res := Create instl (clusterDomain r) in
  tellG (Act (Read RCertificateAuthority (ok res)));;
  certificateManager ← match res with
    | inr err =>
        tellG (Act (SetDegraded "Unable to create the Tigera CA" (Error err)));;
        exitG (Result_zero, Some err)
    | inl cm => mret cm
    end;

  (* Copy the secret from the operator namespace to the guardian namespace
     if it is present. *)
  let res := ClientGetSecret GuardianSecretName OperatorNamespace in
  tellG (ReadSecret GuardianSecretName OperatorNamespace (ok res));;
  tunnelSecret ← match res with
    | inr err =>
        tellG (Act (SetDegraded "Error retrieving secrets from guardian namespace"
                      (Error err)));;
        if negb (IsNotFound err) then exitG (result, None)
        else exitG (result, Some err)
    | inl secret => mret secret
    end;

  let trustedCertBundle := CreateTrustedBundle certificateManager [] in
  trustedCertBundle ←
    foldG [PacketCaptureCertSecret; PrometheusTLSSecretName] trustedCertBundle
      (λ trustedCertBundle secretName,
         let res := GetCertificate certificateManager secretName OperatorNamespace in
         tellG (Act (Read (RCertificate secretName OperatorNamespace) (present res)));;
         match res with
         | inr err =>
             tellG (Act (SetDegraded ("Failed to retrieve " +:+ secretName)
                           (Error err)));;
             exitG (Result_zero, Some err)
         | inl None =>
             tellG (Act (SetDegraded
                           ("Waiting for secret '" +:+ secretName +:+
                            "' to become available")
                           ""));;
             exitG ({| Requeue := false; RequeueAfter := 5 |}, None)
         | inl (Some secret) => mret (AddCertificates trustedCertBundle secret)
         end);

  let guardianCfg :=
    {| GuardianCfg_URL := ManagementClusterAddr managementClusterConnection;
       GuardianCfg_PullSecrets := pullSecrets;
       GuardianCfg_Openshift := bool_decide (Provider_ r = OpenShift);
       GuardianCfg_Installation := instl;
       GuardianCfg_TunnelSecret := tunnelSecret;
       GuardianCfg_TrustedCertBundle := trustedCertBundle |} in
  tellG (RenderGuardian guardianCfg);;

  tellG (ApplyImageSetGuardianCall guardianCfg);;
  match ApplyImageSetGuardian variant guardianCfg with
  | Some err =>
      tellG (Act (SetDegraded "Error with images from ImageSet" (Error err)));;
      exitG (Result_zero, Some err)
  | None => mret tt
  end;;

  tellG (CreateOrUpdateOrDeleteGuardianCall guardianCfg);;
  match CreateOrUpdateOrDeleteGuardian guardianCfg with
  | Some err =>
      tellG (Act (SetDegraded "Error creating / updating resource" (Error err)));;
      exitG (result, Some err)
  | None => mret tt
  end;;

  tellG (Act ClearDegraded);;

  (* We should create the Guardian deployment. *)
  exitG (result, None).

End Reconcile.

End ClusterConnection.

(** ** How a pass of the connection controller ends *)

Module ConnectionOutcomes.
Import K8s Operator Controller Effects ClusterConnection.

(** The events by which a pass settles the status of its component. *)
Definition isConnStatus (e : ConnEvent) : bool :=
  match e with
  | Act e => Outcomes.isStatus e
  | _ => false
  end.

(** The render and apply steps of the guardian component. *)
Definition isGuardianStep (e : ConnEvent) : bool :=
  match e with
  | RenderGuardian _ | ApplyImageSetGuardianCall _
  | CreateOrUpdateOrDeleteGuardianCall _ => true
  | _ => false
  end.

(** The pass returned [bothError], its last act was to set the status
    degraded with that error, and it neither rendered nor applied the
    guardian component. *)
Definition connRejected (out : Return * list ConnEvent) : Prop :=
  fst out = (Result_zero, Some bothError) ∧
  last (snd out) = Some (Act (SetDegraded (Error bothError) "")) ∧
  Forall (λ e, isGuardianStep e = false) (snd out).

Section Outcomes.
Context {cluster : Cluster} {connection : Connection}.

(** The ways in which a pass of the connection controller ends, by its
    last acts [ending] and what it returns.  It returns the error of the
    read of the installation and leaves the status alone; it stands down,
    there being no [ManagementClusterConnection]; it sets the status
    degraded, and returns either the error, whose text is the message
    (or, with no message, the reason), or no error and a delay of zero
    or five seconds; or it clears the degraded status and returns no
    error. *)
Definition connSettled (r : Return) (ending : list ConnEvent) : Prop :=
  match ending with
  | [] => ∃ err, GetInstallation = inr err ∧ r = (Result_zero, Some err)
  | [Act OnCRNotFound] => r = (Result_zero, None)
  | [Act (SetDegraded reason msg)] =>
      match snd r with
      | Some err =>
          fst r = Result_zero ∧ (msg = Error err ∨ (reason = Error err ∧ msg = ""))
      | None => Requeue (fst r) = false ∧ RequeueAfter (fst r) ∈ [0; 5]
      end
  | [Act ClearDegraded] => r = (Result_zero, None)
  | _ => False
  end.

(** The end of a pass that failed to read the guardian secret: it sets
    the status degraded with the error, and returns the error where the
    secret is not found, and no error otherwise. *)
Definition guardianSecretUnread (r : Return) (ending : list ConnEvent) : Prop :=
  ∃ err,
    ClientGetSecret GuardianSecretName OperatorNamespace = inr err ∧
    ending = [ ReadSecret GuardianSecretName OperatorNamespace false;
               Act (SetDegraded "Error retrieving secrets from guardian namespace"
                      (Error err)) ] ∧
    r = (Result_zero, if IsNotFound err then Some err else None).

(** What the connection controller hands to the renderer of the
    guardian, against what the cluster holds.  There is a
    [ManagementClusterConnection], whose address is the URL, and no
    [ManagementCluster].  Installation, pull secrets and tunnel secret
    are as read, and the trusted bundle is the bundle of the certificate
    manager with the certificates of packet capture and of Prometheus
    added, in this order. *)
Definition guardianConfigured (r : ReconcileConnection)
    (c : GuardianConfiguration) : Prop :=
  ∃ variant mcc cm packetCapture prometheus,
    GetInstallation = inl (variant, GuardianCfg_Installation c) ∧
    GetManagementCluster = inl None ∧
    GetManagementClusterConnection = inl (Some mcc) ∧
    GuardianCfg_URL c = ManagementClusterAddr mcc ∧
    GetNetworkingPullSecrets (GuardianCfg_Installation c)
    = inl (GuardianCfg_PullSecrets c) ∧
    Create (GuardianCfg_Installation c) (clusterDomain r) = inl cm ∧
    ClientGetSecret GuardianSecretName OperatorNamespace
    = inl (GuardianCfg_TunnelSecret c) ∧
    GetCertificate cm PacketCaptureCertSecret OperatorNamespace
    = inl (Some packetCapture) ∧
    GetCertificate cm PrometheusTLSSecretName OperatorNamespace
    = inl (Some prometheus) ∧
    GuardianCfg_TrustedCertBundle c
    = AddCertificates (AddCertificates (CreateTrustedBundle cm []) packetCapture)
        prometheus ∧
    GuardianCfg_Openshift c = bool_decide (Provider_ r = OpenShift).

Definition rendersGuardianConfigured (r : ReconcileConnection) (e : ConnEvent)
  : Prop :=
  match e with
  | RenderGuardian c => guardianConfigured r c
  | _ => True
  end.

(** The last acts of a pass that clears the degraded status: the
    guardian is rendered, the image set is applied to it and accepts it,
    it is created or updated without error, and the status is cleared;
    the pass returns no error and asks for no other pass. *)
Definition guardianAppliedThenCleared (r : Return) (ending : list ConnEvent)
  : Prop :=
  ∃ variant c,
    ending = [ RenderGuardian c; ApplyImageSetGuardianCall c;
               CreateOrUpdateOrDeleteGuardianCall c; Act ClearDegraded ] ∧
    ApplyImageSetGuardian variant c = None ∧
    CreateOrUpdateOrDeleteGuardian c = None ∧
    r = (Result_zero, None).

End Outcomes.

End ConnectionOutcomes.

(** ** Setting the controllers up *)

(** *** What [Add] and [add] act on *)

Module Setup.
Import K8s Operator Controller Effects.

(** [options.AddOptions], by the fields that the three controllers read;
    the Kubernetes version and the shutdown context only pass through to
    the status manager. *)
Record AddOptions := {
  DetectedProvider : Provider;
  EnterpriseCRDExists : bool;
  AmazonCRDExists : bool;
  ClusterDomain : string;
  UsePSP : bool
}.

(** The types of the operator's API of which a controller watches the
    resources, [&source.Kind{Type: &operatorv1.T{}}]. *)
Inductive PrimaryType :=
| TypeAPIServer
| TypeAmazonCloudIntegration
| TypeManagementCluster
| TypeManagementClusterConnection
| TypeAuthentication
| TypeCompliance.

(** What a controller asks to be told of: [c.Watch] of a kind with
    [handler.EnqueueRequestForObject], or one of the helpers
    [utils.AddNetworkWatch], [imageset.AddImageSetWatch],
    [utils.AddAPIServerWatch], [utils.AddConfigMapWatch] and
    [utils.AddSecretsWatch]. *)
Inductive Watched :=
| Kind_ (type : PrimaryType)
| NetworkWatch
| ImageSetWatch
| APIServerWatch
| ConfigMapWatch (name namespace : string)
| SecretsWatch (name namespace : string).

(** The reconciler that a controller is created with. *)
Inductive Reconciler :=
| OfAPIServer (r : ApiServer.ReconcileAPIServer)
| OfCompliance (r : ComplianceController.ReconcileCompliance)
| OfConnection (r : ClusterConnection.ReconcileConnection).

(** What setting a controller up does to the world outside, in the order
    it does it: [status.New] and [Run] of the status manager,
    [controller.New], [kubernetes.NewForConfig], the start of
    [utils.WaitToAddLicenseKeyWatch], and the watches. *)
Inductive SetupEvent :=
| StatusNew (component : string)
| StatusRun
| ControllerNew (name : string) (r : Reconciler)
| NewForConfig
| WaitToAddLicenseKeyWatch
| Watch (w : Watched).

(** What the set-up asks of the manager and of the packages it calls:
    each call is given by the error it answers with, if any.  [Errorw]
    is [fmt.Errorf] with a format that ends in the verb [%w], given the
    text before the verb: the text of the error it makes is known, what
    else the wrapping keeps of the cause is the library's. *)
Class Manager := {
  controllerNew : string → option error;
  newForConfig : option error;
  watch : Watched → option error;
  Errorw : string → error → error;
  Errorw_Error : ∀ msg err, Error (Errorw msg err) = msg +:+ Error err;
  K8sSvcEndpointConfigMapName : string;
  ClusterConfigConfigMapName : string;
  CASecretName : string;
  DexTLSSecretName : string;
  TigeraElasticsearchGatewaySecret : string
}.

(** A step of [Add] or [add]: it leaves a trace and either goes on or
    returns the function's error, [None] being [nil]. *)
Definition Steps (A : Type) : Type := MG SetupEvent (option error) A.

End Setup.

(** *** The API server controller *)

Module ApiServerSetup.
Import K8s Operator Controller Effects Setup.

Section Setup.
Context {cluster : Cluster} {manager : Manager}.

Definition newReconciler (opts : AddOptions) : Steps ApiServer.ReconcileAPIServer :=
  tellG (StatusNew "apiserver");;
  let r :=
    {| ApiServer.provider := DetectedProvider opts;
       ApiServer.amazonCRDExists := AmazonCRDExists opts;
       ApiServer.enterpriseCRDsExist := EnterpriseCRDExists opts;
       ApiServer.clusterDomain := ClusterDomain opts;
       ApiServer.usePSP := UsePSP opts |} in
  tellG StatusRun;;
  mret r.

Definition add (r : ApiServer.ReconcileAPIServer) : Steps (option error) :=
  (* Create a new controller *)
  tellG (ControllerNew "apiserver-controller" (OfAPIServer r));;
  match controllerNew "apiserver-controller" with
  | Some err =>
      exitG (Some (Errorf ("Failed to create apiserver-controller: " +:+ Error err)))
  | None => mret tt
  end;;

  (* Watch for changes to primary resource APIServer *)
  tellG (Watch (Kind_ TypeAPIServer));;
  match watch (Kind_ TypeAPIServer) with
  | Some err =>
      exitG (Some (Errorf ("apiserver-controller failed to watch primary resource: "
                           +:+ Error err)))
  | None => mret tt
  end;;

  tellG (Watch NetworkWatch);;
  match watch NetworkWatch with
  | Some err =>
      exitG (Some (Errorf
                     ("apiserver-controller failed to watch Tigera network resource: "
                      +:+ Error err)))
  | None => mret tt
  end;;

  tellG (Watch (ConfigMapWatch K8sSvcEndpointConfigMapName OperatorNamespace));;
  match watch (ConfigMapWatch K8sSvcEndpointConfigMapName OperatorNamespace) with
  | Some err =>
      exitG (Some (Errorw
                     ("apiserver-controller failed to watch ConfigMap "
                      +:+ K8sSvcEndpointConfigMapName +:+ ": ")
                     err))
  | None => mret tt
  end;;

  (if ApiServer.amazonCRDExists r then
     tellG (Watch (Kind_ TypeAmazonCloudIntegration));;
     match watch (Kind_ TypeAmazonCloudIntegration) with
     | Some err =>
         exitG (Some (Errorf ("apiserver-controller failed to watch primary resource: "
                              +:+ Error err)))
     | None => mret tt
     end
   else mret tt);;

  (if ApiServer.enterpriseCRDsExist r then
     (* Watch for changes to primary resource ManagementCluster *)
     tellG (Watch (Kind_ TypeManagementCluster));;
     match watch (Kind_ TypeManagementCluster) with
     | Some err =>
         exitG (Some (Errorf ("apiserver-controller failed to watch primary resource: "
                              +:+ Error err)))
     | None => mret tt
     end;;

     (* Watch for changes to primary resource ManagementClusterConnection *)
     tellG (Watch (Kind_ TypeManagementClusterConnection));;
     match watch (Kind_ TypeManagementClusterConnection) with
     | Some err =>
         exitG (Some (Errorf ("apiserver-controller failed to watch primary resource: "
                              +:+ Error err)))
     | None => mret tt
     end;;

     forG_ [OperatorNamespace; APIServerNamespace TigeraSecureEnterprise]
       (λ namespace,
          tellG (Watch (SecretsWatch VoltronTunnelSecretName namespace));;
          match watch (SecretsWatch VoltronTunnelSecretName namespace) with
          | Some err =>
              exitG (Some (Errorf
                             ("apiserver-controller failed to watch the Secret resource: "
                              +:+ Error err)))
          | None => mret tt
          end);;

     (* Watch for changes to authentication *)
     tellG (Watch (Kind_ TypeAuthentication));;
     match watch (Kind_ TypeAuthentication) with
     | Some err =>
         exitG (Some (Errorw "apiserver-controller failed to watch resource: " err))
     | None => mret tt
     end
   else mret tt);;

  forG_ [ "calico-apiserver-certs"; "tigera-apiserver-certs"; PacketCaptureCertSecret;
          CASecretName; DexTLSSecretName ]
    (λ secretName,
       tellG (Watch (SecretsWatch secretName OperatorNamespace));;
       match watch (SecretsWatch secretName OperatorNamespace) with
       | Some err =>
           exitG (Some (Errorf
                          ("apiserver-controller failed to watch the Secret resource: "
                           +:+ Error err)))
       | None => mret tt
       end);;

  tellG (Watch ImageSetWatch);;
  match watch ImageSetWatch with
  | Some err =>
      exitG (Some (Errorw "apiserver-controller failed to watch ImageSet: " err))
  | None => mret tt
  end;;

  exitG None.

Definition Add (opts : AddOptions) : Steps (option error) :=
  r ← newReconciler opts;
  add r.

End Setup.

End ApiServerSetup.

(** *** The compliance controller *)

Module ComplianceSetup.
Import K8s Operator Controller Effects Setup.

Section Setup.
Context {cluster : Cluster} {manager : Manager}.

(** [licenseAPIReady] is the state of the ready flag that the reconciler
    is given. *)
Definition newReconciler (opts : AddOptions) (licenseAPIReady : bool)
  : Steps ComplianceController.ReconcileCompliance :=
  tellG (StatusNew "compliance");;
  let r :=
    {| ComplianceController.provider := DetectedProvider opts;
       ComplianceController.clusterDomain := ClusterDomain opts;
       ComplianceController.licenseAPIReady := licenseAPIReady;
       ComplianceController.usePSP := UsePSP opts |} in
  tellG StatusRun;;
  mret r.

(** [add] adds the watches for resources that are available at startup. *)
Definition add : Steps (option error) :=
  (* Watch for changes to primary resource Compliance *)
  tellG (Watch (Kind_ TypeCompliance));;
  match watch (Kind_ TypeCompliance) with
  | Some err => exitG (Some err)
  | None => mret tt
  end;;

  tellG (Watch NetworkWatch);;
  match watch NetworkWatch with
  | Some err =>
      exitG (Some (Errorw "compliance-controller failed to watch Network resource: " err))
  | None => mret tt
  end;;

  tellG (Watch ImageSetWatch);;
  match watch ImageSetWatch with
  | Some err =>
      exitG (Some (Errorw "compliance-controller failed to watch ImageSet: " err))
  | None => mret tt
  end;;

  tellG (Watch APIServerWatch);;
  match watch APIServerWatch with
  | Some err =>
      exitG (Some (Errorw "compliance-controller failed to watch APIServer resource: "
                     err))
  | None => mret tt
  end;;

  (* Watch the given secrets in each both the compliance and operator
     namespaces *)
  forG_ [OperatorNamespace; ComplianceNamespace]
    (λ namespace,
       forG_ [ TigeraElasticsearchGatewaySecret;
               ElasticsearchComplianceBenchmarkerUserSecret;
               ElasticsearchComplianceControllerUserSecret;
               ElasticsearchComplianceReporterUserSecret;
               ElasticsearchComplianceSnapshotterUserSecret;
               ElasticsearchComplianceServerUserSecret;
               ComplianceServerCertSecret; ManagerInternalTLSSecretName;
               CASecretName ]
         (λ secretName,
            tellG (Watch (SecretsWatch secretName namespace));;
            match watch (SecretsWatch secretName namespace) with
            | Some err =>
                exitG (Some (Errorw
                               ("compliance-controller failed to watch the secret '"
                                +:+ secretName +:+ "' in '" +:+ namespace
                                +:+ "' namespace: ")
                               err))
            | None => mret tt
            end));;

  tellG (Watch (ConfigMapWatch ClusterConfigConfigMapName OperatorNamespace));;
  match watch (ConfigMapWatch ClusterConfigConfigMapName OperatorNamespace) with
  | Some err =>
      exitG (Some (Errorw "compliance-controller failed to watch the ConfigMap resource: "
                     err))
  | None => mret tt
  end;;

  (* Watch for changes to primary resource ManagementCluster *)
  tellG (Watch (Kind_ TypeManagementCluster));;
  match watch (Kind_ TypeManagementCluster) with
  | Some err =>
      exitG (Some (Errorw "compliance-controller failed to watch primary resource: " err))
  | None => mret tt
  end;;

  (* Watch for changes to primary resource ManagementClusterConnection *)
  tellG (Watch (Kind_ TypeManagementClusterConnection));;
  match watch (Kind_ TypeManagementClusterConnection) with
  | Some err =>
      exitG (Some (Errorw "compliance-controller failed to watch primary resource: " err))
  | None => mret tt
  end;;

  tellG (Watch (Kind_ TypeAuthentication));;
  match watch (Kind_ TypeAuthentication) with
  | Some err =>
      exitG (Some (Errorw "compliance-controller failed to watch resource: " err))
  | None => mret tt
  end;;

  exitG None.

Definition Add (opts : AddOptions) : Steps (option error) :=
  if negb (EnterpriseCRDExists opts) then
    (* No need to start this controller. *)
    exitG None
  else
    (* [&utils.ReadyFlag{}]: not ready *)
    let licenseAPIReady := false in
    (* create the reconciler *)
    reconciler ← newReconciler opts licenseAPIReady;

    (* Create a new controller *)
    tellG (ControllerNew "compliance-controller" (OfCompliance reconciler));;
    match controllerNew "compliance-controller" with
    | Some err => exitG (Some err)
    | None => mret tt
    end;;

    tellG NewForConfig;;
    match newForConfig with
    | Some err => exitG (Some err)
    | None => mret tt
    end;;

    tellG WaitToAddLicenseKeyWatch;;

    add.

End Setup.

End ComplianceSetup.

(** *** The connection controller *)

Module ConnectionSetup.
Import K8s Operator Controller Effects ClusterConnection Setup.

Definition controllerName : string := "clusterconnection-controller".

Section Setup.
Context {cluster : Cluster} {connection : Connection} {manager : Manager}.

(** The client, the scheme and the status manager, which [Add] made, are
    the world the reconciler acts on. *)
Definition newReconciler (p : Provider) (opts : AddOptions)
  : Steps ReconcileConnection :=
  let c :=
    {| Provider_ := p;
       clusterDomain := ClusterDomain opts |} in
  tellG StatusRun;;
  mret c.

Definition add (r : ReconcileConnection) : Steps (option error) :=
  (* Create a new controller *)
  tellG (ControllerNew controllerName (OfConnection r));;
  match controllerNew controllerName with
  | Some err =>
      exitG (Some (Errorw ("failed to create " +:+ controllerName +:+ ": ") err))
  | None => mret tt
  end;;

  (* Watch for changes to primary resource ManagementCluster *)
  tellG (Watch (Kind_ TypeManagementCluster));;
  match watch (Kind_ TypeManagementCluster) with
  | Some err =>
      exitG (Some (Errorw (controllerName +:+ " failed to watch primary resource: ") err))
  | None => mret tt
  end;;

  (* Watch for changes to primary resource ManagementClusterConnection *)
  tellG (Watch (Kind_ TypeManagementClusterConnection));;
  match watch (Kind_ TypeManagementClusterConnection) with
  | Some err =>
      exitG (Some (Errorw (controllerName +:+ " failed to watch primary resource: ") err))
  | None => mret tt
  end;;

  (* Watch for changes to the secrets associated with the
     ManagementClusterConnection. *)
  tellG (Watch (SecretsWatch GuardianSecretName OperatorNamespace));;
  match watch (SecretsWatch GuardianSecretName OperatorNamespace) with
  | Some err =>
      exitG (Some (Errorw
                     (controllerName +:+ " failed to watch Secret resource "
                      +:+ GuardianSecretName +:+ ": ")
                     err))
  | None => mret tt
  end;;

  (* Watch for changes to the secrets associated with the PacketCapture
     APIs. *)
  tellG (Watch (SecretsWatch PacketCaptureCertSecret OperatorNamespace));;
  match watch (SecretsWatch PacketCaptureCertSecret OperatorNamespace) with
  | Some err =>
      exitG (Some (Errorw
                     (controllerName +:+ " failed to watch Secret resource "
                      +:+ PacketCaptureCertSecret +:+ ": ")
                     err))
  | None => mret tt
  end;;

  (* Watch for changes to the secrets associated with Prometheus. *)
  tellG (Watch (SecretsWatch PrometheusTLSSecretName OperatorNamespace));;
  match watch (SecretsWatch PrometheusTLSSecretName OperatorNamespace) with
  | Some err =>
      exitG (Some (Errorw
                     (controllerName +:+ " failed to watch Secret resource "
                      +:+ PrometheusTLSSecretName +:+ ": ")
                     err))
  | None => mret tt
  end;;

  tellG (Watch (SecretsWatch CASecretName OperatorNamespace));;
  match watch (SecretsWatch CASecretName OperatorNamespace) with
  | Some err =>
      exitG (Some (Errorw
                     (controllerName +:+ " failed to watch Secret resource "
                      +:+ CASecretName +:+ ": ")
                     err))
  | None => mret tt
  end;;

  tellG (Watch NetworkWatch);;
  match watch NetworkWatch with
  | Some err =>
      exitG (Some (Errorw (controllerName +:+ " failed to watch Network resource: ") err))
  | None => mret tt
  end;;

  tellG (Watch ImageSetWatch);;
  match watch ImageSetWatch with
  | Some err =>
      exitG (Some (Errorw (controllerName +:+ " failed to watch ImageSet: ") err))
  | None => mret tt
  end;;

  exitG None.

(** This controller is meant only for enterprise users. *)
Definition Add (opts : AddOptions) : Steps (option error) :=
  if negb (EnterpriseCRDExists opts) then
    (* No need to start this controller. *)
    exitG None
  else
    tellG (StatusNew "management-cluster-connection");;
    r ← newReconciler (DetectedProvider opts) opts;
    add r.

End Setup.

End ConnectionSetup.

(** *** How setting a controller up ends *)

Module SetupOutcomes.
Import K8s Operator Controller Effects ClusterConnection Setup.

Section Outcomes.
Context {cluster : Cluster} {connection : Connection} {manager : Manager}.

(** The error that a step of the set-up is answered with. *)
Definition answer (e : SetupEvent) : option error :=
  match e with
  | ControllerNew name _ => controllerNew name
  | NewForConfig => newForConfig
  | Watch w => watch w
  | StatusNew _ | StatusRun | WaitToAddLicenseKeyWatch => None
  end.

(** The steps of a plan that are taken, up to and with the first that
    fails, and the error that it fails with. *)
Fixpoint upToFailure (plan : list SetupEvent) : list SetupEvent * option error :=
  match plan with
  | [] => ([], None)
  | e :: plan =>
      match answer e with
      | Some cause => ([e], Some cause)
      | None => let '(taken, failure) := upToFailure plan in (e :: taken, failure)
      end
  end.

(** A set-up follows a plan: it takes the steps of the plan in their
    order as long as they succeed.  When none fails it returns no error.
    When one fails it takes no other step and returns an error whose text
    ends with the text of the failure. *)
Definition follows (plan : list SetupEvent) (out : option error * list SetupEvent)
  : Prop :=
  snd out = fst (upToFailure plan) ∧
  match snd (upToFailure plan) with
  | None => fst out = None
  | Some cause =>
      ∃ err text, fst out = Some err ∧ Error err = text +:+ Error cause
  end.

Definition secretsWatched (namespace : string) (names : list string)
  : list SetupEvent :=
  (λ name, Watch (SecretsWatch name namespace)) <$> names.

(** The plan of the API server controller: the controller, the
    [APIServer] resource, the network and the config map of the service
    endpoint; the Amazon integration where its CRD exists; the management
    resources, the tunnel secret in two namespaces and the authentication
    where the enterprise CRDs exist; five secrets of the operator
    namespace; and the image set. *)
Definition apiServerPlan (r : ApiServer.ReconcileAPIServer) : list SetupEvent :=
  [ ControllerNew "apiserver-controller" (OfAPIServer r);
    Watch (Kind_ TypeAPIServer);
    Watch NetworkWatch;
    Watch (ConfigMapWatch K8sSvcEndpointConfigMapName OperatorNamespace) ]
  ++ (if ApiServer.amazonCRDExists r
      then [Watch (Kind_ TypeAmazonCloudIntegration)] else [])
  ++ (if ApiServer.enterpriseCRDsExist r
      then [ Watch (Kind_ TypeManagementCluster);
             Watch (Kind_ TypeManagementClusterConnection);
             Watch (SecretsWatch VoltronTunnelSecretName OperatorNamespace);
             Watch (SecretsWatch VoltronTunnelSecretName
                      (APIServerNamespace TigeraSecureEnterprise));
             Watch (Kind_ TypeAuthentication) ]
      else [])
  ++ secretsWatched OperatorNamespace
       [ "calico-apiserver-certs"; "tigera-apiserver-certs"; PacketCaptureCertSecret;
         CASecretName; DexTLSSecretName ]
  ++ [Watch ImageSetWatch].

(** The reconciler that [Add] builds from the options. *)
Definition apiServerReconciler (opts : AddOptions) : ApiServer.ReconcileAPIServer :=
  {| ApiServer.provider := DetectedProvider opts;
     ApiServer.amazonCRDExists := AmazonCRDExists opts;
     ApiServer.enterpriseCRDsExist := EnterpriseCRDExists opts;
     ApiServer.clusterDomain := ClusterDomain opts;
     ApiServer.usePSP := UsePSP opts |}.

Definition apiServerAddPlan (opts : AddOptions) : list SetupEvent :=
  [StatusNew "apiserver"; StatusRun] ++ apiServerPlan (apiServerReconciler opts).

(** The secrets that the compliance controller watches, in each of two
    namespaces. *)
Definition complianceSecrets : list string :=
  [ TigeraElasticsearchGatewaySecret;
    ElasticsearchComplianceBenchmarkerUserSecret;
    ElasticsearchComplianceControllerUserSecret;
    ElasticsearchComplianceReporterUserSecret;
    ElasticsearchComplianceSnapshotterUserSecret;
    ElasticsearchComplianceServerUserSecret;
    ComplianceServerCertSecret; ManagerInternalTLSSecretName; CASecretName ].

Definition compliancePlan : list SetupEvent :=
  [ Watch (Kind_ TypeCompliance); Watch NetworkWatch; Watch ImageSetWatch;
    Watch APIServerWatch ]
  ++ secretsWatched OperatorNamespace complianceSecrets
  ++ secretsWatched ComplianceNamespace complianceSecrets
  ++ [ Watch (ConfigMapWatch ClusterConfigConfigMapName OperatorNamespace);
       Watch (Kind_ TypeManagementCluster);
       Watch (Kind_ TypeManagementClusterConnection);
       Watch (Kind_ TypeAuthentication) ].

(** The reconciler that [Add] builds from the options: its ready flag is
    not ready. *)
Definition complianceReconciler (opts : AddOptions)
  : ComplianceController.ReconcileCompliance :=
  {| ComplianceController.provider := DetectedProvider opts;
     ComplianceController.clusterDomain := ClusterDomain opts;
     ComplianceController.licenseAPIReady := false;
     ComplianceController.usePSP := UsePSP opts |}.

(** Without the enterprise CRDs nothing is done.  With them: the status
    manager, the controller, the client, the wait for the license watch,
    and then the watches. *)
Definition complianceAddPlan (opts : AddOptions) : list SetupEvent :=
  if EnterpriseCRDExists opts then
    [ StatusNew "compliance"; StatusRun;
      ControllerNew "compliance-controller" (OfCompliance (complianceReconciler opts));
      NewForConfig; WaitToAddLicenseKeyWatch ]
    ++ compliancePlan
  else [].

(** The secrets that the connection controller watches, in the operator
    namespace. *)
Definition connectionSecrets : list string :=
  [GuardianSecretName; PacketCaptureCertSecret; PrometheusTLSSecretName; CASecretName].

Definition connectionPlan (r : ReconcileConnection) : list SetupEvent :=
  [ ControllerNew ConnectionSetup.controllerName (OfConnection r);
    Watch (Kind_ TypeManagementCluster);
    Watch (Kind_ TypeManagementClusterConnection) ]
  ++ secretsWatched OperatorNamespace connectionSecrets
  ++ [Watch NetworkWatch; Watch ImageSetWatch].

Definition connectionReconciler (opts : AddOptions) : ReconcileConnection :=
  {| Provider_ := DetectedProvider opts;
     clusterDomain := ClusterDomain opts |}.

Definition connectionAddPlan (opts : AddOptions) : list SetupEvent :=
  if EnterpriseCRDExists opts then
    [StatusNew "management-cluster-connection"; StatusRun]
    ++ connectionPlan (connectionReconciler opts)
  else [].

(** The secret that an act of a pass of the connection controller reads
    by name, if it reads one. *)
Definition secretRead (e : ConnEvent) : option (string * string) :=
  match e with
  | ReadSecret name namespace _ => Some (name, namespace)
  | Act (Read (RCertificate name namespace) _) => Some (name, namespace)
  | Act (Read (RKeyPair name namespace) _) => Some (name, namespace)
  | _ => None
  end.

(** Every secret that the act reads is watched by the plan. *)
Definition readsWatched (plan : list SetupEvent) (e : ConnEvent) : Prop :=
  ∀ name namespace,
    secretRead e = Some (name, namespace) →
    Watch (SecretsWatch name namespace) ∈ plan.

End Outcomes.

End SetupOutcomes.

(** ** More concrete inputs *)

Module MoreExamples.
Import K8s Operator.

(** The cluster of [Examples.cluster], in which every other read
    succeeds, with the answer to the read of the license, the product
    variant, the two management resources and the availability of the
    component as given. *)
Definition clusterWithLicense (license : Controller.LicenseKey + error)
    (variant : ProductVariant)
    (managementCluster : option Controller.ManagementCluster)
    (managementClusterConnection : option Controller.ManagementClusterConnection)
    (available : bool) : Controller.Cluster :=
  {| Controller.CertificateManager := unit;
     Controller.GetAPIServer :=
       inl {| Controller.APIServer_ObjectMeta := Examples.metaNamed "tigera-secure";
              Controller.APIServer_Status_State := "" |};
     Controller.GetInstallation := inl (variant, Examples.installation "");
     Controller.GetNetworkingPullSecrets _ := inl [];
     Controller.GetManagementCluster := inl managementCluster;
     Controller.GetManagementClusterConnection := inl managementClusterConnection;
     Controller.GetAmazonCloudIntegration := (None, None);
     Controller.GetK8sServiceEndPoint := None;
     Controller.GetAuthentication := (None, None);
     Controller.GetKeyValidatorConfig _ _ := inl None;
     Controller.IsAPIServerReady := true;
     Controller.FetchLicenseKey := license;
     Controller.IsFeatureActive license feature :=
       bool_decide (feature ∈ Controller.LicenseKey_Features license);
     Controller.GetElasticsearchClusterConfig :=
       inl {| ClusterName := "cluster"; ESReplicas := 1; Shards := 5 |};
     Controller.ElasticsearchSecrets names :=
       inl (map (λ n, Examples.secretNamed n "tigera-operator") names);
     Controller.ClientGetCompliance :=
       inl {| Controller.Compliance_ObjectMeta := Examples.metaNamed "tigera-secure";
              Controller.Compliance_Status_State := "" |};
     Controller.Create _ _ := inl ();
     Controller.GetOrCreateKeyPair _ _ _ _ := inl (Examples.nodeSecret false);
     Controller.GetKeyPair _ _ _ := (None, None);
     Controller.GetCertificate _ name namespace :=
       inl (Some {| Controller.Certificate_Name := name;
                    Controller.Certificate_Namespace := namespace |});
     Controller.CreateTrustedBundle _ _ := Examples.bundle;
     Controller.CreateSelfSignedSecret name namespace _ _ :=
       inl (Examples.secretNamed name namespace);
     Controller.NewKeyPair _ := Examples.nodeSecret false;
     Controller.APIServerNamespace _ := "tigera-system";
     Controller.ProjectCalicoApiServerTLSSecretName _ := "tigera-apiserver-certs";
     Controller.ProjectCalicoApiServerServiceName _ := "tigera-api";
     Controller.ApiServerServiceAccountName _ := "tigera-apiserver";
     Controller.GetServiceDNSNames service namespace domain :=
       [service; service +:+ "." +:+ namespace;
        service +:+ "." +:+ namespace +:+ ".svc." +:+ domain];
     Controller.OperatorNamespace := "tigera-operator";
     Controller.VoltronTunnelSecretName := "tigera-management-cluster-connection";
     Controller.PacketCaptureCertSecret := "tigera-packetcapture-server-tls";
     Controller.PacketCaptureServiceName := "tigera-packetcapture";
     Controller.PacketCaptureNamespace := "tigera-packetcapture";
     Controller.PacketCaptureServiceAccountName := "tigera-packetcapture";
     Controller.ComplianceNamespace := "tigera-compliance";
     Controller.ComplianceServiceName := "compliance";
     Controller.ComplianceServerSAName := "tigera-compliance-server";
     Controller.ComplianceServerCertSecret := "tigera-compliance-server-tls";
     Controller.ManagerInternalTLSSecretName := "internal-manager-tls";
     Controller.ESPublicCertSecret := "tigera-secure-es-http-certs-public";
     Controller.ElasticsearchComplianceBenchmarkerUserSecret :=
       "tigera-ee-compliance-benchmarker-elasticsearch-access";
     Controller.ElasticsearchComplianceControllerUserSecret :=
       "tigera-ee-compliance-controller-elasticsearch-access";
     Controller.ElasticsearchComplianceReporterUserSecret :=
       "tigera-ee-compliance-reporter-elasticsearch-access";
     Controller.ElasticsearchComplianceSnapshotterUserSecret :=
       "tigera-ee-compliance-snapshotter-elasticsearch-access";
     Controller.ElasticsearchComplianceServerUserSecret :=
       "tigera-ee-compliance-server-elasticsearch-access";
     Controller.ComplianceFeature := "compliance-reports";
     Controller.TigeraSecureEnterprise := "TigeraSecureEnterprise";
     Controller.TigeraStatusReady := "Ready";
     Controller.OpenShift := "OpenShift";
     Controller.Endpoint :=
       {| Controller.ServiceEndpoint_Host := ""; Controller.ServiceEndpoint_Port := "" |};
     Controller.APIServer_error _ := None;
     Controller.Compliance_error _ := None;
     Controller.ApplyImageSet _ _ := None;
     Controller.CreateOrUpdateOrDelete _ := None;
     Controller.IsAvailable := available;
     Controller.StatusUpdate _ := None |}.

(** The same with a license that has the compliance feature. *)
Definition clusterWith : ProductVariant →
    option Controller.ManagementCluster →
    option Controller.ManagementClusterConnection → bool → Controller.Cluster :=
  clusterWithLicense
    (inl {| Controller.LicenseKey_Features := ["compliance-reports"] |}).

(** The configuration of [Examples.config] with a second Elasticsearch
    secret, the credentials of the intrusion detection user, beside the
    public certificate. *)
Definition configWithUserSecret (hasNoLicense hasNoDPIResource : bool)
  : Dpi.DPIConfig :=
  let c := Examples.config hasNoLicense hasNoDPIResource false in
  {| Dpi.IntrusionDetection_ := Dpi.IntrusionDetection_ c;
     Dpi.Installation := Dpi.Installation c;
     Dpi.TyphaNodeTLS_ := Dpi.TyphaNodeTLS_ c;
     Dpi.PullSecrets := Dpi.PullSecrets c;
     Dpi.Openshift := Dpi.Openshift c;
     Dpi.HasNoLicense := Dpi.HasNoLicense c;
     Dpi.HasNoDPIResource := Dpi.HasNoDPIResource c;
     Dpi.ESSecrets :=
       [ Examples.secretNamed "tigera-secure-es-http-certs-public" "tigera-operator";
         Examples.secretNamed "tigera-ee-intrusion-detection-elasticsearch-access"
           "tigera-operator" ];
     Dpi.ESClusterConfig := Dpi.ESClusterConfig c;
     Dpi.ClusterDomain := Dpi.ClusterDomain c |}.

(** The copy of the user's credentials in the namespace of the
    component. *)
Definition userSecretCopy : Secret :=
  Examples.copySecret Dpi.DeepPacketInspectionNamespace
    (Examples.secretNamed "tigera-ee-intrusion-detection-elasticsearch-access"
       "tigera-operator").

Definition managementCluster : Controller.ManagementCluster :=
  {| Controller.ManagementCluster_ObjectMeta := Examples.metaNamed "tigera-secure" |}.

Definition managementClusterConnection : Controller.ManagementClusterConnection :=
  {| Controller.ManagementClusterConnection_ObjectMeta :=
       Examples.metaNamed "tigera-secure" |}.

(** A standalone enterprise cluster, a management cluster, and a cluster
    of the open-source variant. *)
Definition standalone : Controller.Cluster :=
  clusterWith "TigeraSecureEnterprise" None None true.

Definition management : Controller.Cluster :=
  clusterWith "TigeraSecureEnterprise" (Some managementCluster) None true.

Definition community : Controller.Cluster :=
  clusterWith "Calico" None None true.

(** A standalone cluster whose license lacks the compliance feature, and
    one whose license cannot be read. *)
Definition featureless : Controller.Cluster :=
  clusterWithLicense
    (inl {| Controller.LicenseKey_Features := ["export-logs"] |})
    "TigeraSecureEnterprise" None None true.

Definition unlicensed : Controller.Cluster :=
  clusterWithLicense
    (inr {| Error := "licensekeys.projectcalico.org default not found";
            IsNotFound := true |})
    "TigeraSecureEnterprise" None None true.

(** A managed cluster: it has a [ManagementClusterConnection]. *)
Definition managed : Controller.Cluster :=
  clusterWith "TigeraSecureEnterprise" None (Some managementClusterConnection) true.

(** What the connection controller asks of a cluster, with the read of
    the guardian secret as given. *)
Definition connectionWith {cluster : Controller.Cluster}
    (guardianSecret : Secret + error) : ClusterConnection.Connection :=
  {| ClusterConnection.ManagementClusterAddr _ := "mgmt.example.com:9449";
     ClusterConnection.ClientGetSecret _ _ := guardianSecret;
     ClusterConnection.GuardianSecretName := "tigera-managed-cluster-connection";
     ClusterConnection.PrometheusTLSSecretName := "calico-node-prometheus-tls";
     ClusterConnection.AddCertificates bundle _ := bundle;
     ClusterConnection.ApplyImageSetGuardian _ _ := None;
     ClusterConnection.CreateOrUpdateOrDeleteGuardian _ := None |}.

Definition connection {cluster : Controller.Cluster} : ClusterConnection.Connection :=
  connectionWith
    (inl (Examples.secretNamed "tigera-managed-cluster-connection" "tigera-operator")).

(** The guardian secret was deleted: its read fails, not found. *)
Definition connectionUnread {cluster : Controller.Cluster}
  : ClusterConnection.Connection :=
  connectionWith
    (inr {| Error := "secrets tigera-managed-cluster-connection not found";
            IsNotFound := true |}).

Definition connectionReconciler : ClusterConnection.ReconcileConnection :=
  {| ClusterConnection.Provider_ := "";
     ClusterConnection.clusterDomain := "cluster.local" |}.

(** A manager with which every step of a set-up succeeds, but for the
    watches that [failing] gives an error for. *)
Definition managerWith (failing : Setup.Watched → option error) : Setup.Manager :=
  {| Setup.controllerNew _ := None;
     Setup.newForConfig := None;
     Setup.watch := failing;
     Setup.Errorw msg err :=
       {| Error := msg +:+ Error err; IsNotFound := IsNotFound err |};
     Setup.Errorw_Error _ _ := eq_refl;
     Setup.K8sSvcEndpointConfigMapName := "kubernetes-services-endpoint";
     Setup.ClusterConfigConfigMapName := "tigera-secure-elasticsearch";
     Setup.CASecretName := "tigera-ca-private";
     Setup.DexTLSSecretName := "tigera-dex-tls";
     Setup.TigeraElasticsearchGatewaySecret :=
       "tigera-secure-es-gateway-http-certs-public" |}.

Definition manager : Setup.Manager := managerWith (λ _, None).

(** A manager with which the watch of the image sets fails. *)
Definition managerWithoutImageSets : Setup.Manager :=
  managerWith
    (λ w, match w with
          | Setup.ImageSetWatch =>
              Some {| Error := "no kind ImageSet is registered"; IsNotFound := false |}
          | _ => None
          end).

(** The options of a cluster without the enterprise CRDs. *)
Definition community_options : Setup.AddOptions :=
  {| Setup.DetectedProvider := "";
     Setup.EnterpriseCRDExists := false;
     Setup.AmazonCRDExists := false;
     Setup.ClusterDomain := "cluster.local";
     Setup.UsePSP := false |}.

(** The options of an enterprise cluster. *)
Definition options : Setup.AddOptions :=
  {| Setup.DetectedProvider := "";
     Setup.EnterpriseCRDExists := true;
     Setup.AmazonCRDExists := false;
     Setup.ClusterDomain := "cluster.local";
     Setup.UsePSP := false |}.

End MoreExamples.

(** * Properties of the DPI renderer *)

Module DpiSpec.
Import K8s Operator Dpi DpiState.

Section Proofs.
Context {imports : Imports}.

(** *** When the renderer returns *)

Lemma dpiDaemonset_Some d :
  renders d = true → ∃ ds, dpiDaemonset d = Some ds.
Proof.
  unfold renders, dpiDaemonset, dpiContainer.
  destruct (dpiResources (cfg d)) as [r|]; [|done].
  destruct (dpiAnnotations d) as [a|]; [|done].
  simpl. eauto.
Qed.

Lemma dpiDaemonset_panics d :
  renders d = false → dpiDaemonset d = None.
Proof.
  unfold renders, dpiDaemonset, dpiContainer.
  destruct (dpiResources (cfg d)) as [r|], (dpiAnnotations d) as [a|]; done.
Qed.

Lemma Objects_panics d :
  renders d = false → Objects d = None.
Proof.
  intros Hr. unfold Objects. rewrite (dpiDaemonset_panics d Hr).
  destruct (HasNoLicense (cfg d)), (HasNoDPIResource (cfg d)); reflexivity.
Qed.

(** *** The three shapes of a render result *)

Lemma Objects_unlicensed d ds :
  HasNoLicense (cfg d) = true →
  dpiDaemonset d = Some ds →
  Objects d =
    Some ([], namespaceObject d :: publicCertSecretObject ::
                pullSecretObjects d ++ workloadObjects d ds).
Proof.
  intros HL Hds. unfold Objects. rewrite HL, Hds, orb_true_r. reflexivity.
Qed.

Lemma Objects_without_resource d ds :
  HasNoLicense (cfg d) = false →
  HasNoDPIResource (cfg d) = true →
  dpiDaemonset d = Some ds →
  Objects d =
    Some ([namespaceObject d],
          publicCertSecretObject :: pullSecretObjects d ++ workloadObjects d ds).
Proof.
  intros HL HR Hds. unfold Objects. rewrite HL, HR, Hds. reflexivity.
Qed.

Lemma Objects_rendered d ds :
  HasNoLicense (cfg d) = false →
  HasNoDPIResource (cfg d) = false →
  dpiDaemonset d = Some ds →
  Objects d =
    Some (namespaceObject d ::
            esSecretObjects d ++ pullSecretObjects d ++ workloadObjects d ds,
          []).
Proof.
  intros HL HR Hds. unfold Objects. rewrite HL, HR, Hds. simpl.
  unfold esSecretObjects, pullSecretObjects, workloadObjects.
  rewrite <- !app_assoc. reflexivity.
Qed.

(** [Objects] returns exactly when the first component resource carries
    resource requirements and [dpiAnnotations] does not write to a nil
    map. *)
Lemma Objects_returns d :
  is_Some (Objects d) ↔ renders d = true.
Proof.
  split.
  - intros [res Hres]. destruct (renders d) eqn:Hr; [done|].
    by rewrite (Objects_panics d Hr) in Hres.
  - intros Hr. destruct (dpiDaemonset_Some d Hr) as [ds Hds].
    destruct (HasNoLicense (cfg d)) eqn:HL.
    { rewrite (Objects_unlicensed d ds HL Hds). eauto. }
    destruct (HasNoDPIResource (cfg d)) eqn:HR.
    { rewrite (Objects_without_resource d ds HL HR Hds). eauto. }
    rewrite (Objects_rendered d ds HL HR Hds). eauto.
Qed.

(** *** Kinds of the rendered objects *)

Lemma ToRuntimeObjects_kind secrets o :
  o ∈ ToRuntimeObjects secrets → kindOf o = KSecret.
Proof.
  unfold ToRuntimeObjects. intros Ho.
  apply list_elem_of_fmap in Ho as (s & -> & _). reflexivity.
Qed.

Lemma workloadObjects_kind d ds o :
  o ∈ workloadObjects d ds →
  kindOf o = KServiceAccount ∨ kindOf o = KClusterRole ∨
  kindOf o = KClusterRoleBinding ∨ kindOf o = KDaemonSet.
Proof.
  unfold workloadObjects. rewrite !elem_of_cons, elem_of_nil.
  intros [-> | [-> | [-> | [-> | []]]]]; simpl; auto.
Qed.

Lemma no_namespace_among_owned d ds o :
  o ∈ publicCertSecretObject :: pullSecretObjects d ++ workloadObjects d ds →
  kindOf o ≠ KNamespace.
Proof.
  rewrite elem_of_cons, elem_of_app. intros [-> | [Ho | Ho]].
  - discriminate.
  - rewrite (ToRuntimeObjects_kind _ _ Ho). discriminate.
  - apply workloadObjects_kind in Ho. intuition congruence.
Qed.

(** *** Partition of the render result *)

(** C1.  For every configuration, all combinations of [HasNoLicense] and
    [HasNoDPIResource], on which the renderer does not panic, [Objects]
    returns lists [toCreate] and [toDelete] that are disjoint by identity
    (kind, namespace, name). *)
Theorem Objects_disjoint d :
  renders d = true →
  ∃ toCreate toDelete,
    Objects d = Some (toCreate, toDelete) ∧
    ∀ c x, c ∈ toCreate → x ∈ toDelete → identity c ≠ identity x.
Proof.
  intros Hr. destruct (dpiDaemonset_Some d Hr) as [ds Hds].
  destruct (HasNoLicense (cfg d)) eqn:HL.
  - eexists _, _. split; [by apply Objects_unlicensed|].
    intros c x Hc. by apply elem_of_nil in Hc.
  - destruct (HasNoDPIResource (cfg d)) eqn:HR.
    + eexists _, _. split; [by apply Objects_without_resource|].
      intros c x Hc Hx Heq.
      apply list_elem_of_singleton in Hc as ->.
      apply no_namespace_among_owned in Hx. apply Hx.
      unfold identity in Heq. simpl in Heq. congruence.
    + eexists _, _. split; [by apply Objects_rendered|].
      intros c x _ Hx. by apply elem_of_nil in Hx.
Qed.

(** C2, as the code has it.  When the license is missing, the namespace
    and these owned objects (the public certificate secret, the copied
    pull secrets, service account, cluster role, cluster role binding,
    daemonset) are in [toDelete], in this order, and [toCreate] is empty.
    When the license is there and only the DPI resource is missing, the
    same owned objects are in [toDelete] and [toCreate] holds the
    namespace alone.  In both cases [toDelete] holds nothing else: of the
    secrets, the copies of the Elasticsearch secrets that are created
    with both prerequisites are not among the deleted, only a secret
    with the name of the public certificate is. *)
Theorem Objects_gating d :
  renders d = true →
  HasNoLicense (cfg d) || HasNoDPIResource (cfg d) = true →
  ∃ ds toCreate toDelete,
    dpiDaemonset d = Some ds ∧
    Objects d = Some (toCreate, toDelete) ∧
    toCreate = (if HasNoLicense (cfg d) then [] else [namespaceObject d]) ∧
    toDelete =
      (if HasNoLicense (cfg d) then [namespaceObject d] else []) ++
      publicCertSecretObject :: pullSecretObjects d ++ workloadObjects d ds.
Proof.
  intros Hr Hgate. destruct (dpiDaemonset_Some d Hr) as [ds Hds].
  exists ds. destruct (HasNoLicense (cfg d)) eqn:HL.
  - eexists _, _. split; [done|]. split; [by apply Objects_unlicensed|]. done.
  - simpl in Hgate.
    eexists _, _. split; [done|].
    split; [by apply Objects_without_resource|]. done.
Qed.

(** C9.  In every [toCreate] list, dependencies come before their
    dependents: a namespace object is the element at position 0 and is
    not missing from a non-empty list; the daemonset, where it occurs,
    is the last element, so that every secret and the service account
    stand at earlier positions; and with both prerequisites the list is
    namespace, copied secrets, service account, cluster role, cluster
    role binding, daemonset, in this order. *)
Theorem toCreate_dependencies_first d :
  renders d = true →
  ∃ ds toCreate toDelete,
    dpiDaemonset d = Some ds ∧
    Objects d = Some (toCreate, toDelete) ∧
    (toCreate = [] ∨ toCreate !! 0%nat = Some (namespaceObject d)) ∧
    (∀ i o, toCreate !! i = Some o → kindOf o = KNamespace → i = 0%nat) ∧
    (∀ i o, toCreate !! i = Some o → kindOf o = KDaemonSet →
            length toCreate = S i) ∧
    (∀ i j o o',
       toCreate !! i = Some o → kindOf o = KDaemonSet →
       toCreate !! j = Some o' →
       kindOf o' = KNamespace ∨ kindOf o' = KSecret ∨ kindOf o' = KServiceAccount →
       (j < i)%nat) ∧
    (if HasNoLicense (cfg d) || HasNoDPIResource (cfg d) then True
     else toCreate =
            namespaceObject d ::
              (esSecretObjects d ++ pullSecretObjects d) ++
              [ OServiceAccount (dpiServiceAccount d);
                OClusterRole (dpiClusterRole d);
                OClusterRoleBinding (dpiClusterRoleBinding d);
                ODaemonSet ds ]).
Proof.
  intros Hr. destruct (dpiDaemonset_Some d Hr) as [ds Hds]. exists ds.
  destruct (HasNoLicense (cfg d)) eqn:HL.
  { eexists _, _. split; [done|]. split; [by apply Objects_unlicensed|].
    repeat split; auto; intros; simplify_eq. }
  destruct (HasNoDPIResource (cfg d)) eqn:HR.
  { eexists _, _. split; [done|]. split; [by apply Objects_without_resource|].
    split; [by right|].
    repeat split; auto.
    - intros [|i] o Ho Hk; [done|]. simplify_eq/=.
    - intros [|i] o Ho Hk; simplify_eq/=.
    - intros [|i] j o o' Ho Hk; simplify_eq/=. }
  eexists _, _. split; [done|]. split; [by apply Objects_rendered|].
  set (secrets := esSecretObjects d ++ pullSecretObjects d).
  assert (Hsec : ∀ o, o ∈ secrets → kindOf o = KSecret).
  { intros o. unfold secrets. rewrite elem_of_app.
    intros [Ho | Ho]; eapply ToRuntimeObjects_kind; eauto. }
  assert (Hshape :
    namespaceObject d ::
      esSecretObjects d ++ pullSecretObjects d ++ workloadObjects d ds
    = (namespaceObject d :: secrets) ++ workloadObjects d ds).
  { unfold secrets. simpl. by rewrite <- app_assoc. }
  rewrite Hshape. clear Hshape.
  assert (Hlast : ∀ i o,
    ((namespaceObject d :: secrets) ++ workloadObjects d ds) !! i = Some o →
    kindOf o = KDaemonSet →
    i = (length (namespaceObject d :: secrets) + 3)%nat).
  { intros i o Ho Hk. apply lookup_app_Some in Ho as [Ho | [Hle Ho]].
    - destruct i as [|i]; simpl in Ho; [simplify_eq; discriminate Hk|].
      apply list_elem_of_lookup_2, Hsec in Ho. congruence.
    - remember (i - length (namespaceObject d :: secrets))%nat as n eqn:Hn.
      destruct n as [|[|[|[|n]]]]; simpl in Ho; simplify_eq;
        try discriminate Hk.
      lia. }
  split; [by right|].
  split.
  { intros i o Ho Hk. destruct i as [|i]; [done|]. simpl in Ho.
    apply list_elem_of_lookup_2, elem_of_app in Ho as [Ho | Ho].
    - apply Hsec in Ho. congruence.
    - apply workloadObjects_kind in Ho. intuition congruence. }
  split.
  { intros i o Ho Hk. rewrite (Hlast i o Ho Hk).
    rewrite length_app. simpl. lia. }
  split.
  { intros i j o o' Ho Hk Ho' Hk'. rewrite (Hlast i o Ho Hk).
    apply lookup_app_Some in Ho' as [Ho' | [Hle Ho']].
    - apply lookup_lt_Some in Ho'. lia.
    - remember (j - length (namespaceObject d :: secrets))%nat as n eqn:Hn.
      destruct n as [|[|[|[|n]]]]; simpl in Ho'; simplify_eq;
        simpl in Hk'; try (intuition discriminate).
      lia. }
  simpl. unfold workloadObjects. done.
Qed.

(** *** The component's image *)

Lemma ResolveImages_cfg d imageSet :
  cfg (fst (ResolveImages d imageSet)) = cfg d.
Proof.
  unfold ResolveImages.
  destruct (GetReference _ _ _ _ _) as [image [err|]]; reflexivity.
Qed.

Lemma Objects_stamped d : Objects (stamped d) = Objects d.
Proof.
  unfold stamped. destruct (dpiAnnotations d) as [[m|]|] eqn:Ha; [|done..].
  unfold dpiAnnotations in Ha.
  destruct d as [[id inst [[ha bv bvm mp] node cn san] ps os nl nr es ecc dom] img].
  simpl in *.
  destruct (nr || nl) eqn:Hgate; [done|].
  destruct ha as [m0|]; simplify_eq/=.
  unfold Objects, dpiDaemonset, dpiAnnotations. simpl. rewrite Hgate. simpl.
  by rewrite insert_insert_eq.
Qed.

(** *** The component as an object with state *)

Lemma stamped_cfg_image c image :
  stamped {| cfg := c; dpiImage := image |}
  = {| cfg := cfg (stamped (DPI c)); dpiImage := image |}.
Proof.
  unfold stamped, dpiAnnotations, DPI. simpl.
  destruct (HasNoDPIResource c || HasNoLicense c); [by destruct c|].
  destruct (HashAnnotations _); [done|by destruct c].
Qed.

Lemma stamped_idempotent d : stamped (stamped d) = stamped d.
Proof.
  unfold stamped at 2. destruct (dpiAnnotations d) as [[m|]|] eqn:Ha; [|done..].
  unfold dpiAnnotations in Ha.
  destruct d as [[id inst [[ha bv bvm mp] node cn san] ps os nl nr es ecc dom] img].
  simpl in *.
  destruct (nr || nl) eqn:Hgate; [done|].
  destruct ha as [m0|]; simplify_eq/=.
  unfold stamped, dpiAnnotations. simpl. rewrite Hgate. simpl.
  by rewrite insert_insert_eq.
Qed.

(** The write of [dpiAnnotations] is what [stamped] describes. *)
Lemma dpiAnnotationsS_spec shared d :
  dpiAnnotationsS shared d =
    (annotations ← dpiAnnotations d;
     Some (annotations, if shared then stamped d else d)).
Proof.
  unfold dpiAnnotationsS, stamped, dpiAnnotations.
  destruct (HasNoDPIResource (cfg d) || HasNoLicense (cfg d)); simpl.
  { by destruct shared. }
  destruct (HashAnnotations _) as [m|]; simpl; [|done].
  by destruct shared.
Qed.

Lemma stamped_reads d :
  dpiContainer (stamped d) = dpiContainer d ∧
  dpiVolumes (stamped d) = dpiVolumes d ∧
  PullSecrets (cfg (stamped d)) = PullSecrets (cfg d) ∧
  ESClusterConfig (cfg (stamped d)) = ESClusterConfig (cfg d) ∧
  ESSecrets (cfg (stamped d)) = ESSecrets (cfg d).
Proof.
  unfold stamped. by destruct (dpiAnnotations d) as [[m|]|].
Qed.

Lemma dpiDaemonsetS_spec shared d :
  dpiDaemonsetS shared d =
    (daemonset ← dpiDaemonset d;
     Some (daemonset, if shared then stamped d else d)).
Proof.
  unfold dpiDaemonsetS, dpiDaemonset. rewrite dpiAnnotationsS_spec.
  destruct (dpiAnnotations d) as [annotations|]; simpl; [|done].
  destruct (stamped_reads d) as (Hc & Hv & Hp & Hcc & Hes).
  destruct shared; [|by destruct (dpiContainer d)].
  rewrite Hc, Hv, Hp, Hcc, Hes. by destruct (dpiContainer d).
Qed.

(** [Objects] returns what the embedding without state says, and leaves
    the component as [stamped] describes. *)
Lemma ObjectsS_spec shared d :
  ObjectsS shared d =
    (res ← Objects d; Some (res, if shared then stamped d else d)).
Proof.
  unfold ObjectsS, Objects. rewrite dpiDaemonsetS_spec.
  destruct (HasNoLicense (cfg d)), (HasNoDPIResource (cfg d)); simpl;
    by destruct (dpiDaemonset d).
Qed.

(** A component that calls have left behind: it holds the configuration
    it was built from, but for the bundle's map, which may be written,
    and some image. *)
Lemma similar_Objects c image d :
  dpiImage d = image →
  cfg d = c ∨ cfg d = cfg (stamped (DPI c)) →
  Objects d = Objects {| cfg := c; dpiImage := image |}.
Proof.
  destruct d as [c' image']. simpl. intros -> [-> | ->]; [done|].
  rewrite <- stamped_cfg_image. apply Objects_stamped.
Qed.

Lemma similar_stamped c d :
  cfg d = c ∨ cfg d = cfg (stamped (DPI c)) →
  cfg (stamped d) = cfg (stamped (DPI c)).
Proof.
  destruct d as [c' image']. simpl. intros [-> | ->].
  - by rewrite stamped_cfg_image.
  - rewrite <- (stamped_cfg_image c image'), stamped_idempotent.
    by rewrite stamped_cfg_image.
Qed.

Lemma similar_resolved c d imageSet :
  cfg d = c ∨ cfg d = cfg (stamped (DPI c)) →
  dpiImage (fst (ResolveImages d imageSet))
  = fst (DpiViews.resolvedReference (DPI c) imageSet).
Proof.
  intros Hcfg.
  assert (Hinstallation : Installation (cfg d) = Installation c).
  { destruct Hcfg as [-> | ->]; [done|].
    unfold stamped. by destruct (dpiAnnotations (DPI c)) as [[m|]|]. }
  unfold ResolveImages, DpiViews.resolvedReference. simpl. rewrite Hinstallation.
  by destruct (GetReference _ _ _ _ _) as [image [err|]].
Qed.

Lemma perform_similar shared c calls :
  ∀ d d' image,
    dpiImage d = image →
    cfg d = c ∨ cfg d = cfg (stamped (DPI c)) →
    perform shared calls d = Some d' →
    dpiImage d' =
      match lastImageSet calls with
      | Some imageSet => fst (DpiViews.resolvedReference (DPI c) imageSet)
      | None => image
      end ∧
    (cfg d' = c ∨ cfg d' = cfg (stamped (DPI c))).
Proof.
  induction calls as [|[imageSet|] calls IH]; intros d d' image Himage Hcfg Hd'.
  - simpl in *. by simplify_eq.
  - simpl in Hd'.
    destruct (IH _ _ _ eq_refl
                (eq_ind_r (λ x, x = c ∨ x = cfg (stamped (DPI c))) Hcfg
                   (ResolveImages_cfg d imageSet)) Hd') as [Hi Hc].
    split; [|done]. simpl. rewrite Hi.
    destruct (lastImageSet calls); [done|]. by apply similar_resolved.
  - simpl in Hd'. rewrite ObjectsS_spec in Hd'.
    destruct (Objects d) as [res|]; simpl in Hd'; [|done].
    apply (IH _ _ image) in Hd'; [done| |].
    + unfold stamped. destruct shared; [|done].
      by destruct (dpiAnnotations d) as [[m|]|].
    + destruct shared; [|done]. right. by apply similar_stamped.
Qed.

(** C4, as the code has it.  What [Objects] returns is determined by the
    configuration together with one piece of state outside it, the image
    reference that the last call of [ResolveImages] stored.  For two
    components built by [DPI] from identical [DPIConfig] values, each
    after any sequence of calls of [ResolveImages] and [Objects], if the
    sequences leave the same image reference resolved, then [Objects]
    returns identical pairs: those of the embedding without state at the
    configuration and that reference.  Earlier calls of [ResolveImages],
    and the write that [Objects] itself makes into the map of the trusted
    bundle, whether the bundle hands out its own map ([shared]) or a
    copy, do not influence the result.  The imported helpers are
    functions of their arguments. *)
Theorem Objects_deterministic shared c calls1 calls2 d1 d2 :
  perform shared calls1 (DPI c) = Some d1 →
  perform shared calls2 (DPI c) = Some d2 →
  resolvedImage c calls1 = resolvedImage c calls2 →
  fst <$> ObjectsS shared d1 = fst <$> ObjectsS shared d2 ∧
  fst <$> ObjectsS shared d1
  = Objects {| cfg := c; dpiImage := resolvedImage c calls1 |}.
Proof.
  intros Hd1 Hd2 Himage.
  destruct (perform_similar shared c calls1 (DPI c) d1 "" eq_refl
              (or_introl eq_refl) Hd1)
    as [Hi1 Hc1].
  destruct (perform_similar shared c calls2 (DPI c) d2 "" eq_refl
              (or_introl eq_refl) Hd2)
    as [Hi2 Hc2].
  assert (Hvalue : ∀ d, fst <$> ObjectsS shared d = Objects d).
  { intros d. rewrite ObjectsS_spec. by destruct (Objects d). }
  rewrite !Hvalue.
  rewrite (similar_Objects c _ d1 Hi1 Hc1), (similar_Objects c _ d2 Hi2 Hc2).
  fold (resolvedImage c calls1). fold (resolvedImage c calls2).
  by rewrite Himage.
Qed.

(** *** The pod template of the daemonset *)

Lemma template_annotation d ds k :
  dpiDaemonset d = Some ds →
  DecorateAnnotations_keeps_key k →
  ∃ annotations,
    dpiAnnotations d = Some annotations ∧
    getKey (Annotations (PodTemplate_ObjectMeta (podTemplateOf ds))) k
    = getKey annotations k.
Proof.
  intros Hds Hkeep. unfold dpiDaemonset in Hds.
  destruct (dpiAnnotations d) as [a|]; simplify_eq/=.
  destruct (dpiContainer d) as [c|]; simplify_eq/=.
  exists a. split; [done|]. unfold podTemplateOf. simpl. by rewrite Hkeep.
Qed.

Lemma template_spec d ds :
  dpiDaemonset d = Some ds →
  DecorateAnnotations_keeps_spec →
  ∃ c, dpiContainer d = Some c ∧
    let spec := PodTemplate_Spec (podTemplateOf ds) in
    InitContainers spec =
      (if UseCertificateManagement (NodeSecret (TyphaNodeTLS_ (cfg d)))
       then [InitContainer (NodeSecret (TyphaNodeTLS_ (cfg d)))
               DeepPacketInspectionNamespace]
       else []) ∧
    Containers spec = [c] ∧
    Volumes spec = dpiVolumes d.
Proof.
  intros Hds Hkeep. unfold dpiDaemonset in Hds.
  destruct (dpiAnnotations d) as [a|]; simplify_eq/=.
  destruct (dpiContainer d) as [c|]; simplify_eq/=.
  exists c. split; [done|].
  unfold podTemplateOf. simpl. rewrite Hkeep. simpl.
  by destruct (UseCertificateManagement _).
Qed.

Lemma dpiAnnotations_stamped d annotations :
  HasNoLicense (cfg d) = false →
  HasNoDPIResource (cfg d) = false →
  dpiAnnotations d = Some annotations →
  ∃ m,
    HashAnnotations (TrustedBundle_ (TyphaNodeTLS_ (cfg d))) = Some m ∧
    annotations =
      Some (<[ HashAnnotationKey (NodeSecret (TyphaNodeTLS_ (cfg d))) :=
               HashAnnotationValue (NodeSecret (TyphaNodeTLS_ (cfg d))) ]> m).
Proof.
  intros HL HR. unfold dpiAnnotations. rewrite HL, HR. simpl.
  destruct (HashAnnotations _) as [m|]; intros; simplify_eq/=. eauto.
Qed.

Lemma dpiAnnotations_gated d :
  HasNoDPIResource (cfg d) || HasNoLicense (cfg d) = true →
  dpiAnnotations d = Some None.
Proof. intros Hgate. unfold dpiAnnotations. by rewrite Hgate. Qed.

(** C6.  With both prerequisites, the pod template of the rendered
    daemonset carries the hash annotation of the node secret, and the
    hash annotation of every certificate of the trusted bundle, each
    under its own key and with its fingerprint as value.  Keys identify
    the material: a bundle entry filed under the node secret's key is
    the node secret's.  The Elasticsearch decorator, which runs last,
    is asked to leave these keys alone. *)
Theorem daemonset_hash_annotations d :
  renders d = true →
  HasNoLicense (cfg d) = false →
  HasNoDPIResource (cfg d) = false →
  (∀ k, k = HashAnnotationKey (NodeSecret (TyphaNodeTLS_ (cfg d))) ∨
        is_Some (getKey (HashAnnotations (TrustedBundle_ (TyphaNodeTLS_ (cfg d)))) k) →
        DecorateAnnotations_keeps_key k) →
  ∃ ds, dpiDaemonset d = Some ds ∧
    let annotations := Annotations (PodTemplate_ObjectMeta (podTemplateOf ds)) in
    let node := NodeSecret (TyphaNodeTLS_ (cfg d)) in
    getKey annotations (HashAnnotationKey node) = Some (HashAnnotationValue node) ∧
    ∀ k v,
      getKey (HashAnnotations (TrustedBundle_ (TyphaNodeTLS_ (cfg d)))) k = Some v →
      k ≠ HashAnnotationKey node →
      getKey annotations k = Some v.
Proof.
  intros Hr HL HR Hkeep. destruct (dpiDaemonset_Some d Hr) as [ds Hds].
  exists ds. split; [done|]. simpl. split.
  - destruct (template_annotation d ds _ Hds (Hkeep _ (or_introl eq_refl)))
      as (a & Ha & ->).
    destruct (dpiAnnotations_stamped d a HL HR Ha) as (m & _ & ->).
    simpl. apply lookup_insert_eq.
  - intros k v Hk Hne.
    destruct (template_annotation d ds k Hds) as (a & Ha & ->).
    { apply Hkeep. right. rewrite Hk. eauto. }
    destruct (dpiAnnotations_stamped d a HL HR Ha) as (m & Hm & ->).
    rewrite Hm in Hk. simpl in *. by rewrite lookup_insert_ne.
Qed.

(** C10.  When a prerequisite is missing, [dpiAnnotations] returns nil
    and the pod template of the daemonset that is rendered for
    deletion has no annotation under any key that the Elasticsearch
    decorator leaves alone, so none under a certificate's hash key;
    [dpiAnnotations] returns a map only when both prerequisites hold. *)
Theorem annotations_only_with_prerequisites d :
  renders d = true →
  ∃ ds, dpiDaemonset d = Some ds ∧
    (∀ m, dpiAnnotations d = Some (Some m) →
          HasNoDPIResource (cfg d) = false ∧ HasNoLicense (cfg d) = false) ∧
    (HasNoDPIResource (cfg d) || HasNoLicense (cfg d) = true →
       dpiAnnotations d = Some None ∧
       ∀ k, DecorateAnnotations_keeps_key k →
            getKey (Annotations (PodTemplate_ObjectMeta (podTemplateOf ds))) k
            = None).
Proof.
  intros Hr. destruct (dpiDaemonset_Some d Hr) as [ds Hds].
  exists ds. split; [done|]. split.
  - intros m Hm.
    destruct (HasNoDPIResource (cfg d) || HasNoLicense (cfg d)) eqn:Hgate.
    + rewrite (dpiAnnotations_gated d Hgate) in Hm. discriminate Hm.
    + by apply orb_false_iff in Hgate.
  - intros Hgate. split; [by apply dpiAnnotations_gated|].
    intros k Hkeep.
    destruct (template_annotation d ds k Hds Hkeep) as (a & Ha & ->).
    rewrite (dpiAnnotations_gated d Hgate) in Ha. by simplify_eq.
Qed.

(** C7.  The init containers of the daemonset's pod template are the
    node secret's init container when the node key pair is under
    certificate management, and none otherwise.  The volumes are the same
    three in both modes: the bundle's, the key pair's own volume, and the
    host path of the alert log.  So under certificate management, with a
    key pair that keeps the contract of certificate management, no volume
    of the template but the bundle's can be backed by a secret. *)
Theorem daemonset_init_container d :
  renders d = true →
  DecorateAnnotations_keeps_spec →
  ∃ ds, dpiDaemonset d = Some ds ∧
    let spec := PodTemplate_Spec (podTemplateOf ds) in
    let node := NodeSecret (TyphaNodeTLS_ (cfg d)) in
    InitContainers spec =
      (if UseCertificateManagement node
       then [InitContainer node DeepPacketInspectionNamespace] else []) ∧
    Volumes spec =
      [ Bundle_Volume (TrustedBundle_ (TyphaNodeTLS_ (cfg d)));
        KeyPair_Volume node;
        {| Volume_Name := "log-snort-alters";
           Volume_VolumeSource :=
             HostPathSource
               {| HostPath_Path := "/var/log/calico/snort-alerts";
                  HostPath_Type := Some HostPathDirectoryOrCreate |} |} ] ∧
    (UseCertificateManagement node = true →
     certificateManagementContract node →
     ∀ v, v ∈ Volumes spec →
          v = Bundle_Volume (TrustedBundle_ (TyphaNodeTLS_ (cfg d))) ∨
          ∀ name mode, Volume_VolumeSource v ≠ SecretSource name mode).
Proof.
  intros Hr Hkeep. destruct (dpiDaemonset_Some d Hr) as [ds Hds].
  exists ds. split; [done|].
  destruct (template_spec d ds Hds Hkeep) as (c & _ & Hinit & _ & Hvol).
  simpl in *. rewrite Hinit, Hvol. split; [done|]. split; [done|].
  intros Hcm Hcontract v. unfold dpiVolumes.
  rewrite !elem_of_cons, elem_of_nil. intros [-> | [-> | [-> | []]]].
  - by left.
  - right. intros name mode. rewrite (Hcontract Hcm). discriminate.
  - right. intros name mode. discriminate.
Qed.

Lemma podSecurityPolicyRule_granted d :
  podSecurityPolicyRule ∈ Rules (dpiClusterRole d) ↔
  KubernetesProvider (Installation (cfg d)) ≠ ProviderOpenShift.
Proof.
  unfold dpiClusterRole. simpl. case_decide as Hp; simpl;
    rewrite !elem_of_cons, elem_of_nil; unfold podSecurityPolicyRule.
  - split; [done|]. intros _. do 3 right. by left.
  - split; [|done]. intros [Heq|[Heq|[Heq|[]]]]; discriminate Heq.
Qed.

(** C8.  The container of the daemonset is privileged exactly when the
    [Openshift] flag is set, and the cluster role has the rule that
    grants the use of the pod security policy exactly when the
    Kubernetes provider is not OpenShift.  The Elasticsearch decorators
    are asked to leave the pod spec and the security context alone. *)
Theorem provider_specific_fields d :
  renders d = true →
  DecorateAnnotations_keeps_spec →
  ContainerDecorate_keeps_security →
  ∃ ds c,
    dpiDaemonset d = Some ds ∧
    Containers (PodTemplate_Spec (podTemplateOf ds)) = [c] ∧
    Container_SecurityContext c = Some {| Privileged := Some (Openshift (cfg d)) |} ∧
    (podSecurityPolicyRule ∈ Rules (dpiClusterRole d) ↔
       KubernetesProvider (Installation (cfg d)) ≠ ProviderOpenShift).
Proof.
  intros Hr Hspec [Hsec1 Hsec2]. destruct (dpiDaemonset_Some d Hr) as [ds Hds].
  destruct (template_spec d ds Hds Hspec) as (c & Hc & _ & Hcs & _).
  exists ds, c. split; [done|]. split; [done|].
  split; [|apply podSecurityPolicyRule_granted].
  unfold dpiContainer in Hc.
  destruct (dpiResources (cfg d)) as [r|]; simplify_eq/=.
  rewrite Hsec2, Hsec1. simpl. by destruct (Openshift (cfg d)).
Qed.

End Proofs.

(** *** The renderer on concrete configurations *)

#[local] Existing Instance Examples.imports.

Lemma example_decorator_keeps_key k :
  k ≠ "hash.operator.tigera.io/elasticsearch-configmap" →
  DecorateAnnotations_keeps_key k.
Proof.
  intros Hk pt c s. simpl. rewrite lookup_insert_ne by congruence.
  destruct (Annotations (PodTemplate_ObjectMeta pt)); simpl; [done|].
  apply lookup_empty.
Qed.

Lemma example_decorator_keeps_spec : DecorateAnnotations_keeps_spec.
Proof. intros pt c s. reflexivity. Qed.

Lemma example_decorators_keep_security : ContainerDecorate_keeps_security.
Proof. split; intros; reflexivity. Qed.

Lemma example_certificate_keys (certificateManagement : bool) k :
  k = HashAnnotationKey (Examples.nodeSecret certificateManagement) ∨
  is_Some (getKey (HashAnnotations Examples.bundle) k) →
  DecorateAnnotations_keeps_key k.
Proof.
  intros [-> | [v Hv]]; apply example_decorator_keeps_key.
  - discriminate.
  - change (({[ "hash.operator.tigera.io/tigera-ca-private" := "cafe" ]}
              : gmap string string) !! k = Some v) in Hv.
    apply lookup_singleton_Some in Hv as [<- _]. discriminate.
Qed.

Lemma Objects_panics_without_resources :
  Objects (DPI Examples.configWithoutResources) = None.
Proof. reflexivity. Qed.

Lemma Objects_disjoint_witness :
  ∃ toCreate toDelete,
    Objects (DPI (Examples.config false true false)) = Some (toCreate, toDelete) ∧
    ∀ c x, c ∈ toCreate → x ∈ toDelete → identity c ≠ identity x.
Proof.
  apply (Objects_disjoint (DPI (Examples.config false true false))).
  reflexivity.
Defined.

Lemma Objects_gating_witness :
  ∃ ds toCreate toDelete,
    dpiDaemonset (DPI (Examples.config true false false)) = Some ds ∧
    Objects (DPI (Examples.config true false false)) = Some (toCreate, toDelete) ∧
    toCreate = [] ∧
    toDelete =
      [namespaceObject (DPI (Examples.config true false false))] ++
      publicCertSecretObject ::
        pullSecretObjects (DPI (Examples.config true false false)) ++
        workloadObjects (DPI (Examples.config true false false)) ds.
Proof.
  apply (Objects_gating (DPI (Examples.config true false false))); reflexivity.
Defined.

(** Two departures from the specification.  Where the license is there and only
    the DPI resource is missing, the namespace is created, not deleted:
    [toCreate] is not empty and the namespace is not in [toDelete].  And
    of the secrets that the renderer creates with both prerequisites, the
    copies of the Elasticsearch secrets are not deleted when a
    prerequisite goes: the copy of the user's credentials is in
    [toCreate] of the open configuration and, whichever gate is closed,
    no object of its identity is in [toDelete]. *)
Lemma gating_counterexample :
  (HasNoDPIResource (Examples.config false true false) = true ∧
   ∃ toCreate toDelete,
     Objects (DPI (Examples.config false true false)) = Some (toCreate, toDelete) ∧
     toCreate ≠ [] ∧
     namespaceObject (DPI (Examples.config false true false)) ∉ toDelete) ∧
  (∃ toCreate,
     Objects (DPI (MoreExamples.configWithUserSecret false false))
     = Some (toCreate, []) ∧
     OSecret MoreExamples.userSecretCopy ∈ toCreate ∧
     ∀ hasNoLicense hasNoDPIResource,
       hasNoLicense || hasNoDPIResource = true →
       ∃ toCreate' toDelete',
         Objects (DPI (MoreExamples.configWithUserSecret hasNoLicense hasNoDPIResource))
         = Some (toCreate', toDelete') ∧
         ∀ o, o ∈ toDelete' → identity o ≠ identity (OSecret MoreExamples.userSecretCopy)).
Proof.
  split.
  - split; [reflexivity|].
    eexists _, _. split; [reflexivity|]. split; [discriminate|].
    intros Hin.
    repeat (apply elem_of_cons in Hin as [Heq | Hin]; [discriminate Heq|]).
    by apply elem_of_nil in Hin.
  - eexists. split; [reflexivity|]. split.
    { vm_compute. repeat constructor. }
    intros hasNoLicense hasNoDPIResource Hgate.
    destruct hasNoLicense, hasNoDPIResource; try discriminate Hgate;
      (eexists _, _; split; [reflexivity|]);
      intros o Hin;
      repeat (apply elem_of_cons in Hin as [-> | Hin]; [discriminate|]);
      by apply elem_of_nil in Hin.
Qed.

Lemma toCreate_dependencies_first_witness :
  ∃ ds toCreate toDelete,
    dpiDaemonset (DPI (Examples.config false false false)) = Some ds ∧
    Objects (DPI (Examples.config false false false)) = Some (toCreate, toDelete) ∧
    toCreate !! 0%nat = Some (namespaceObject (DPI (Examples.config false false false))) ∧
    last toCreate = Some (ODaemonSet ds).
Proof.
  destruct (toCreate_dependencies_first
              (DPI (Examples.config false false false)) eq_refl)
    as (ds & toCreate & toDelete & Hds & Hobjs & _ & _ & _ & _ & Hshape).
  exists ds, toCreate, toDelete. simpl in Hshape. rewrite Hshape.
  split; [exact Hds|]. split; [rewrite <- Hshape; exact Hobjs|].
  split; [reflexivity|]. reflexivity.
Defined.

Lemma Objects_deterministic_witness :
  ∃ d1 d2,
    perform true [CallResolveImages (Some Examples.imageSet)]
      (DPI (Examples.config false false false)) = Some d1 ∧
    perform true
      [CallObjects; CallResolveImages None; CallObjects;
       CallResolveImages (Some Examples.imageSet)]
      (DPI (Examples.config false false false)) = Some d2 ∧
    d1 ≠ d2 ∧
    fst <$> ObjectsS true d1 = fst <$> ObjectsS true d2 ∧
    fst <$> ObjectsS true d1
    = Objects
        {| cfg := Examples.config false false false;
           dpiImage :=
             resolvedImage (Examples.config false false false)
               [CallResolveImages (Some Examples.imageSet)] |}.
Proof.
  destruct (perform true [CallResolveImages (Some Examples.imageSet)]
              (DPI (Examples.config false false false))) as [d1|] eqn:Hd1;
    [|vm_compute in Hd1; discriminate Hd1].
  destruct (perform true
              [CallObjects; CallResolveImages None; CallObjects;
               CallResolveImages (Some Examples.imageSet)]
              (DPI (Examples.config false false false))) as [d2|] eqn:Hd2;
    [|vm_compute in Hd2; discriminate Hd2].
  exists d1, d2. split; [reflexivity|]. split; [reflexivity|]. split.
  { intros ->. rewrite <- Hd2 in Hd1.
    apply (f_equal (λ r, d ← r;
                         m ← HashAnnotations (TrustedBundle_ (TyphaNodeTLS_ (cfg d)));
                         Some (size m))) in Hd1.
    vm_compute in Hd1. discriminate Hd1. }
  apply (Objects_deterministic true (Examples.config false false false) _ _
           d1 d2 Hd1 Hd2).
  vm_compute. reflexivity.
Defined.

(** Two components built from the same configuration whose images were
    resolved against different image sets: the daemonsets they render run
    different images. *)
Lemma Objects_depends_on_image :
  cfg (fst (ResolveImages (DPI (Examples.config false false false)) None))
  = cfg (fst (ResolveImages (DPI (Examples.config false false false))
                (Some Examples.imageSet))) ∧
  Objects (fst (ResolveImages (DPI (Examples.config false false false)) None))
  ≠ Objects (fst (ResolveImages (DPI (Examples.config false false false))
                    (Some Examples.imageSet))).
Proof.
  split; [reflexivity|]. intros Heq.
  apply (f_equal (λ r, daemonsetImages <$> (fst <$> r))) in Heq.
  vm_compute in Heq. discriminate Heq.
Qed.

Lemma daemonset_hash_annotations_witness :
  ∃ ds, dpiDaemonset (DPI (Examples.config false false false)) = Some ds ∧
    getKey (Annotations (PodTemplate_ObjectMeta (podTemplateOf ds)))
      "hash.operator.tigera.io/node-certs" = Some "f00d" ∧
    getKey (Annotations (PodTemplate_ObjectMeta (podTemplateOf ds)))
      "hash.operator.tigera.io/tigera-ca-private" = Some "cafe".
Proof.
  destruct (daemonset_hash_annotations
              (DPI (Examples.config false false false))
              eq_refl eq_refl eq_refl (example_certificate_keys false))
    as (ds & Hds & Hnode & Hbundle).
  exists ds. split; [exact Hds|]. split; [exact Hnode|].
  apply Hbundle; [reflexivity | discriminate].
Defined.

Lemma annotations_only_with_prerequisites_witness :
  ∃ ds, dpiDaemonset (DPI (Examples.config false true false)) = Some ds ∧
    dpiAnnotations (DPI (Examples.config false true false)) = Some None ∧
    getKey (Annotations (PodTemplate_ObjectMeta (podTemplateOf ds)))
      "hash.operator.tigera.io/node-certs" = None.
Proof.
  destruct (annotations_only_with_prerequisites
              (DPI (Examples.config false true false)) eq_refl)
    as (ds & Hds & _ & Hgated).
  destruct (Hgated eq_refl) as [Hnil Hnone].
  exists ds. split; [exact Hds|]. split; [exact Hnil|].
  apply Hnone, example_decorator_keeps_key. discriminate.
Defined.

Lemma daemonset_init_container_witness :
  ∃ ds, dpiDaemonset (DPI (Examples.config false false true)) = Some ds ∧
    InitContainers (PodTemplate_Spec (podTemplateOf ds))
    = [Examples.containerNamed "node-certs-key-cert-provisioner"] ∧
    Volume_VolumeSource <$> Volumes (PodTemplate_Spec (podTemplateOf ds))
    = [ ConfigMapSource "tigera-ca-bundle"; EmptyDirSource;
        HostPathSource {| HostPath_Path := "/var/log/calico/snort-alerts";
                          HostPath_Type := Some HostPathDirectoryOrCreate |} ] ∧
    ∀ v, v ∈ Volumes (PodTemplate_Spec (podTemplateOf ds)) →
         v = Bundle_Volume Examples.bundle ∨
         ∀ name mode, Volume_VolumeSource v ≠ SecretSource name mode.
Proof.
  destruct (daemonset_init_container
              (DPI (Examples.config false false true))
              eq_refl example_decorator_keeps_spec)
    as (ds & Hds & Hinit & Hvol & Hsecret).
  exists ds. split; [exact Hds|]. simpl in Hinit, Hvol, Hsecret.
  split; [rewrite Hinit; reflexivity|].
  split; [rewrite Hvol; reflexivity|].
  apply Hsecret; [reflexivity|]. intros _. reflexivity.
Defined.

Lemma provider_specific_fields_witness :
  ∃ ds c,
    dpiDaemonset (DPI (Examples.config false false false)) = Some ds ∧
    Containers (PodTemplate_Spec (podTemplateOf ds)) = [c] ∧
    Container_SecurityContext c = Some {| Privileged := Some false |} ∧
    podSecurityPolicyRule ∈ Rules (dpiClusterRole (DPI (Examples.config false false false))).
Proof.
  destruct (provider_specific_fields
              (DPI (Examples.config false false false))
              eq_refl example_decorator_keeps_spec example_decorators_keep_security)
    as (ds & c & Hds & Hc & Hsec & Hpsp).
  exists ds, c. split; [exact Hds|]. split; [exact Hc|]. split; [exact Hsec|].
  apply Hpsp. discriminate.
Defined.

End DpiSpec.

(** * Properties of the ES Gateway renderer *)

Module EsGatewaySpec.
Import K8s Operator EsGateway.

Section Proofs.
Context (DeploymentName ElasticsearchNamespace : string).

(** C5.  For a replica count of at least one, the pod template of the
    rendered deployment has no affinity when the count is 1 and carries
    the pod anti-affinity constraint of the deployment when the count is
    greater than 1. *)
Theorem affinity_boundary rest c replicas :
  ControlPlaneReplicas (Installation c) = Some replicas →
  1 ≤ replicas →
  deploymentAffinity (esGatewayDeployment DeploymentName ElasticsearchNamespace rest c)
  = if decide (replicas = 1) then None
    else Some {| PodAntiAffinity_ :=
                   Some {| AntiAffinity_name := DeploymentName;
                           AntiAffinity_namespace := ElasticsearchNamespace |} |}.
Proof.
  intros Hc Hle. unfold deploymentAffinity, esGatewayDeployment. simpl.
  unfold esGatewayAffinity. rewrite Hc.
  destruct (decide (replicas = 1)) as [-> | Hne].
  - reflexivity.
  - rewrite decide_True by lia. reflexivity.
Qed.

End Proofs.

(** The two tests of the affinity rule, and the count of three. *)
Lemma affinity_boundary_witness :
  deploymentAffinity
    (esGatewayDeployment "tigera-secure-es-gateway" "tigera-elasticsearch"
       Examples.podSpec (Examples.esGatewayConfig 1)) = None ∧
  deploymentAffinity
    (esGatewayDeployment "tigera-secure-es-gateway" "tigera-elasticsearch"
       Examples.podSpec (Examples.esGatewayConfig 2))
  = Some (NewPodAntiAffinity "tigera-secure-es-gateway" "tigera-elasticsearch") ∧
  deploymentAffinity
    (esGatewayDeployment "tigera-secure-es-gateway" "tigera-elasticsearch"
       Examples.podSpec (Examples.esGatewayConfig 3))
  = Some (NewPodAntiAffinity "tigera-secure-es-gateway" "tigera-elasticsearch").
Proof.
  split; [|split].
  - apply (affinity_boundary _ _ Examples.podSpec (Examples.esGatewayConfig 1) 1);
      [reflexivity | lia].
  - apply (affinity_boundary _ _ Examples.podSpec (Examples.esGatewayConfig 2) 2);
      [reflexivity | lia].
  - apply (affinity_boundary _ _ Examples.podSpec (Examples.esGatewayConfig 3) 3);
      [reflexivity | lia].
Defined.

End EsGatewaySpec.

(** * Properties of the reconciliation passes *)

Module ReconcileSpec.
Import K8s Operator Controller.

(** *** Computations that read neither resource *)

Lemma quiet_ret {A : Type} (a : A) : quiet (mret a).
Proof. constructor. Qed.

Lemma quiet_exit {A : Type} res err : quiet (exit (A:=A) res err).
Proof. constructor. Qed.

Lemma quiet_tell e : noTopologyRead e → quiet (tell e).
Proof. intros He. by constructor. Qed.

Lemma quiet_bind {A B : Type} (m : M A) (f : A → M B) :
  quiet m → (∀ a, quiet (f a)) → quiet (m ≫= f).
Proof.
  unfold quiet. destruct m as [[a|r] w]; simpl; intros Hm Hf; [|done].
  specialize (Hf a). destruct (f a) as [x w']. simpl in *.
  by apply Forall_app.
Qed.

Lemma quiet_forM {A : Type} (l : list A) body :
  (∀ x, quiet (body x)) → quiet (forM_ l body).
Proof.
  intros Hbody. induction l as [|x l IH]; simpl.
  - apply quiet_ret.
  - apply quiet_bind; auto.
Qed.

Lemma readsBoth_quiet w0 w :
  Forall noTopologyRead w → readsBoth (w0 ++ w) → readsBoth w0.
Proof.
  intros Hw [H1 H2]. rewrite Forall_forall in Hw. split.
  - apply elem_of_app in H1 as [?|H1]; [done|]. by destruct (Hw _ H1).
  - apply elem_of_app in H2 as [?|H2]; [done|]. by destruct (Hw _ H2).
Qed.

(** *** Running a pass step by step *)

Lemma guarded_quiet {A : Type} w0 (m : M A) :
  ¬ readsBoth w0 → quiet m → guarded w0 m.
Proof.
  intros Hw0 Hm. destruct m as [[a|r] w]; simpl in *; intros Hb.
  - by apply Hw0, (readsBoth_quiet w0 w).
  - exfalso. by apply Hw0, (readsBoth_quiet w0 w).
Qed.

Lemma guarded_bind {A B : Type} w0 (m : M A) (f : A → M B) :
  (∀ a w, m = (inl a, w) → guarded (w0 ++ w) (f a)) →
  (∀ r w, m = (inr r, w) → readsBoth (w0 ++ w) → rejected (r, w0 ++ w)) →
  guarded w0 (m ≫= f).
Proof.
  destruct m as [[a|r] w]; intros Hgo Hexit.
  - specialize (Hgo a w eq_refl). unfold mbind, M_bind.
    destruct (f a) as [[b|r] w']; simpl in *; by rewrite app_assoc.
  - simpl. by apply Hexit.
Qed.

Lemma guarded_bind_quiet {A B : Type} w0 (m : M A) (f : A → M B) :
  guarded w0 m → (∀ a, quiet (f a)) → guarded w0 (m ≫= f).
Proof.
  destruct m as [[a|r] w]; simpl; intros Hm Hf; [|done].
  specialize (Hf a). unfold quiet in Hf.
  destruct (f a) as [[b|r] w']; simpl in *; rewrite app_assoc; intros Hb.
  - by apply Hm, (readsBoth_quiet _ w').
  - exfalso. by apply Hm, (readsBoth_quiet _ w').
Qed.

Lemma guarded_run (m : M Return) :
  guarded [] m → readsBoth (snd (run m)) → rejected (run m).
Proof.
  destruct m as [[a|r] w]; simpl; intros Hm Hb; [done|]. by apply Hm.
Qed.

(** Proves [quiet] by following the structure of the computation. *)
Ltac quiet_tac :=
  repeat first
    [ apply quiet_ret
    | apply quiet_exit
    | apply quiet_tell; split; discriminate
    | apply quiet_forM; intros ?
    | apply quiet_bind; [|intros ?]
    | match goal with
      | |- quiet (match ?x with _ => _ end) => destruct x
      end
    | progress cbv zeta
    | progress unfold observe ].

(** Evaluates the step in [H : step = result] by cases on what it reads. *)
Ltac eval_in H :=
  repeat (unfold observe, tell, exit, mret, M_ret, mbind, M_bind in H; cbn in H;
          match type of H with
          | context [match ?x with _ => _ end] => destruct x eqn:?
          end);
  unfold observe, tell, exit, mret, M_ret, mbind, M_bind in H; cbn in H;
  simplify_eq.

Ltac not_in_trace H :=
  cbn in H;
  repeat (apply elem_of_cons in H as [H | H]; [discriminate H|]);
  by apply elem_of_nil in H.

(** Closes [¬ readsBoth w], or a goal with [readsBoth w] as premise, for a
    trace [w] given in full that lacks one of the two reads. *)
Ltac no_reads :=
  let H1 := fresh in
  let H2 := fresh in
  intros [H1 H2]; first [ not_in_trace H1 | not_in_trace H2 ].

(** One statement of a pass: the pass either goes on, with the statement's
    events appended to the trace, or returns. *)
Ltac guarded_step :=
  lazymatch goal with
  | |- guarded _ (match ?x with _ => _ end) => destruct x eqn:?
  | |- guarded _ (_ ≫= _) =>
      apply guarded_bind;
      [ let a := fresh "a" in
        let w := fresh "w" in
        let Heq := fresh "Heq" in
        intros a w Heq; eval_in Heq; cbn [app]
      | let r := fresh "r" in
        let w := fresh "w" in
        let Heq := fresh "Heq" in
        intros r w Heq; eval_in Heq; try no_reads ]
  | |- guarded _ _ => progress cbv zeta
  end.

Ltac rejected_here :=
  intros _; split; [reflexivity|]; split; [reflexivity|]; repeat constructor.

Section Proofs.
Context {cluster : Cluster}.

(** When a pass gets to read both resources, in terms of the cluster: the
    reads before them succeed (and, for the API server, the variant is the
    enterprise one). *)
Lemma apiserver_both_present r instance network cm tls ps mc mcc :
  GetAPIServer = inl instance →
  GetInstallation = inl (TigeraSecureEnterprise, network) →
  TigeraSecureEnterprise ≠ "" →
  Create network (ApiServer.clusterDomain r) = inl cm →
  GetOrCreateKeyPair cm (ProjectCalicoApiServerTLSSecretName (Variant network))
    OperatorNamespace
    (GetServiceDNSNames (ProjectCalicoApiServerServiceName (Variant network))
       (APIServerNamespace (Variant network)) (ApiServer.clusterDomain r)) = inl tls →
  GetNetworkingPullSecrets network = inl ps →
  GetManagementCluster = inl (Some mc) →
  GetManagementClusterConnection = inl (Some mcc) →
  run (ApiServer.Reconcile r) =
    ((Result_zero, Some bothError),
     [ Read RAPIServer true; OnCRFound; Read RInstallation true;
       Read RCertificateAuthority true;
       Read (RKeyPair (ProjectCalicoApiServerTLSSecretName (Variant network))
               OperatorNamespace) true;
       AddToStatusManager (APIServerNamespace TigeraSecureEnterprise);
       Read RPullSecrets true;
       Read RManagementCluster true; Read RManagementClusterConnection true;
       SetDegraded (Error bothError) "" ]).
Proof.
  intros Hinstance Hinstallation Hvariant Hca Htls Hps Hmc Hmcc.
  unfold ApiServer.Reconcile.
  rewrite Hinstance. cbn. rewrite Hinstallation. cbn.
  rewrite (decide_False (P := TigeraSecureEnterprise = "")) by done. cbn.
  rewrite Hca. cbn. rewrite Htls. cbn. rewrite Hps. cbn.
  rewrite (decide_True (P := TigeraSecureEnterprise = TigeraSecureEnterprise)) by done.
  cbn. rewrite Hmc. cbn. rewrite Hmcc. reflexivity.
Qed.

Lemma compliance_both_present r instance license variant network ps es mc mcc :
  ClientGetCompliance = inl instance →
  IsAPIServerReady = true →
  ComplianceController.licenseAPIReady r = true →
  FetchLicenseKey = inl license →
  GetInstallation = inl (variant, network) →
  GetNetworkingPullSecrets network = inl ps →
  GetElasticsearchClusterConfig = inl es →
  GetManagementCluster = inl (Some mc) →
  GetManagementClusterConnection = inl (Some mcc) →
  run (ComplianceController.Reconcile r) =
    ((Result_zero, Some bothError),
     [ Read RCompliance true; OnCRFound; Read RAPIServerReady true;
       Read RLicenseKey true; Read RInstallation true; Read RPullSecrets true;
       Read RElasticsearchClusterConfig true;
       Read RManagementCluster true; Read RManagementClusterConnection true;
       SetDegraded (Error bothError) "" ]).
Proof.
  intros Hinstance Hready Hflag Hlicense Hinstallation Hps Hes Hmc Hmcc.
  unfold ComplianceController.Reconcile, ComplianceController.GetCompliance.
  rewrite Hinstance. cbn. rewrite Hready. cbn. rewrite Hflag. cbn.
  rewrite Hlicense. cbn. rewrite Hinstallation. cbn. rewrite Hps. cbn.
  rewrite Hes. cbn. rewrite Hmc. cbn. rewrite Hmcc. reflexivity.
Qed.

(** A pass that does not get that far returns as its early exit says,
    whatever else the cluster holds: without the [APIServer] resource the
    pass returns no error and does not touch the degraded status. *)
Lemma apiserver_not_found r msg err :
  GetAPIServer = inr (msg, err) →
  IsNotFound err = true →
  run (ApiServer.Reconcile r) =
    ((Result_zero, None), [Read RAPIServer false; OnCRNotFound]).
Proof.
  intros Hinstance Hnf. unfold ApiServer.Reconcile.
  rewrite Hinstance. cbn. rewrite Hnf. reflexivity.
Qed.

(** C3.  A pass of the API server controller or of the compliance
    controller in which both a [ManagementCluster] and a
    [ManagementClusterConnection] are present (the pass read both) returns
    the error that says so, sets the status degraded with it as its last
    act, and has neither called a renderer nor applied anything. *)
Theorem both_topologies_rejected
    (ra : ApiServer.ReconcileAPIServer)
    (rc : ComplianceController.ReconcileCompliance) :
  (readsBoth (snd (run (ApiServer.Reconcile ra))) →
   rejected (run (ApiServer.Reconcile ra))) ∧
  (readsBoth (snd (run (ComplianceController.Reconcile rc))) →
   rejected (run (ComplianceController.Reconcile rc))).
Proof.
  split.
  - apply guarded_run. unfold ApiServer.Reconcile.
    (* up to the pull secrets: every return leaves a trace without the reads *)
    do 14 guarded_step.
    (* the enterprise block, then the rest of the pass, which reads neither *)
    apply guarded_bind_quiet; [|intros ?; quiet_tac].
    destruct (decide (_ = TigeraSecureEnterprise));
      [|apply guarded_quiet; [no_reads|quiet_tac]].
    do 4 guarded_step.
    (* the check *)
    guarded_step; [apply guarded_quiet; [no_reads|quiet_tac] .. | rejected_here].
  - apply guarded_run. unfold ComplianceController.Reconcile.
    (* up to the two reads *)
    do 19 guarded_step.
    (* the check, then the rest of the pass, which reads neither *)
    guarded_step; [apply guarded_quiet; [no_reads|quiet_tac] .. | rejected_here].
Qed.

End Proofs.

Lemma both_topologies_rejected_witness :
  rejected (run (ApiServer.Reconcile (cluster:=Examples.cluster) Examples.apiServerReconciler)) ∧
  rejected (run (ComplianceController.Reconcile (cluster:=Examples.cluster)
                   Examples.complianceReconciler)).
Proof.
  destruct (both_topologies_rejected (cluster:=Examples.cluster)
              Examples.apiServerReconciler Examples.complianceReconciler)
    as [Hapi Hcompliance].
  split.
  - apply Hapi. split; vm_compute; repeat constructor.
  - apply Hcompliance. split; vm_compute; repeat constructor.
Defined.

End ReconcileSpec.

(** * Further properties of the DPI renderer *)

Module DpiMoreSpec.
Import K8s Operator Dpi DpiViews.

Section Proofs.
Context {imports : Imports}.



(** *** What a render result holds *)

Lemma filter_ToRuntimeObjects secrets :
  filter (λ o, kindOf o ≠ KSecret) (ToRuntimeObjects secrets) = [].
Proof.
  unfold ToRuntimeObjects. induction secrets as [|s secrets IH]; [done|].
  simpl. rewrite filter_cons_False; [done|]. intros H. by apply H.
Qed.

Lemma filter_workloadObjects d ds :
  filter (λ o, kindOf o ≠ KSecret) (workloadObjects d ds) = workloadObjects d ds.
Proof. reflexivity. Qed.

Lemma Objects_Some_daemonset d res :
  Objects d = Some res → ∃ ds, dpiDaemonset d = Some ds.
Proof.
  intros Hres. apply DpiSpec.dpiDaemonset_Some, DpiSpec.Objects_returns. eauto.
Qed.

(** X2.  Whatever the gates say, a render result accounts for the
    namespace and for the four workload objects exactly once: the objects
    of both lists that are not secrets are the namespace, the service
    account, the cluster role, the cluster role binding and the daemonset,
    in this order. *)
Theorem Objects_accounts_for_workload d toCreate toDelete :
  Objects d = Some (toCreate, toDelete) →
  ∃ ds, dpiDaemonset d = Some ds ∧
    filter (λ o, kindOf o ≠ KSecret) (toCreate ++ toDelete)
    = namespaceObject d :: workloadObjects d ds.
Proof.
  intros Hres. destruct (Objects_Some_daemonset d _ Hres) as [ds Hds].
  exists ds. split; [done|].
  destruct (HasNoLicense (cfg d)) eqn:HL.
  { rewrite (DpiSpec.Objects_unlicensed d ds HL Hds) in Hres. simplify_eq.
    simpl. rewrite filter_cons_True by done.
    rewrite filter_cons_False by (intros H; by apply H).
    unfold pullSecretObjects.
    by rewrite filter_app, filter_ToRuntimeObjects, filter_workloadObjects. }
  destruct (HasNoDPIResource (cfg d)) eqn:HR.
  { rewrite (DpiSpec.Objects_without_resource d ds HL HR Hds) in Hres. simplify_eq.
    simpl. rewrite filter_cons_True by done.
    rewrite filter_cons_False by (intros H; by apply H).
    unfold pullSecretObjects.
    by rewrite filter_app, filter_ToRuntimeObjects, filter_workloadObjects. }
  rewrite (DpiSpec.Objects_rendered d ds HL HR Hds) in Hres. simplify_eq.
  rewrite app_nil_r, filter_cons_True by done.
  unfold esSecretObjects, pullSecretObjects.
  by rewrite !filter_app, !filter_ToRuntimeObjects, filter_workloadObjects.
Qed.

(** X3.  What the renderer creates with both prerequisites it deletes
    when the license goes, the copied Elasticsearch secrets apart: the
    component with its license gate closed renders nothing to create, and
    every object that the open component creates, other than a copy of an
    Elasticsearch secret, has an object of the same identity in the list
    to delete. *)
Theorem unlicensed_deletes_what_was_created d hasNoDPIResource toCreate toDelete :
  Objects (withGates false false d) = Some (toCreate, toDelete) →
  ∃ toDelete',
    Objects (withGates true hasNoDPIResource d) = Some ([], toDelete') ∧
    ∀ o, o ∈ toCreate →
      o ∈ esSecretObjects d ∨ ∃ o', o' ∈ toDelete' ∧ identity o' = identity o.
Proof.
  intros Hres.
  assert (Hr : renders (withGates false false d) = true).
  { apply DpiSpec.Objects_returns. eauto. }
  destruct (DpiSpec.dpiDaemonset_Some _ Hr) as [ds Hds].
  assert (Hr' : renders (withGates true hasNoDPIResource d) = true).
  { unfold renders, dpiResources, dpiAnnotations in *. simpl in *.
    destruct (ComponentResources _ !! 0%nat) as [cr|]; [|done]. simpl in *.
    destruct (ComponentResource_ResourceRequirements cr); [|done].
    by rewrite orb_true_r. }
  destruct (DpiSpec.dpiDaemonset_Some _ Hr') as [ds' Hds'].
  rewrite (DpiSpec.Objects_rendered (withGates false false d) ds
             eq_refl eq_refl Hds) in Hres.
  simplify_eq.
  eexists. split;
    [by apply (DpiSpec.Objects_unlicensed (withGates true hasNoDPIResource d))|].
  intros o. rewrite elem_of_cons, !elem_of_app.
  intros [-> | [Ho | [Ho | Ho]]].
  - right. eexists. split; [by left|]. done.
  - by left.
  - right. exists o. split; [|done].
    right. right. apply elem_of_app. by left.
  - right. unfold workloadObjects in Ho.
    rewrite !elem_of_cons, elem_of_nil in Ho.
    destruct Ho as [-> | [-> | [-> | [-> | []]]]].
    + eexists. split; [|done]. do 2 right. apply elem_of_app. right. by left.
    + eexists. split; [|done]. do 2 right. apply elem_of_app. right.
      right. by left.
    + eexists. split; [|done]. do 2 right. apply elem_of_app. right.
      do 2 right. by left.
    + exists (ODaemonSet ds'). split.
      * do 2 right. apply elem_of_app. right. do 3 right. by left.
      * unfold dpiDaemonset in Hds, Hds'.
        destruct (dpiAnnotations (withGates false false d)); simplify_eq/=.
        destruct (dpiContainer (withGates false false d)); simplify_eq/=.
        destruct (dpiAnnotations (withGates true hasNoDPIResource d)); simplify_eq/=.
        destruct (dpiContainer (withGates true hasNoDPIResource d)); simplify_eq/=.
        done.
Qed.

(** *** The parts of the workload *)

(** X4.  The rendered RBAC objects refer to each other: the cluster role
    binding names the rendered cluster role, by kind and name; its only
    subject is the rendered service account, by kind, name and namespace;
    and the daemonset lives in the namespace of the service account and
    its pods run under it.  The Elasticsearch decorator is asked to leave
    the pod spec alone. *)
Theorem rbac_refers_to_rendered_objects d ds :
  dpiDaemonset d = Some ds →
  DecorateAnnotations_keeps_spec →
  let role := dpiClusterRole d in
  let binding := dpiClusterRoleBinding d in
  let account := dpiServiceAccount d in
  RoleRef_Kind (RoleRef_ binding) = Kind (ClusterRole_TypeMeta role) ∧
  RoleRef_Name (RoleRef_ binding) = Name (ClusterRole_ObjectMeta role) ∧
  Subjects binding =
    [ {| Subject_Kind := Kind (ServiceAccount_TypeMeta account);
         Subject_Name := Name (ServiceAccount_ObjectMeta account);
         Subject_Namespace := Namespace (ServiceAccount_ObjectMeta account) |} ] ∧
  ServiceAccountName (PodTemplate_Spec (podTemplateOf ds))
  = Name (ServiceAccount_ObjectMeta account) ∧
  Namespace (DaemonSet_ObjectMeta ds) = Namespace (ServiceAccount_ObjectMeta account).
Proof.
  intros Hds Hkeep. simpl. repeat split.
  - unfold dpiDaemonset in Hds.
    destruct (dpiAnnotations d); simplify_eq/=.
    destruct (dpiContainer d); simplify_eq/=.
    unfold podTemplateOf. simpl. by rewrite Hkeep.
  - unfold dpiDaemonset in Hds.
    destruct (dpiAnnotations d); simplify_eq/=.
    destruct (dpiContainer d); simplify_eq/=. done.
Qed.

(** X5.  The cluster role grants no more than the daemonset needs: every
    verb of every rule only reads, but for [update] on the status of
    deep packet inspections and [use] of the one pod security policy of
    the component, which is granted off OpenShift only; no rule has a
    wildcard. *)
Theorem dpiClusterRole_least_privilege d rule :
  rule ∈ Rules (dpiClusterRole d) →
  ("*" ∉ APIGroups rule ++ Resources rule ++ Verbs rule) ∧
  (∀ verb, verb ∈ Verbs rule →
     verb ∈ readVerbs ∨
     (verb = "update" ∧ APIGroups rule = ["crd.projectcalico.org"] ∧
      Resources rule = ["deeppacketinspections/status"]) ∨
     (verb = "use" ∧ rule = podSecurityPolicyRule ∧
      KubernetesProvider (Installation (cfg d)) ≠ ProviderOpenShift)).
Proof.
  unfold dpiClusterRole, readVerbs. simpl. case_decide as Hp; simpl;
    rewrite !elem_of_cons, elem_of_nil;
    intros Hrule; repeat destruct Hrule as [-> | Hrule]; try done; simpl;
    (split; [intros Hin;
             repeat (apply elem_of_cons in Hin as [Heq | Hin]; [discriminate Heq|]);
             by apply elem_of_nil in Hin|]);
    intros verb; rewrite !elem_of_cons, elem_of_nil; intros Hverb;
    repeat destruct Hverb as [-> | Hverb]; try done;
    first [ left; repeat constructor; fail
          | right; left; done
          | right; right; done ].
Qed.

(** *** The container *)

(** X6.  The environment of the container names no variable twice, and it
    has the Typha common name, and the Typha URI SAN, exactly when the
    configuration sets one, never with an empty value. *)
Theorem dpiEnvVars_names d :
  let tls := TyphaNodeTLS_ (cfg d) in
  NoDup (EnvVar_Name <$> dpiEnvVars d) ∧
  (∀ e, e ∈ dpiEnvVars d → EnvVar_Name e = "DPI_TYPHACN" →
        EnvVar_Value e = TyphaCommonName tls ∧ TyphaCommonName tls ≠ "") ∧
  (∀ e, e ∈ dpiEnvVars d → EnvVar_Name e = "DPI_TYPHAURISAN" →
        EnvVar_Value e = TyphaURISAN tls ∧ TyphaURISAN tls ≠ "") ∧
  (TyphaCommonName tls ≠ "" → "DPI_TYPHACN" ∈ EnvVar_Name <$> dpiEnvVars d) ∧
  (TyphaURISAN tls ≠ "" → "DPI_TYPHAURISAN" ∈ EnvVar_Name <$> dpiEnvVars d).
Proof.
  unfold dpiEnvVars. simpl.
  destruct (decide (TyphaCommonName _ ≠ "")) as [Hcn|Hcn],
           (decide (TyphaURISAN _ ≠ "")) as [Hsan|Hsan]; simpl;
    (split; [by apply (bool_decide_unpack _)|]);
    (split; [intros e He Hname;
             repeat (apply elem_of_cons in He as [-> | He];
                     [first [discriminate Hname | done]|]);
             by apply elem_of_nil in He|]);
    (split; [intros e He Hname;
             repeat (apply elem_of_cons in He as [-> | He];
                     [first [discriminate Hname | done]|]);
             by apply elem_of_nil in He|]);
    (split; intros ?; first [done | repeat constructor]).
Qed.

(** X7.  Every volume mount of the container is backed by a volume of
    the pod: where the mounts of the trusted bundle and of the node key
    pair name the volumes that the two hand out, the names of the volume
    mounts are the names of the volumes, one by one. *)
Theorem dpiVolumeMounts_backed d :
  mountsNameVolumes (TyphaNodeTLS_ (cfg d)) →
  VolumeMount_Name <$> dpiVolumeMounts d = Volume_Name <$> dpiVolumes d.
Proof.
  intros [Hbundle Hnode]. unfold dpiVolumeMounts, dpiVolumes, SupportedOSType.
  simpl. by rewrite Hbundle, Hnode.
Qed.

(** X8.  The annotations that [dpiAnnotations] returns hold nothing but
    the hash of the node secret, under its key, and the hash annotations
    of the trusted bundle under the other keys. *)
Theorem dpiAnnotations_nothing_else d m k v :
  dpiAnnotations d = Some (Some m) →
  m !! k = Some v →
  let node := NodeSecret (TyphaNodeTLS_ (cfg d)) in
  (k = HashAnnotationKey node ∧ v = HashAnnotationValue node) ∨
  (k ≠ HashAnnotationKey node ∧
   getKey (HashAnnotations (TrustedBundle_ (TyphaNodeTLS_ (cfg d)))) k = Some v).
Proof.
  unfold dpiAnnotations. intros Ha Hk. simpl.
  destruct (HasNoDPIResource (cfg d) || HasNoLicense (cfg d)); [done|].
  destruct (HashAnnotations _) as [m0|]; simplify_eq/=.
  apply lookup_insert_Some in Hk as [[<- <-] | [Hne Hk]]; [by left|].
  right. split; [congruence|done].
Qed.

(** *** The image *)

(** X9.  [ResolveImages] stores what [GetReference] answers, also when it
    answers with an error, which it hands on; it leaves the configuration
    alone; and of two calls the last one wins. *)
Theorem ResolveImages_last_wins d imageSet imageSet' :
  dpiImage (fst (ResolveImages d imageSet)) = fst (resolvedReference d imageSet) ∧
  snd (ResolveImages d imageSet) = snd (resolvedReference d imageSet) ∧
  cfg (fst (ResolveImages d imageSet)) = cfg d ∧
  ResolveImages (fst (ResolveImages d imageSet)) imageSet'
  = ResolveImages d imageSet'.
Proof.
  unfold ResolveImages, resolvedReference.
  destruct (GetReference _ _ _ _ imageSet) as [image [err|]]; simpl;
    by destruct (GetReference _ _ _ _ imageSet') as [image' [err'|]].
Qed.

(** X10.  The daemonset runs the image that [ResolveImages] resolved: a
    render result of the component after [ResolveImages] has one
    daemonset, with one container, whose image is the reference that
    [GetReference] answered.  The Elasticsearch decorators are asked to
    leave the pod spec and the image alone. *)
Theorem resolved_image_is_rendered d imageSet toCreate toDelete :
  DecorateAnnotations_keeps_spec →
  ContainerDecorate_keeps_image →
  Objects (fst (ResolveImages d imageSet)) = Some (toCreate, toDelete) →
  daemonsetImages (toCreate ++ toDelete) = [fst (resolvedReference d imageSet)].
Proof.
  intros Hspec [Himg1 Himg2] Hres.
  destruct (ResolveImages_last_wins d imageSet imageSet) as (Himage & _ & _ & _).
  set (d' := fst (ResolveImages d imageSet)) in *.
  destruct (Objects_Some_daemonset d' _ Hres) as [ds Hds].
  assert (Hds_images :
    Image <$> Containers (PodTemplate_Spec (podTemplateOf ds))
    = [fst (resolvedReference d imageSet)]).
  { destruct (DpiSpec.template_spec d' ds Hds Hspec) as (c & Hc & _ & -> & _).
    unfold dpiContainer in Hc.
    destruct (dpiResources (cfg d')); simplify_eq/=.
    rewrite Himg2, Himg1. simpl. by rewrite Himage. }
  assert (Hsecrets : ∀ secrets, daemonsetImages (ToRuntimeObjects secrets) = []).
  { intros secrets. unfold daemonsetImages, ToRuntimeObjects.
    induction secrets as [|s secrets IH]; [done|]. done. }
  assert (Hwork : daemonsetImages (workloadObjects d' ds)
                  = [fst (resolvedReference d imageSet)]).
  { unfold daemonsetImages, workloadObjects. simpl. rewrite app_nil_r.
    apply Hds_images. }
  assert (Happ : ∀ l1 l2,
    daemonsetImages (l1 ++ l2) = daemonsetImages l1 ++ daemonsetImages l2).
  { intros l1 l2. unfold daemonsetImages. apply flat_map_app. }
  destruct (HasNoLicense (cfg d')) eqn:HL.
  { rewrite (DpiSpec.Objects_unlicensed d' ds HL Hds) in Hres. simplify_eq.
    simpl. unfold pullSecretObjects. by rewrite Happ, Hsecrets, Hwork. }
  destruct (HasNoDPIResource (cfg d')) eqn:HR.
  { rewrite (DpiSpec.Objects_without_resource d' ds HL HR Hds) in Hres.
    simplify_eq. simpl. unfold pullSecretObjects.
    by rewrite Happ, Hsecrets, Hwork. }
  rewrite (DpiSpec.Objects_rendered d' ds HL HR Hds) in Hres. simplify_eq.
  rewrite app_nil_r. simpl. unfold esSecretObjects, pullSecretObjects.
  by rewrite !Happ, !Hsecrets, Hwork.
Qed.

End Proofs.

(** *** On concrete configurations *)

#[local] Existing Instance Examples.imports.

Lemma example_decorators_keep_image : ContainerDecorate_keeps_image.
Proof. split; intros; reflexivity. Qed.

Lemma example_keeps_pod_spec : DecorateAnnotations_keeps_spec.
Proof. intros pt c s. reflexivity. Qed.

Lemma Objects_accounts_for_workload_witness :
  ∃ toCreate toDelete ds,
    Objects (DPI (Examples.config false true false)) = Some (toCreate, toDelete) ∧
    dpiDaemonset (DPI (Examples.config false true false)) = Some ds ∧
    filter (λ o, kindOf o ≠ KSecret) (toCreate ++ toDelete)
    = namespaceObject (DPI (Examples.config false true false)) ::
        workloadObjects (DPI (Examples.config false true false)) ds.
Proof.
  eexists _, _.
  destruct (Objects_accounts_for_workload
              (DPI (Examples.config false true false)) _ _ eq_refl)
    as (ds & Hds & Hfilter).
  exists ds. split; [reflexivity|]. split; [exact Hds|exact Hfilter].
Defined.

Lemma unlicensed_deletes_what_was_created_witness :
  ∃ toCreate toDelete',
    Objects (DPI (Examples.config false false false)) = Some (toCreate, []) ∧
    Objects (DPI (Examples.config true false false)) = Some ([], toDelete') ∧
    ∀ o, o ∈ toCreate →
      o ∈ esSecretObjects (DPI (Examples.config false false false)) ∨
      ∃ o', o' ∈ toDelete' ∧ identity o' = identity o.
Proof.
  eexists.
  destruct (unlicensed_deletes_what_was_created
              (DPI (Examples.config false false false)) false _ _ eq_refl)
    as (toDelete' & Hdelete & Hall).
  exists toDelete'. split; [reflexivity|]. split; [exact Hdelete|exact Hall].
Defined.

Lemma rbac_refers_to_rendered_objects_witness :
  ∃ ds, dpiDaemonset (DPI (Examples.config false false false)) = Some ds ∧
    ServiceAccountName (PodTemplate_Spec (podTemplateOf ds)) = "tigera-dpi" ∧
    Namespace (DaemonSet_ObjectMeta ds) = "tigera-dpi".
Proof.
  eexists. split; [reflexivity|].
  destruct (rbac_refers_to_rendered_objects
              (DPI (Examples.config false false false)) _
              eq_refl example_keeps_pod_spec)
    as (_ & _ & _ & Haccount & Hnamespace).
  split; [exact Haccount|exact Hnamespace].
Defined.

Lemma dpiClusterRole_least_privilege_witness :
  ("*" ∉ APIGroups podSecurityPolicyRule ++ Resources podSecurityPolicyRule ++
         Verbs podSecurityPolicyRule) ∧
  (∀ verb, verb ∈ Verbs podSecurityPolicyRule →
     verb ∈ readVerbs ∨
     (verb = "update" ∧ APIGroups podSecurityPolicyRule = ["crd.projectcalico.org"] ∧
      Resources podSecurityPolicyRule = ["deeppacketinspections/status"]) ∨
     (verb = "use" ∧ podSecurityPolicyRule = podSecurityPolicyRule ∧
      KubernetesProvider (Installation (Examples.config false false false))
      ≠ ProviderOpenShift)).
Proof.
  apply (dpiClusterRole_least_privilege (DPI (Examples.config false false false))).
  vm_compute. repeat constructor.
Defined.

Lemma dpiVolumeMounts_backed_witness :
  VolumeMount_Name <$> dpiVolumeMounts (DPI (Examples.config false false false))
  = Volume_Name <$> dpiVolumes (DPI (Examples.config false false false)).
Proof.
  apply (dpiVolumeMounts_backed (DPI (Examples.config false false false))).
  split; reflexivity.
Defined.

Lemma dpiAnnotations_nothing_else_witness :
  ("hash.operator.tigera.io/tigera-ca-private" =
     HashAnnotationKey (Examples.nodeSecret false) ∧
   "cafe" = HashAnnotationValue (Examples.nodeSecret false)) ∨
  ("hash.operator.tigera.io/tigera-ca-private" ≠
     HashAnnotationKey (Examples.nodeSecret false) ∧
   getKey (HashAnnotations Examples.bundle)
     "hash.operator.tigera.io/tigera-ca-private" = Some "cafe").
Proof.
  apply (dpiAnnotations_nothing_else
           (DPI (Examples.config false false false))
           (<[ "hash.operator.tigera.io/node-certs" := "f00d" ]>
              {[ "hash.operator.tigera.io/tigera-ca-private" := "cafe" ]})).
  - reflexivity.
  - vm_compute. reflexivity.
Defined.

Lemma resolved_image_is_rendered_witness :
  ∃ toCreate toDelete,
    Objects (fst (ResolveImages (DPI (Examples.config false false false))
                    (Some Examples.imageSet))) = Some (toCreate, toDelete) ∧
    daemonsetImages (toCreate ++ toDelete)
    = ["testregistry.com/tigera/deep-packet-inspection@sha256:0123"].
Proof.
  eexists _, _. split; [reflexivity|].
  apply (resolved_image_is_rendered
           (DPI (Examples.config false false false)) (Some Examples.imageSet)
           _ _ example_keeps_pod_spec example_decorators_keep_image eq_refl).
Defined.

End DpiMoreSpec.

(** * Rules for the shape of a trace *)

Module TraceRules.
Import Controller Effects.

Section Rules.
Context {E R : Type} (P : E → Prop) (S : R → list E → Prop).

Lemma holds_ret {A : Type} (V : A → Prop) (a : A) :
  V a → holds P V S (mret a : MG E R A).
Proof. intros Ha. by split. Qed.

Lemma holds_tell (V : unit → Prop) (e : E) :
  P e → V tt → holds P V S (tellG e).
Proof. intros He Hv. split; [by constructor|done]. Qed.

Lemma holds_exit {A : Type} (V : A → Prop) (r : R) :
  S r [] → holds P V S (exitG r : MG E R A).
Proof. intros Hr. by exists [], []. Qed.

Lemma holds_bind {A B : Type} (V0 : A → Prop) (V : B → Prop)
    (m : MG E R A) (f : A → MG E R B) :
  holds P V0 S m →
  (∀ a w, m = (inl a, w) → V0 a → holds P V S (f a)) →
  holds P V S (m ≫= f).
Proof.
  destruct m as [[a|r] w]; simpl; intros Hm Hf; [|done].
  destruct Hm as [Hw Ha]. specialize (Hf a w eq_refl Ha).
  destruct (f a) as [[b|r] w']; simpl in *.
  - destruct Hf as [Hw' Hb]. split; [by apply Forall_app|done].
  - destruct Hf as (pre & post & -> & Hpre & Hpost).
    exists (w ++ pre), post. rewrite app_assoc. split; [done|].
    split; [by apply Forall_app|done].
Qed.

Lemma holds_tell_bind {B : Type} (V : B → Prop) (e : E) (f : unit → MG E R B) :
  P e → holds P V S (f tt) → holds P V S (tellG e ≫= f).
Proof.
  intros He Hf. apply (holds_bind (λ _, True)).
  - by apply holds_tell.
  - by intros [] w _ _.
Qed.

(** The last act before a return is the ending... *)
Lemma holds_tell_exit {B : Type} (V : B → Prop) (e : E) (r : R) :
  S r [e] → holds P V S (tellG e ≫= λ _, exitG r : MG E R B).
Proof. intros Hr. by exists [], [e]. Qed.

(** ... or belongs to the prefix. *)
Lemma holds_tell_exit_quiet {B : Type} (V : B → Prop) (e : E) (r : R) :
  P e → S r [] → holds P V S (tellG e ≫= λ _, exitG r : MG E R B).
Proof.
  intros He Hr. exists [e], []. split; [done|]. split; [by constructor|done].
Qed.

Lemma holds_forG {A : Type} (l : list A) (body : A → MG E R unit) :
  (∀ x, x ∈ l → holds P (λ _, True) S (body x)) →
  holds P (λ _, True) S (forG_ l body).
Proof.
  induction l as [|x l IH]; intros Hbody; simpl.
  - by apply holds_ret.
  - apply (holds_bind (λ _, True)).
    + apply Hbody. by left.
    + intros _ _ _ _. apply IH. intros y Hy. apply Hbody. by right.
Qed.

Lemma holds_foldG {A St : Type} (l : list A) (s : St)
    (body : St → A → MG E R St) :
  (∀ s x, x ∈ l → holds P (λ _, True) S (body s x)) →
  holds P (λ _, True) S (foldG l s body).
Proof.
  revert s. induction l as [|x l IH]; intros s Hbody; simpl.
  - by apply holds_ret.
  - apply (holds_bind (λ _, True)).
    + apply Hbody. by left.
    + intros s' _ _ _. apply IH. intros s'' y Hy. apply Hbody. by right.
Qed.

Lemma holds_weaken {A : Type} (V V' : A → Prop) (m : MG E R A) :
  (∀ a, V a → V' a) → holds P V S m → holds P V' S m.
Proof.
  intros HV. destruct m as [[a|r] w]; simpl; [|done].
  intros [Hw Ha]. auto.
Qed.

Lemma holds_run (m : MG E R R) :
  holds P (λ _, False) S m →
  ∃ pre post,
    snd (runG m) = pre ++ post ∧ Forall P pre ∧ S (fst (runG m)) post.
Proof. destruct m as [[a|r] w]; simpl; [by intros [_ []]|done]. Qed.

End Rules.

(** The same for the passes of the API server and compliance controllers. *)
Lemma holds_forM {A : Type} (P : Event → Prop) (S : Return → list Event → Prop)
    (l : list A) (body : A → M unit) :
  (∀ x, x ∈ l → holds P (λ _, True) S (body x)) →
  holds P (λ _, True) S (forM_ l body).
Proof.
  induction l as [|x l IH]; intros Hbody; simpl.
  - by apply (holds_ret (E:=Event) (R:=Return)).
  - apply (holds_bind (E:=Event) (R:=Return) P S (λ _, True)).
    + apply Hbody. by left.
    + intros _ _ _ _. apply IH. intros y Hy. apply Hbody. by right.
Qed.

Lemma holds_pass (P : Event → Prop) (S : Return → list Event → Prop)
    (m : M Return) :
  holds P (λ _, False) S m →
  ∃ pre post, snd (run m) = pre ++ post ∧ Forall P pre ∧ S (fst (run m)) post.
Proof. apply (holds_run (E:=Event) (R:=Return)). Qed.

(** The innermost scrutinee at the head of a term. *)
Ltac scrutinee t :=
  lazymatch t with
  | match ?x with _ => _ end => scrutinee x
  | _ => constr:(t)
  end.

(** Evaluates the step in [H : step = result] by cases on what it reads. *)
Ltac learn H :=
  repeat first
    [ progress unfold observe, tell, exit, tellG, exitG, mret, M_ret, MG_ret,
        mbind, M_bind, MG_bind in H
    | progress cbn in H
    | lazymatch type of H with
      | match ?x with _ => _ end = _ =>
          let y := scrutinee x in destruct y eqn:?
      end ];
  simplify_eq.

(** One statement of a computation, with the statements nested in it.
    [event] proves that an event belongs to the prefix, [ending] that a
    return with its last act is an ending; [next] is what to do with the
    equation of a step that goes on. *)
Ltac holds_step event ending next :=
  lazymatch goal with
  | |- holds _ _ _ (match (_, _) with _ => _ end) => cbv beta iota
  | |- holds _ _ _ (match ?x with _ => _ end) => destruct x eqn:?
  | |- holds _ _ _ (mbind (λ _, exit _ _) (tell _)) =>
      first [ apply holds_tell_exit; solve [ending]
            | apply holds_tell_exit_quiet; [solve [event] | solve [ending]] ]
  | |- holds _ _ _ (mbind (λ _, exitG _) (tellG _)) =>
      first [ apply holds_tell_exit; solve [ending]
            | apply holds_tell_exit_quiet; [solve [event] | solve [ending]] ]
  | |- holds _ _ _ (tell _ ≫= _) => apply holds_tell_bind; [solve [event]|]
  | |- holds _ _ _ (tellG _ ≫= _) =>
      first
        [ apply holds_tell_bind; [solve [event]|]
        | lazymatch goal with
          | |- holds _ _ _ (mbind (λ _, match ?x with _ => _ end) _) =>
              destruct x eqn:?; cbv beta iota
          end ]
  | |- holds _ _ _ (observe _ _ ≫= _) => unfold observe
  | |- holds _ _ _ (_ ≫= _) =>
      apply (holds_bind _ _ (λ _, True));
      [ solve [repeat holds_step event ending next]
      | let a := fresh "a" in
        let w := fresh "w" in
        let Heq := fresh "Heq" in
        intros a w Heq _; next Heq ]
  | |- holds _ _ _ (forM_ _ _) => apply holds_forM; intros ? _
  | |- holds _ _ _ (forG_ _ _) => apply holds_forG; intros ? _
  | |- holds _ _ _ (foldG _ _ _) => apply holds_foldG; intros ? ? _
  | |- holds _ _ _ (mret _) => apply holds_ret; exact I
  | |- holds _ _ _ (tell _) => apply holds_tell; [solve [event] | exact I]
  | |- holds _ _ _ (tellG _) => apply holds_tell; [solve [event] | exact I]
  | |- holds _ _ _ (observe _ _) => unfold observe
  | |- holds _ _ _ (exit _ _) => apply holds_exit; solve [ending]
  | |- holds _ _ _ (exitG _) => apply holds_exit; solve [ending]
  | |- holds _ _ _ _ => progress cbv zeta
  end.

Ltac forget H := clear H.

(** The end of a pass that got through: it clears the degraded status,
    and then either asks for another pass or updates the status. *)
Lemma holds_settled_ready {cluster : Cluster} (waits : list Z) :
  holds (λ e, Outcomes.isStatus e = false) (λ _ : Return, False)
    (Outcomes.settled waits)
    (tell ClearDegraded;;
     (if negb IsAvailable
      then exit {| Requeue := false; RequeueAfter := 30 |} None
      else mret tt);;
     tell (StatusUpdateCall TigeraStatusReady);;
     match StatusUpdate TigeraStatusReady with
     | Some err => exit Result_zero (Some err)
     | None => exit Result_zero None
     end).
Proof.
  destruct IsAvailable eqn:Havailable;
    [destruct (StatusUpdate TigeraStatusReady) eqn:Hupdate|]; cbn.
  - exists [], [ClearDegraded; StatusUpdateCall TigeraStatusReady].
    cbn. by rewrite Hupdate.
  - exists [], [ClearDegraded; StatusUpdateCall TigeraStatusReady].
    cbn. by rewrite Hupdate.
  - by exists [], [ClearDegraded].
Qed.

End TraceRules.

(** * Further properties of the API server controller *)

Module ApiServerSpec.
Import K8s Operator Controller Effects Outcomes TraceRules.

Section Proofs.
Context {cluster : Cluster}.

Ltac settles :=
  first [ reflexivity
        | split; [reflexivity|]; first [ by left | by right | repeat constructor ] ].

Lemma apiserver_holds_settled r :
  holds (λ e, isStatus e = false) (λ _, False) (settled [0]) (ApiServer.Reconcile r).
Proof.
  unfold ApiServer.Reconcile.
  repeat holds_step ltac:(reflexivity) ltac:(settles) ltac:(forget).
  apply holds_settled_ready.
Qed.

(** X11.  Every pass of the API server controller settles the status as
    its last act: its trace is a prefix without status events followed by
    one of the endings of [settled], which also fixes what the pass
    returns.  So an error is returned only with the status set degraded
    with the error's text, or from the final status update; the pass asks
    for another run, in thirty seconds, only when it has cleared the
    degraded status and the component is not yet available; and the
    status is never both set degraded and cleared in one pass. *)
Theorem apiserver_pass_settles r :
  ∃ pre ending,
    snd (run (ApiServer.Reconcile r)) = pre ++ ending ∧
    Forall (λ e, isStatus e = false) pre ∧
    settled [0] (fst (run (ApiServer.Reconcile r))) ending.
Proof. apply holds_pass, apiserver_holds_settled. Qed.

(** The loop that applies the components. *)
Lemma apply_loop (msg : string) (body : Component → M unit) (l : list Component) :
  (∀ c,
     body c =
       match CreateOrUpdateOrDelete c with
       | Some err =>
           (inr (Result_zero, Some err),
            [CreateOrUpdateOrDeleteCall c; SetDegraded msg (Error err)])
       | None => (inl tt, [CreateOrUpdateOrDeleteCall c])
       end) →
  (Forall (λ c, CreateOrUpdateOrDelete c = None) l ∧
   forM_ l body = (inl tt, CreateOrUpdateOrDeleteCall <$> l)) ∨
  (∃ r w, forM_ l body = (inr r, w) ∧ ClearDegraded ∉ w).
Proof.
  intros Hstep. induction l as [|c l IH].
  - left. by split.
  - change (forM_ (c :: l) body) with (body c ;; forM_ l body).
    rewrite Hstep. destruct (CreateOrUpdateOrDelete c) as [err|] eqn:Hc.
    + right. eexists _, _. split; [reflexivity|].
      intros Hin.
      repeat (apply elem_of_cons in Hin as [Heq | Hin]; [discriminate Heq|]).
      by apply elem_of_nil in Hin.
    + destruct IH as [[Hall Hloop] | (r & w & Hloop & Hw)].
      * left. split; [by constructor|]. unfold mbind, M_bind.
        by rewrite Hloop.
      * right. exists r, (CreateOrUpdateOrDeleteCall c :: w).
        unfold mbind, M_bind. rewrite Hloop. split; [done|].
        intros Hin.
        apply elem_of_cons in Hin as [Heq | Hin]; [discriminate Heq|]. done.
Qed.

Ltac not_cleared :=
  let Hin := fresh in
  intros Hin;
  repeat (apply elem_of_cons in Hin as [Hin | Hin]; [discriminate Hin|]);
  by apply elem_of_nil in Hin.

Lemma apiserver_holds_cleared r :
  holds (λ e, e ≠ ClearDegraded ∧ isApply e = false) (λ _, False)
    (λ _ ending, ClearDegraded ∉ ending ∨ appliedThenCleared ending)
    (ApiServer.Reconcile r).
Proof.
  unfold ApiServer.Reconcile.
  repeat holds_step ltac:(by split) ltac:(left; not_cleared) ltac:(forget).
  lazymatch goal with
  | |- context [forM_ ?l ?body] =>
      destruct (apply_loop "Error creating / updating resource" body l)
        as [[Hall Hloop] | (r' & w' & Hloop & Hw)];
      [ intros c; by destruct (CreateOrUpdateOrDelete c) | .. ];
      rewrite Hloop
  end.
  all: destruct (ApplyImageSet _ _) eqn:Himages;
    destruct IsAvailable eqn:Havailable;
    destruct (StatusUpdate TigeraStatusReady) eqn:Hupdate; cbn.
  all: eexists [], _; split; [reflexivity|]; split; [constructor|].
  all: first
    [ left; not_cleared
    | left; intros Hin;
      apply elem_of_cons in Hin as [Heq | Hin]; [discriminate Heq | done]
    | right; eexists _, _, _; split; [reflexivity|];
      split; [eassumption|]; split; [assumption|]; auto ].
Qed.

(** X12.  A pass of the API server controller clears the degraded status
    only as the next act after it has applied the image set to its
    components, which accepted them, and has created or updated every one
    of them without error, in the order of the list; nothing was applied
    and the status was not cleared before, and what follows is at most
    the update of the resource's status. *)
Theorem apiserver_clears_after_apply r :
  ClearDegraded ∈ snd (run (ApiServer.Reconcile r)) →
  ∃ pre ending,
    snd (run (ApiServer.Reconcile r)) = pre ++ ending ∧
    Forall (λ e, e ≠ ClearDegraded ∧ isApply e = false) pre ∧
    appliedThenCleared ending.
Proof.
  intros Hin.
  destruct (holds_pass _ _ _ (apiserver_holds_cleared r))
    as (pre & ending & Htrace & Hpre & [Hending | Hending]); [|by eauto].
  exfalso. rewrite Htrace in Hin. apply elem_of_app in Hin as [Hin | Hin]; [|done].
  rewrite Forall_forall in Hpre. by destruct (Hpre _ Hin).
Qed.

Ltac enterprise_data :=
  repeat split;
  try reflexivity;
  try (let H := fresh in intros H; exfalso; by apply H);
  try (intros [[? ?] [? ?]]; discriminate);
  try (intros [? ?]; discriminate);
  try (intros _; eauto);
  try (intros; subst; done).

Lemma apiserver_holds_configured r :
  holds (rendersConfigured r) (λ _, False) (λ _ ending, ending = [])
    (ApiServer.Reconcile r).
Proof.
  unfold ApiServer.Reconcile.
  do 15 holds_step ltac:(exact I) ltac:(reflexivity) ltac:(learn).
  (* the enterprise data *)
  apply (holds_bind _ _
    (λ x, let '(tunnel, amazon, mc, mcc, _) := x in
       (p ≠ TigeraSecureEnterprise →
          mc = None ∧ mcc = None ∧ amazon = None ∧ tunnel = None) ∧
       (p = TigeraSecureEnterprise →
          GetManagementCluster = inl mc ∧ GetManagementClusterConnection = inl mcc) ∧
       ¬ (is_Some mc ∧ is_Some mcc) ∧
       (is_Some tunnel → is_Some mc) ∧
       (is_Some amazon → ApiServer.amazonCRDExists r = true))).
  { destruct (decide (p = TigeraSecureEnterprise)) as [Hvariant|Hvariant].
    - repeat holds_step ltac:(exact I) ltac:(reflexivity) ltac:(learn).
      all: apply holds_ret; enterprise_data.
    - apply holds_ret. enterprise_data. }
  intros [[[[tunnel amazon] mc] mcc] passthrough] w _ Hdata.
  do 2 holds_step ltac:(exact I) ltac:(reflexivity) ltac:(learn).
  apply holds_tell_bind.
  { exists p. cbn. split; [assumption|]. split; [assumption|]. exact Hdata. }
  repeat holds_step ltac:(exact I) ltac:(reflexivity) ltac:(forget).
Qed.

(** X13.  What the API server controller hands to the renderer of the
    API server reflects what it read.  The installation and the pull
    secrets are the ones read.  Off the enterprise variant the
    configuration holds no management resource, no tunnel CA secret and no
    Amazon integration; on it, the two management resources are as read.
    It never holds both a [ManagementCluster] and a
    [ManagementClusterConnection]; it holds a tunnel CA secret only with a
    [ManagementCluster], and an Amazon integration only where the CRD
    exists. *)
Theorem apiserver_renders_as_read r c :
  Render (APIServerComponent c) ∈ snd (run (ApiServer.Reconcile r)) →
  apiServerConfigured r c.
Proof.
  intros Hin.
  destruct (holds_pass _ _ _ (apiserver_holds_configured r))
    as (pre & ending & Htrace & Hpre & ->).
  rewrite Htrace, app_nil_r in Hin. rewrite Forall_forall in Hpre.
  apply (Hpre _ Hin).
Qed.

Lemma apiserver_holds_community r :
  (∀ variant network,
     GetInstallation = inl (variant, network) → variant ≠ TigeraSecureEnterprise) →
  holds communityEvent (λ _, False) (λ _ ending, ending = [])
    (ApiServer.Reconcile r).
Proof.
  intros Hcommunity. unfold ApiServer.Reconcile.
  do 15 holds_step ltac:(exact I) ltac:(reflexivity) ltac:(learn).
  assert (Hvariant : p ≠ TigeraSecureEnterprise) by eauto.
  rewrite !(decide_False (P := p = TigeraSecureEnterprise)) by done.
  repeat holds_step ltac:(first [exact I | by eexists _, _]) ltac:(reflexivity)
    ltac:(learn).
Qed.

(** X14.  A pass of the API server controller over an installation that
    is not of the enterprise variant keeps off everything enterprise: it
    reads no [ManagementCluster], [ManagementClusterConnection],
    [AmazonCloudIntegration] or [Authentication], renders neither a
    passthrough for a tunnel secret nor the packet capture API, and
    applies the image set to two components only, the API server and its
    certificate management. *)
Theorem apiserver_community_pass r :
  (∀ variant network,
     GetInstallation = inl (variant, network) → variant ≠ TigeraSecureEnterprise) →
  Forall communityEvent (snd (run (ApiServer.Reconcile r))).
Proof.
  intros Hcommunity.
  destruct (holds_pass _ _ _ (apiserver_holds_community r Hcommunity))
    as (pre & ending & Htrace & Hpre & ->).
  by rewrite Htrace, app_nil_r.
Qed.

End Proofs.

(** *** On concrete clusters *)

Lemma apiserver_clears_after_apply_witness :
  ∃ pre ending,
    snd (run (ApiServer.Reconcile (cluster:=MoreExamples.standalone)
                Examples.apiServerReconciler)) = pre ++ ending ∧
    Forall (λ e, e ≠ ClearDegraded ∧ isApply e = false) pre ∧
    appliedThenCleared (cluster:=MoreExamples.standalone) ending.
Proof.
  apply (apiserver_clears_after_apply (cluster:=MoreExamples.standalone)
           Examples.apiServerReconciler).
  vm_compute. repeat constructor.
Defined.

Lemma apiserver_renders_as_read_witness :
  ∃ c,
    Render (APIServerComponent c)
      ∈ snd (run (ApiServer.Reconcile (cluster:=MoreExamples.management)
                    Examples.apiServerReconciler)) ∧
    apiServerConfigured (cluster:=MoreExamples.management)
      Examples.apiServerReconciler c.
Proof.
  match eval vm_compute in
    (snd (run (ApiServer.Reconcile (cluster:=MoreExamples.management)
                 Examples.apiServerReconciler)))
  with
  | context [Render (APIServerComponent ?c)] => exists c
  end.
  split; [vm_compute; repeat constructor|].
  apply (apiserver_renders_as_read (cluster:=MoreExamples.management)
           Examples.apiServerReconciler).
  vm_compute. repeat constructor.
Defined.

Lemma apiserver_community_pass_witness :
  Forall communityEvent
    (snd (run (ApiServer.Reconcile (cluster:=MoreExamples.community)
                 Examples.apiServerReconciler))).
Proof.
  apply (apiserver_community_pass (cluster:=MoreExamples.community)).
  intros variant network Heq. vm_compute in Heq. simplify_eq. discriminate.
Defined.

End ApiServerSpec.

(** * Further properties of the compliance controller *)

Module ComplianceSpec.
Import K8s Operator Controller Effects Outcomes TraceRules.

Section Proofs.
Context {cluster : Cluster}.

Ltac settles :=
  first [ reflexivity
        | split; [reflexivity|]; first [ by left | by right | repeat constructor ] ].

Lemma compliance_holds_settled r :
  holds (λ e, isStatus e = false) (λ _, False) (settled [0; 10])
    (ComplianceController.Reconcile r).
Proof.
  unfold ComplianceController.Reconcile.
  repeat holds_step ltac:(reflexivity) ltac:(settles) ltac:(forget).
  apply holds_settled_ready.
Qed.

Ltac not_license :=
  let Heq := fresh in intros Heq; cbn in Heq; discriminate Heq.

Lemma compliance_holds_license r :
  holds (λ e, e ≠ Read RLicenseKey false) (λ _, False)
    (λ out ending,
       ending = [] ∨ out = ({| Requeue := false; RequeueAfter := 10 |}, None))
    (ComplianceController.Reconcile r).
Proof.
  unfold ComplianceController.Reconcile.
  repeat holds_step ltac:(not_license) ltac:(first [by left | by right])
    ltac:(forget).
  destruct FetchLicenseKey as [license|err] eqn:Hlicense.
  - repeat holds_step ltac:(not_license) ltac:(first [by left | by right])
      ltac:(forget).
  - destruct (IsNotFound err); cbn; eexists [], _; (split; [reflexivity|]);
      (split; [constructor|]); by right.
Qed.

(** A pass that finds the API server and the license API ready reads the
    license. *)
Lemma compliance_license_unread r instance err :
  ClientGetCompliance = inl instance →
  IsAPIServerReady = true →
  ComplianceController.licenseAPIReady r = true →
  FetchLicenseKey = inr err →
  Read RLicenseKey false ∈ snd (run (ComplianceController.Reconcile r)).
Proof.
  intros Hinstance Hready Hflag Hlicense.
  unfold ComplianceController.Reconcile, ComplianceController.GetCompliance.
  rewrite Hinstance. cbn. rewrite Hready. cbn. rewrite Hflag. cbn.
  rewrite Hlicense. cbn. destruct (IsNotFound err); cbn; repeat constructor.
Qed.

(** X15.  Every pass of the compliance controller settles the status as
    its last act: its trace is a prefix without status events followed by
    one of the endings of [settled], which also fixes what the pass
    returns.  Set degraded without an error, the pass asks for no delay
    or for ten seconds; an error is returned only with the status set
    degraded with the error's text, or from the final status update; and
    thirty seconds are asked for only after the degraded status is
    cleared, the component not yet available.  A failed read of the
    license is never returned as an error: the pass returns no error and
    asks for another pass in ten seconds. *)
Theorem compliance_pass_settles r :
  (∃ pre ending,
     snd (run (ComplianceController.Reconcile r)) = pre ++ ending ∧
     Forall (λ e, isStatus e = false) pre ∧
     settled [0; 10] (fst (run (ComplianceController.Reconcile r))) ending) ∧
  (Read RLicenseKey false ∈ snd (run (ComplianceController.Reconcile r)) →
   fst (run (ComplianceController.Reconcile r))
   = ({| Requeue := false; RequeueAfter := 10 |}, None)).
Proof.
  split; [apply holds_pass, compliance_holds_settled|].
  intros Hin.
  destruct (holds_pass _ _ _ (compliance_holds_license r))
    as (pre & ending & Htrace & Hpre & [-> | Hout]); [|done].
  exfalso. rewrite Htrace, app_nil_r in Hin.
  rewrite Forall_forall in Hpre. by apply (Hpre _ Hin).
Qed.

Ltac not_cleared :=
  let Hin := fresh in
  intros Hin;
  repeat (apply elem_of_cons in Hin as [Hin | Hin]; [discriminate Hin|]);
  by apply elem_of_nil in Hin.

Lemma compliance_holds_cleared r :
  holds (λ e, e ≠ ClearDegraded ∧ isApply e = false) (λ _, False)
    (λ _ ending, ClearDegraded ∉ ending ∨ complianceAppliedThenCleared ending)
    (ComplianceController.Reconcile r).
Proof.
  unfold ComplianceController.Reconcile.
  do 7 holds_step ltac:(by split) ltac:(left; not_cleared) ltac:(forget).
  holds_step ltac:(by split) ltac:(left; not_cleared) ltac:(forget).
  holds_step ltac:(by split) ltac:(left; not_cleared) ltac:(learn).
  repeat holds_step ltac:(by split) ltac:(left; not_cleared) ltac:(forget).
  lazymatch goal with
  | |- context [forM_ [?comp; ?certificates] _] =>
      destruct (ApplyImageSet p [comp]) eqn:Himages;
      destruct (CreateOrUpdateOrDelete comp) eqn:Hcomp;
      destruct (CreateOrUpdateOrDelete certificates) eqn:Hcertificates;
      destruct (IsFeatureActive a2 ComplianceFeature) eqn:Hfeature;
      destruct IsAvailable eqn:Havailable;
      destruct (StatusUpdate TigeraStatusReady) eqn:Hupdate
  end.
  all: cbn; rewrite ?Hcomp, ?Hcertificates; cbn.
  all: eexists [], _; split; [reflexivity|]; split; [constructor|].
  all: first
    [ left; not_cleared
    | right; eexists p, a2, _, _, _; split; [reflexivity|];
      repeat (split; [eassumption|]); auto ].
Qed.

Ltac not_featureless :=
  let Hin := fresh in
  intros Hin;
  repeat (apply elem_of_cons in Hin as [Hin | Hin];
          [cbn in Hin; discriminate Hin|]);
  by apply elem_of_nil in Hin.

Lemma compliance_holds_featureless r :
  holds (λ e, e ≠ featureNotActive ∧ isApply e = false) (λ _, False)
    (λ out ending,
       featureNotActive ∉ ending ∨ complianceAppliedFeatureless out ending)
    (ComplianceController.Reconcile r).
Proof.
  unfold ComplianceController.Reconcile.
  do 7 holds_step ltac:(by split) ltac:(left; not_featureless) ltac:(forget).
  holds_step ltac:(by split) ltac:(left; not_featureless) ltac:(forget).
  holds_step ltac:(by split) ltac:(left; not_featureless) ltac:(learn).
  repeat holds_step ltac:(by split) ltac:(left; not_featureless) ltac:(forget).
  lazymatch goal with
  | |- context [forM_ [?comp; ?certificates] _] =>
      destruct (ApplyImageSet p [comp]) eqn:Himages;
      destruct (CreateOrUpdateOrDelete comp) eqn:Hcomp;
      destruct (CreateOrUpdateOrDelete certificates) eqn:Hcertificates;
      destruct (IsFeatureActive a2 ComplianceFeature) eqn:Hfeature;
      destruct IsAvailable eqn:Havailable;
      destruct (StatusUpdate TigeraStatusReady) eqn:Hupdate
  end.
  all: cbn; rewrite ?Hcomp, ?Hcertificates; cbn.
  all: eexists [], _; split; [reflexivity|]; split; [constructor|].
  all: first
    [ left; not_featureless
    | right; eexists p, a2, _, _; split; [reflexivity|];
      repeat (split; [eassumption|]); reflexivity ].
Qed.

(** X16.  A pass of the compliance controller clears the degraded status
    only directly after these acts: it applied the image set to the
    compliance component alone, which accepted it, rendered the
    certificate management, and created or updated both without error;
    and only when the license it read has the compliance feature.
    Before that nothing was applied or cleared, and afterwards at most
    the status update follows.  A pass that read a license without the
    feature never clears the degraded status and never updates the
    status of the resource.  And where such a pass reports that the
    feature is not active, it has applied its components first, as with
    the feature, and it returns no error. *)
Theorem compliance_clears_after_apply r :
  (ClearDegraded ∈ snd (run (ComplianceController.Reconcile r)) →
   ∃ pre ending,
     snd (run (ComplianceController.Reconcile r)) = pre ++ ending ∧
     Forall (λ e, e ≠ ClearDegraded ∧ isApply e = false) pre ∧
     complianceAppliedThenCleared ending) ∧
  (∀ license,
     FetchLicenseKey = inl license →
     IsFeatureActive license ComplianceFeature = false →
     (ClearDegraded ∉ snd (run (ComplianceController.Reconcile r))) ∧
     (∀ state,
        StatusUpdateCall state ∉ snd (run (ComplianceController.Reconcile r)))) ∧
  (featureNotActive ∈ snd (run (ComplianceController.Reconcile r)) →
   ∃ pre ending,
     snd (run (ComplianceController.Reconcile r)) = pre ++ ending ∧
     Forall (λ e, e ≠ featureNotActive ∧ isApply e = false) pre ∧
     complianceAppliedFeatureless (fst (run (ComplianceController.Reconcile r)))
       ending).
Proof.
  assert (Hcleared :
    ClearDegraded ∈ snd (run (ComplianceController.Reconcile r)) →
    ∃ pre ending,
      snd (run (ComplianceController.Reconcile r)) = pre ++ ending ∧
      Forall (λ e, e ≠ ClearDegraded ∧ isApply e = false) pre ∧
      complianceAppliedThenCleared ending).
  { intros Hin.
    destruct (holds_pass _ _ _ (compliance_holds_cleared r))
      as (pre & ending & Htrace & Hpre & [Hending | Hending]); [|by eauto].
    exfalso. rewrite Htrace in Hin.
    apply elem_of_app in Hin as [Hin | Hin]; [|done].
    rewrite Forall_forall in Hpre. by destruct (Hpre _ Hin). }
  assert (Hnever : ∀ license,
    FetchLicenseKey = inl license →
    IsFeatureActive license ComplianceFeature = false →
    ClearDegraded ∉ snd (run (ComplianceController.Reconcile r))).
  { intros license Hlicense Hfeature Hin.
    destruct (Hcleared Hin)
      as (pre & ending & _ & _ & variant & license' & comp & certificates
            & tail & _ & _ & _ & _ & Hl & Hf & _).
    congruence. }
  split; [done|]. split.
  - intros license Hlicense Hfeature. split; [by eapply Hnever|].
    intros state Hin.
    destruct (holds_pass _ _ _ (compliance_holds_settled r))
      as (pre & ending & Htrace & Hpre & Hending).
    rewrite Htrace in Hin. apply elem_of_app in Hin as [Hin | Hin].
    { rewrite Forall_forall in Hpre. by specialize (Hpre _ Hin). }
    apply (Hnever license Hlicense Hfeature). rewrite Htrace.
    apply elem_of_app. right.
    destruct ending as [|[] [|[] [|]]]; simpl in Hending; try done;
      try (by apply list_elem_of_singleton in Hin);
      by left.
  - intros Hin.
    destruct (holds_pass _ _ _ (compliance_holds_featureless r))
      as (pre & ending & Htrace & Hpre & [Hending | Hending]); [|by eauto].
    exfalso. rewrite Htrace in Hin.
    apply elem_of_app in Hin as [Hin | Hin]; [|done].
    rewrite Forall_forall in Hpre. by destruct (Hpre _ Hin).
Qed.

Ltac configured_part :=
  first
    [ by apply negb_false_iff
    | eassumption
    | reflexivity
    | let cr := fresh "cr" in
      let Hcr := fresh "Hcr" in
      intros cr Hcr;
      match goal with
      | H : GetAuthentication = _ |- _ => rewrite H in Hcr
      end;
      simplify_eq/=; by apply dec_stable
    | intros [[? ?] [? ?]]; discriminate
    | intros [? ?]; discriminate
    | intros; discriminate
    | intros; eauto ].

Lemma compliance_holds_configured r :
  holds (rendersComplianceConfigured r) (λ _, False) (λ _ ending, ending = [])
    (ComplianceController.Reconcile r).
Proof.
  unfold ComplianceController.Reconcile.
  repeat holds_step ltac:(exact I) ltac:(reflexivity) ltac:(learn).
  all: apply holds_tell_bind;
    [ eexists _, _; cbn; repeat split; configured_part
    | repeat holds_step ltac:(exact I) ltac:(reflexivity) ltac:(forget) ].
Qed.

(** X17.  What the compliance controller hands to the renderer reflects
    what it read, see [complianceConfigured]: it renders only with the API
    server, the license API and an existing [Authentication] ready; the
    installation, the pull secrets, the Elasticsearch cluster
    configuration and secrets and the two management resources are as
    read, never both of the latter; the license gate is closed exactly
    when the license lacks the compliance feature; and on a managed
    cluster the compliance server gets no certificate and its
    Elasticsearch user secret is not asked for. *)
Theorem compliance_renders_as_read r c :
  Render (ComplianceComponent c) ∈ snd (run (ComplianceController.Reconcile r)) →
  complianceConfigured r c.
Proof.
  intros Hin.
  destruct (holds_pass _ _ _ (compliance_holds_configured r))
    as (pre & ending & Htrace & Hpre & ->).
  rewrite Htrace, app_nil_r in Hin. rewrite Forall_forall in Hpre.
  apply (Hpre _ Hin).
Qed.

Ltac before_license :=
  first [ by repeat split
        | let Heq := fresh in repeat split; try done; intros Heq; discriminate Heq ].

Lemma compliance_holds_unready r :
  ComplianceController.licenseAPIReady r = false →
  holds (λ e, (∀ found, e ≠ Read RLicenseKey found) ∧
              isRender e = false ∧ isApply e = false)
    (λ _, False) (λ _ ending, ending = [])
    (ComplianceController.Reconcile r).
Proof.
  intros Hflag. unfold ComplianceController.Reconcile. rewrite Hflag.
  cbn [negb].
  repeat holds_step ltac:(before_license) ltac:(reflexivity) ltac:(learn).
Qed.

(** X28.  As long as the ready flag of the license API is not set, which
    is how [Add] creates the reconciler, a pass of the compliance
    controller reads no license, renders nothing and applies nothing;
    and where it finds the [Compliance] resource and the API server
    ready, it sets the status degraded, waiting for the license API, and
    asks for another pass in ten seconds, without an error. *)
Theorem compliance_waits_for_license_api r :
  ComplianceController.licenseAPIReady r = false →
  Forall (λ e, (∀ found, e ≠ Read RLicenseKey found) ∧
               isRender e = false ∧ isApply e = false)
    (snd (run (ComplianceController.Reconcile r))) ∧
  (∀ instance,
     ClientGetCompliance = inl instance →
     IsAPIServerReady = true →
     run (ComplianceController.Reconcile r)
     = (({| Requeue := false; RequeueAfter := 10 |}, None),
        [ Read RCompliance true; OnCRFound; Read RAPIServerReady true;
          SetDegraded "Waiting for LicenseKeyAPI to be ready" "" ])).
Proof.
  intros Hflag. split.
  - destruct (holds_pass _ _ _ (compliance_holds_unready r Hflag))
      as (pre & ending & Htrace & Hpre & ->).
    by rewrite Htrace, app_nil_r.
  - intros instance Hinstance Hready.
    unfold ComplianceController.Reconcile, ComplianceController.GetCompliance.
    rewrite Hinstance. cbn. rewrite Hready. cbn. rewrite Hflag. reflexivity.
Qed.

End Proofs.

(** *** On concrete clusters *)

Lemma compliance_pass_settles_witness :
  Read RLicenseKey false
    ∈ snd (run (ComplianceController.Reconcile (cluster:=MoreExamples.unlicensed)
                  Examples.complianceReconciler)) ∧
  fst (run (ComplianceController.Reconcile (cluster:=MoreExamples.unlicensed)
              Examples.complianceReconciler))
  = ({| Requeue := false; RequeueAfter := 10 |}, None).
Proof.
  assert (Hin : Read RLicenseKey false
    ∈ snd (run (ComplianceController.Reconcile (cluster:=MoreExamples.unlicensed)
                  Examples.complianceReconciler))).
  { vm_compute. repeat constructor. }
  split; [exact Hin|].
  exact (proj2 (compliance_pass_settles (cluster:=MoreExamples.unlicensed)
                  Examples.complianceReconciler) Hin).
Defined.

Lemma compliance_clears_after_apply_witness :
  (∃ pre ending,
     snd (run (ComplianceController.Reconcile (cluster:=MoreExamples.standalone)
                 Examples.complianceReconciler)) = pre ++ ending ∧
     Forall (λ e, e ≠ ClearDegraded ∧ isApply e = false) pre ∧
     complianceAppliedThenCleared (cluster:=MoreExamples.standalone) ending) ∧
  ((ClearDegraded
      ∉ snd (run (ComplianceController.Reconcile (cluster:=MoreExamples.featureless)
                    Examples.complianceReconciler))) ∧
   (∀ state,
      StatusUpdateCall state
        ∉ snd (run (ComplianceController.Reconcile (cluster:=MoreExamples.featureless)
                      Examples.complianceReconciler)))) ∧
  (∃ pre ending,
     snd (run (ComplianceController.Reconcile (cluster:=MoreExamples.featureless)
                 Examples.complianceReconciler)) = pre ++ ending ∧
     Forall (λ e, e ≠ featureNotActive ∧ isApply e = false) pre ∧
     complianceAppliedFeatureless (cluster:=MoreExamples.featureless)
       (fst (run (ComplianceController.Reconcile (cluster:=MoreExamples.featureless)
                    Examples.complianceReconciler)))
       ending).
Proof.
  split; [|split].
  - apply (proj1 (compliance_clears_after_apply (cluster:=MoreExamples.standalone)
                    Examples.complianceReconciler)).
    vm_compute. repeat constructor.
  - apply (proj1 (proj2 (compliance_clears_after_apply
                           (cluster:=MoreExamples.featureless)
                           Examples.complianceReconciler))
             {| LicenseKey_Features := ["export-logs"] |});
      reflexivity.
  - apply (proj2 (proj2 (compliance_clears_after_apply
                           (cluster:=MoreExamples.featureless)
                           Examples.complianceReconciler))).
    vm_compute. repeat constructor.
Defined.

Lemma compliance_waits_for_license_api_witness :
  run (ComplianceController.Reconcile (cluster:=MoreExamples.standalone)
         (SetupOutcomes.complianceReconciler MoreExamples.options))
  = (({| Requeue := false; RequeueAfter := 10 |}, None),
     [ Read RCompliance true; OnCRFound; Read RAPIServerReady true;
       SetDegraded "Waiting for LicenseKeyAPI to be ready" "" ]).
Proof.
  eapply (proj2 (compliance_waits_for_license_api (cluster:=MoreExamples.standalone)
                   (SetupOutcomes.complianceReconciler MoreExamples.options)
                   eq_refl));
    reflexivity.
Defined.

Lemma compliance_renders_as_read_witness :
  ∃ c,
    Render (ComplianceComponent c)
      ∈ snd (run (ComplianceController.Reconcile (cluster:=MoreExamples.management)
                    Examples.complianceReconciler)) ∧
    complianceConfigured (cluster:=MoreExamples.management)
      Examples.complianceReconciler c.
Proof.
  match eval vm_compute in
    (snd (run (ComplianceController.Reconcile (cluster:=MoreExamples.management)
                 Examples.complianceReconciler)))
  with
  | context [Render (ComplianceComponent ?c)] => exists c
  end.
  split; [vm_compute; repeat constructor|].
  apply (compliance_renders_as_read (cluster:=MoreExamples.management)
           Examples.complianceReconciler).
  vm_compute. repeat constructor.
Defined.

End ComplianceSpec.

(** * Properties of the connection controller *)

Module ClusterConnectionSpec.
Import K8s Operator Controller Effects ClusterConnection ConnectionOutcomes TraceRules.

Section Proofs.
Context {cluster : Cluster} {connection : Connection}.

Ltac settles :=
  first [ reflexivity
        | split; [reflexivity|]; first [ by left | by right | repeat constructor ]
        | by eexists ].

Lemma connection_holds_settled r :
  holds (λ e, isConnStatus e = false) (λ _, False) connSettled (Reconcile r).
Proof.
  unfold Reconcile.
  repeat holds_step ltac:(reflexivity) ltac:(settles) ltac:(learn).
Qed.

(** X18.  Every pass of the connection controller ends in one of the
    ways of [connSettled], and settles the status at most once, as its
    last act.  A failed read of the installation is returned with the
    status left alone; without a [ManagementClusterConnection] the pass
    stands down; set degraded, it returns the error whose text it
    reported, or no error with no delay or five seconds; cleared, it
    returns no error. *)
Theorem connection_pass_settles r :
  ∃ pre ending,
    snd (runG (Reconcile r)) = pre ++ ending ∧
    Forall (λ e, isConnStatus e = false) pre ∧
    connSettled (fst (runG (Reconcile r))) ending.
Proof. apply holds_run, connection_holds_settled. Qed.

Ltac configured_part :=
  first
    [ eassumption
    | reflexivity ].

Lemma connection_holds_configured r :
  holds (rendersGuardianConfigured r) (λ _, False) (λ _ ending, ending = [])
    (Reconcile r).
Proof.
  unfold Reconcile.
  repeat holds_step ltac:(exact I) ltac:(reflexivity) ltac:(learn).
  all: apply holds_tell_bind;
    [ eexists _, _, _, _, _; cbn; repeat split; configured_part
    | repeat holds_step ltac:(exact I) ltac:(reflexivity) ltac:(forget) ].
Qed.

(** X19.  What the connection controller hands to the renderer of the
    guardian reflects what it read, see [guardianConfigured]: the cluster
    has a [ManagementClusterConnection], whose address is the URL, and no
    [ManagementCluster]; installation, pull secrets and tunnel secret are
    as read; and the trusted bundle is the certificate manager's with the
    certificates of packet capture and of Prometheus added, in this
    order. *)
Theorem guardian_renders_as_read r c :
  RenderGuardian c ∈ snd (runG (Reconcile r)) → guardianConfigured r c.
Proof.
  intros Hin.
  destruct (holds_run _ _ _ (connection_holds_configured r))
    as (pre & ending & Htrace & Hpre & ->).
  rewrite Htrace, app_nil_r in Hin. rewrite Forall_forall in Hpre.
  apply (Hpre _ Hin).
Qed.

Ltac not_there :=
  let Hin := fresh in
  intros Hin;
  repeat (apply elem_of_cons in Hin as [Hin | Hin]; [discriminate Hin|]);
  by apply elem_of_nil in Hin.

Lemma connection_holds_cleared r :
  holds (λ e, e ≠ Act ClearDegraded ∧ isGuardianStep e = false) (λ _, False)
    (λ out ending, Act ClearDegraded ∉ ending ∨ guardianAppliedThenCleared out ending)
    (Reconcile r).
Proof.
  unfold Reconcile.
  repeat holds_step ltac:(by split) ltac:(left; not_there) ltac:(forget).
  lazymatch goal with
  | |- context [ApplyImageSetGuardian ?variant ?c] =>
      destruct (ApplyImageSetGuardian variant c) eqn:Himages;
      destruct (CreateOrUpdateOrDeleteGuardian c) eqn:Happly
  end.
  all: cbn; rewrite ?Himages, ?Happly; cbn.
  all: eexists [], _; split; [reflexivity|]; split; [constructor|].
  all: first [ left; not_there | right; by eexists _, _ ].
Qed.

(** X20.  A pass of the connection controller clears the degraded status
    only as the last of these four acts, with nothing rendered, applied
    or cleared before: it renders the guardian, applies the image set to
    it, which accepts it, creates or updates it without error, and
    clears the status; it then returns no error and asks for no other
    pass. *)
Theorem connection_clears_after_apply r :
  Act ClearDegraded ∈ snd (runG (Reconcile r)) →
  ∃ pre ending,
    snd (runG (Reconcile r)) = pre ++ ending ∧
    Forall (λ e, e ≠ Act ClearDegraded ∧ isGuardianStep e = false) pre ∧
    guardianAppliedThenCleared (fst (runG (Reconcile r))) ending.
Proof.
  intros Hin.
  destruct (holds_run _ _ _ (connection_holds_cleared r))
    as (pre & ending & Htrace & Hpre & [Hending | Hending]); [|by eauto].
  exfalso. rewrite Htrace in Hin. apply elem_of_app in Hin as [Hin | Hin]; [|done].
  rewrite Forall_forall in Hpre. by destruct (Hpre _ Hin).
Qed.

Ltac not_secret :=
  let Heq := fresh in intros Heq; cbn in Heq; discriminate Heq.

Lemma connection_holds_secret r :
  holds (λ e, e ≠ ReadSecret GuardianSecretName OperatorNamespace false)
    (λ _, False)
    (λ out ending, ending = [] ∨ guardianSecretUnread out ending)
    (Reconcile r).
Proof.
  unfold Reconcile.
  repeat holds_step ltac:(not_secret) ltac:(by left) ltac:(forget).
  destruct (ClientGetSecret GuardianSecretName OperatorNamespace)
    as [secret|err] eqn:Hsecret.
  - repeat holds_step ltac:(not_secret) ltac:(by left) ltac:(forget).
  - destruct (IsNotFound err) eqn:Hfound; cbn; rewrite ?Hfound; cbn;
      eexists [], _; (split; [reflexivity|]); (split; [constructor|]);
      right; exists err; by rewrite ?Hfound.
Qed.

(** X21.  A pass of the connection controller that fails to read the
    guardian secret ends there: it sets the status degraded with the
    error of the read, and it returns that error where the secret is not
    found, and no error, with no delay, for every other failure. *)
Theorem guardian_secret_unread r :
  ReadSecret GuardianSecretName OperatorNamespace false ∈ snd (runG (Reconcile r)) →
  ∃ pre ending,
    snd (runG (Reconcile r)) = pre ++ ending ∧
    Forall (λ e, e ≠ ReadSecret GuardianSecretName OperatorNamespace false) pre ∧
    guardianSecretUnread (fst (runG (Reconcile r))) ending.
Proof.
  intros Hin.
  destruct (holds_run _ _ _ (connection_holds_secret r))
    as (pre & ending & Htrace & Hpre & [-> | Hending]); [|by eauto].
  exfalso. rewrite Htrace, app_nil_r in Hin.
  rewrite Forall_forall in Hpre. by apply (Hpre _ Hin).
Qed.

(** X22.  With a [ManagementCluster] and a [ManagementClusterConnection]
    both present, a pass of the connection controller that has read the
    installation reads the two and stops: it sets the status degraded
    with the error that says so, returns that error, and renders and
    applies nothing. *)
Theorem connection_both_rejected r variant instl mc mcc :
  GetInstallation = inl (variant, instl) →
  GetManagementCluster = inl (Some mc) →
  GetManagementClusterConnection = inl (Some mcc) →
  connRejected (runG (Reconcile r)) ∧
  snd (runG (Reconcile r))
  = [ Act (Read RInstallation true); Act (Read RManagementCluster true);
      Act (Read RManagementClusterConnection true);
      Act (SetDegraded (Error bothError) "") ].
Proof.
  intros Hinstallation Hmc Hmcc. unfold connRejected, Reconcile.
  rewrite Hinstallation. cbn. rewrite Hmc. cbn. rewrite Hmcc. cbn.
  split; [|reflexivity]. split; [reflexivity|]. split; [reflexivity|].
  repeat constructor.
Qed.

End Proofs.

(** *** On concrete clusters *)

Lemma guardian_renders_as_read_witness :
  ∃ c,
    RenderGuardian c
      ∈ snd (runG (Reconcile (cluster:=MoreExamples.managed)
                     (connection:=MoreExamples.connection)
                     MoreExamples.connectionReconciler)) ∧
    guardianConfigured (cluster:=MoreExamples.managed)
      (connection:=MoreExamples.connection) MoreExamples.connectionReconciler c.
Proof.
  match eval vm_compute in
    (snd (runG (Reconcile (cluster:=MoreExamples.managed)
                  (connection:=MoreExamples.connection)
                  MoreExamples.connectionReconciler)))
  with
  | context [RenderGuardian ?c] => exists c
  end.
  split; [vm_compute; repeat constructor|].
  apply (guardian_renders_as_read (cluster:=MoreExamples.managed)
           (connection:=MoreExamples.connection)
           MoreExamples.connectionReconciler).
  vm_compute. repeat constructor.
Defined.

Lemma connection_clears_after_apply_witness :
  ∃ pre ending,
    snd (runG (Reconcile (cluster:=MoreExamples.managed)
                 (connection:=MoreExamples.connection)
                 MoreExamples.connectionReconciler)) = pre ++ ending ∧
    Forall (λ e, e ≠ Act ClearDegraded ∧ isGuardianStep e = false) pre ∧
    guardianAppliedThenCleared (cluster:=MoreExamples.managed)
      (connection:=MoreExamples.connection)
      (fst (runG (Reconcile (cluster:=MoreExamples.managed)
                    (connection:=MoreExamples.connection)
                    MoreExamples.connectionReconciler))) ending.
Proof.
  apply (connection_clears_after_apply (cluster:=MoreExamples.managed)
           (connection:=MoreExamples.connection)
           MoreExamples.connectionReconciler).
  vm_compute. repeat constructor.
Defined.

Lemma guardian_secret_unread_witness :
  ∃ pre ending,
    snd (runG (Reconcile (cluster:=MoreExamples.managed)
                 (connection:=MoreExamples.connectionUnread)
                 MoreExamples.connectionReconciler)) = pre ++ ending ∧
    Forall (λ e, e ≠ ReadSecret
                   (GuardianSecretName (cluster:=MoreExamples.managed)
                      (Connection:=MoreExamples.connectionUnread))
                   (OperatorNamespace (Cluster:=MoreExamples.managed)) false) pre ∧
    guardianSecretUnread (cluster:=MoreExamples.managed)
      (connection:=MoreExamples.connectionUnread)
      (fst (runG (Reconcile (cluster:=MoreExamples.managed)
                    (connection:=MoreExamples.connectionUnread)
                    MoreExamples.connectionReconciler))) ending.
Proof.
  apply (guardian_secret_unread (cluster:=MoreExamples.managed)
           (connection:=MoreExamples.connectionUnread)
           MoreExamples.connectionReconciler).
  vm_compute. repeat constructor.
Defined.

Lemma connection_both_rejected_witness :
  connRejected
    (runG (Reconcile (cluster:=Examples.cluster)
             (connection:=MoreExamples.connection)
             MoreExamples.connectionReconciler)) ∧
  snd (runG (Reconcile (cluster:=Examples.cluster)
               (connection:=MoreExamples.connection)
               MoreExamples.connectionReconciler))
  = [ Act (Read RInstallation true); Act (Read RManagementCluster true);
      Act (Read RManagementClusterConnection true);
      Act (SetDegraded (Error bothError) "") ].
Proof.
  by eapply (connection_both_rejected (cluster:=Examples.cluster)
               (connection:=MoreExamples.connection)
               MoreExamples.connectionReconciler).
Defined.

End ClusterConnectionSpec.

(** * Properties of the set-up of the controllers *)

Module SetupSpec.
Import K8s Operator Controller Effects ClusterConnection Setup SetupOutcomes TraceRules.

#[local] Arguments String.append : simpl never.

(** What the set-up reads next: the scrutinee at the head. *)
Ltac next_read t :=
  lazymatch t with
  | match ?x with _ => _ end => next_read x
  | runG ?x => next_read x
  | snd ?x => next_read x
  | fst ?x => next_read x
  | mbind _ ?x => next_read x
  | _ => constr:(t)
  end.

(** The text before the cause in the error that a failed step returns. *)
Ltac failure_text :=
  lazymatch goal with
  | |- ∃ err text, Some ?e = Some err ∧ _ =>
      exists e;
      lazymatch e with
      | Errorf (?t +:+ _) => exists t; split; reflexivity
      | Errorw ?t _ => exists t; split; [reflexivity | apply Errorw_Error]
      | _ => exists EmptyString; split; reflexivity
      end
  end.

(** Runs a set-up against its plan, by cases on the answer to each step
    in turn. *)
Ltac run_against_plan :=
  cbn;
  repeat
    (lazymatch goal with
     | |- snd ?out = _ ∧ _ => let y := next_read out in destruct y eqn:?
     end;
     cbn;
     try (split; [reflexivity|]; first [reflexivity | failure_text])).

Section Proofs.
Context {cluster : Cluster} {connection : Connection} {manager : Manager}.

Lemma upToFailure_prefix plan : fst (upToFailure plan) `prefix_of` plan.
Proof.
  induction plan as [|e plan IH]; simpl; [done|].
  destruct (answer e); simpl.
  - by apply prefix_cons, prefix_nil.
  - destruct (upToFailure plan) as [taken failure]. simpl in *.
    by apply prefix_cons.
Qed.

Lemma upToFailure_complete plan :
  snd (upToFailure plan) = None →
  fst (upToFailure plan) = plan ∧ Forall (λ e, answer e = None) plan.
Proof.
  induction plan as [|e plan IH]; simpl; [done|].
  destruct (answer e) eqn:He; simpl; [done|].
  destruct (upToFailure plan) as [taken failure]. simpl in *.
  intros Hnone. destruct (IH Hnone) as [-> Hall]. split; [done|].
  by constructor.
Qed.

Lemma follows_taken plan out e :
  follows plan out → e ∈ snd out → e ∈ plan.
Proof.
  intros [Htrace _] He. rewrite Htrace in He.
  destruct (upToFailure_prefix plan) as [rest Hplan].
  rewrite Hplan. apply elem_of_app. by left.
Qed.

Lemma follows_complete plan out :
  follows plan out → fst out = None →
  snd out = plan ∧ Forall (λ e, answer e = None) plan.
Proof.
  intros [Htrace Hout] Hnone. rewrite Htrace.
  apply upToFailure_complete.
  destruct (snd (upToFailure plan)) as [cause|]; [|done].
  destruct Hout as (err & text & Herr & _). congruence.
Qed.

Lemma apiserver_add_follows r :
  follows (apiServerPlan r) (runG (ApiServerSetup.add r)).
Proof.
  unfold follows, apiServerPlan, secretsWatched, ApiServerSetup.add.
  destruct r as [p amazon enterprise domain psp].
  destruct amazon, enterprise; run_against_plan.
Qed.

Lemma apiserver_Add_follows opts :
  follows (apiServerAddPlan opts) (runG (ApiServerSetup.Add opts)).
Proof.
  unfold follows, apiServerAddPlan, apiServerReconciler, apiServerPlan,
    secretsWatched, ApiServerSetup.Add, ApiServerSetup.newReconciler,
    ApiServerSetup.add.
  destruct opts as [p enterprise amazon domain psp].
  destruct amazon, enterprise; run_against_plan.
Qed.

Lemma compliance_add_follows :
  follows compliancePlan (runG ComplianceSetup.add).
Proof.
  unfold follows, compliancePlan, complianceSecrets, secretsWatched,
    ComplianceSetup.add.
  run_against_plan.
Qed.

Lemma compliance_Add_follows opts :
  follows (complianceAddPlan opts) (runG (ComplianceSetup.Add opts)).
Proof.
  unfold follows, complianceAddPlan, complianceReconciler, compliancePlan,
    complianceSecrets, secretsWatched, ComplianceSetup.Add,
    ComplianceSetup.newReconciler, ComplianceSetup.add.
  destruct opts as [p enterprise amazon domain psp].
  destruct enterprise; [|by split]. run_against_plan.
Qed.

Lemma connection_add_follows r :
  follows (connectionPlan r) (runG (ConnectionSetup.add r)).
Proof.
  unfold follows, connectionPlan, connectionSecrets, secretsWatched,
    ConnectionSetup.add.
  run_against_plan.
Qed.

Lemma connection_Add_follows opts :
  follows (connectionAddPlan opts) (runG (ConnectionSetup.Add opts)).
Proof.
  unfold follows, connectionAddPlan, connectionReconciler, connectionPlan,
    connectionSecrets, secretsWatched, ConnectionSetup.Add,
    ConnectionSetup.newReconciler, ConnectionSetup.add.
  destruct opts as [p enterprise amazon domain psp].
  destruct enterprise; [|by split]. run_against_plan.
Qed.

(** X23.  The set-up of the API server controller follows its plan, see
    [follows] and [apiServerPlan]: [add] creates the controller and then
    registers its watches in the order of the plan, those of the Amazon
    integration and of the enterprise resources only where their CRDs
    exist; it stops at the first step that fails and returns an error
    whose text ends with the text of the failure, and it returns no
    error when no step fails.  [Add] makes the status manager, runs it,
    and goes on as [add] with the reconciler built from the options. *)
Theorem apiserver_setup_follows_plan r opts :
  follows (apiServerPlan r) (runG (ApiServerSetup.add r)) ∧
  follows (apiServerAddPlan opts) (runG (ApiServerSetup.Add opts)).
Proof. split; [apply apiserver_add_follows | apply apiserver_Add_follows]. Qed.

(** X24.  The set-up of the compliance controller follows its plan, see
    [follows], [compliancePlan] and [complianceAddPlan].  Without the
    enterprise CRDs [Add] does nothing and returns no error.  With them
    it makes the status manager and runs it, creates the controller with
    a reconciler whose ready flag is not ready, makes the client, starts
    the wait for the license watch, and registers the watches of [add],
    the secrets in the operator namespace first and then in the
    compliance namespace; it stops at the first step that fails and
    returns an error whose text ends with the text of the failure. *)
Theorem compliance_setup_follows_plan opts :
  follows compliancePlan (runG ComplianceSetup.add) ∧
  follows (complianceAddPlan opts) (runG (ComplianceSetup.Add opts)) ∧
  (EnterpriseCRDExists opts = false →
   runG (ComplianceSetup.Add opts) = (None, [])).
Proof.
  split; [apply compliance_add_follows|].
  split; [apply compliance_Add_follows|].
  intros Henterprise. unfold ComplianceSetup.Add. by rewrite Henterprise.
Qed.

(** X25.  The set-up of the connection controller follows its plan, see
    [follows], [connectionPlan] and [connectionAddPlan].  Without the
    enterprise CRDs [Add] does nothing and returns no error.  With them
    it makes the status manager and runs it, creates the controller with
    the reconciler built from the options, and registers the watches of
    [add] in the order of the plan; it stops at the first step that
    fails and returns an error whose text ends with the text of the
    failure. *)
Theorem connection_setup_follows_plan r opts :
  follows (connectionPlan r) (runG (ConnectionSetup.add r)) ∧
  follows (connectionAddPlan opts) (runG (ConnectionSetup.Add opts)) ∧
  (EnterpriseCRDExists opts = false →
   runG (ConnectionSetup.Add opts) = (None, [])).
Proof.
  split; [apply connection_add_follows|].
  split; [apply connection_Add_follows|].
  intros Henterprise. unfold ConnectionSetup.Add. by rewrite Henterprise.
Qed.

Ltac not_planned H :=
  cbn in H;
  repeat (apply elem_of_cons in H as [H | H]; [discriminate H|]);
  by apply elem_of_nil in H.

(** X26.  The API server controller watches the Amazon integration only
    where its CRD exists, and the management resources and the
    authentication only where the enterprise CRDs exist; and a set-up
    that returns no error has registered each of these watches where the
    CRDs exist. *)
Theorem apiserver_watches_gated r type :
  (Watch (Kind_ TypeAmazonCloudIntegration) ∈ snd (runG (ApiServerSetup.add r)) →
   ApiServer.amazonCRDExists r = true) ∧
  (type ∈ [TypeManagementCluster; TypeManagementClusterConnection; TypeAuthentication] →
   Watch (Kind_ type) ∈ snd (runG (ApiServerSetup.add r)) →
   ApiServer.enterpriseCRDsExist r = true) ∧
  (fst (runG (ApiServerSetup.add r)) = None →
   (ApiServer.amazonCRDExists r = true →
    Watch (Kind_ TypeAmazonCloudIntegration) ∈ snd (runG (ApiServerSetup.add r))) ∧
   (type ∈ [TypeManagementCluster; TypeManagementClusterConnection; TypeAuthentication] →
    ApiServer.enterpriseCRDsExist r = true →
    Watch (Kind_ type) ∈ snd (runG (ApiServerSetup.add r)))).
Proof.
  pose proof (apiserver_add_follows r) as Hfollows.
  split; [|split].
  - intros Hin. apply (follows_taken _ _ _ Hfollows) in Hin.
    unfold apiServerPlan, secretsWatched in Hin.
    destruct (ApiServer.amazonCRDExists r); [done|].
    destruct (ApiServer.enterpriseCRDsExist r); not_planned Hin.
  - intros Htype Hin. apply (follows_taken _ _ _ Hfollows) in Hin.
    unfold apiServerPlan, secretsWatched in Hin.
    destruct (ApiServer.enterpriseCRDsExist r); [done|].
    repeat (apply elem_of_cons in Htype as [-> | Htype];
            [destruct (ApiServer.amazonCRDExists r); not_planned Hin|]).
    by apply elem_of_nil in Htype.
  - intros Hnone. destruct (follows_complete _ _ Hfollows Hnone) as [-> _].
    unfold apiServerPlan, secretsWatched. split.
    + intros ->. cbn. destruct (ApiServer.enterpriseCRDsExist r);
        cbn; repeat constructor.
    + intros Htype ->.
      repeat (apply elem_of_cons in Htype as [-> | Htype];
              [destruct (ApiServer.amazonCRDExists r); cbn; repeat constructor|]).
      by apply elem_of_nil in Htype.
Qed.

Ltac watched :=
  let name := fresh "name" in
  let namespace := fresh "namespace" in
  let Heq := fresh "Heq" in
  intros name namespace Heq; cbn in Heq;
  first [ discriminate Heq
        | simplify_eq; cbn; repeat constructor ].

Lemma connection_holds_watched r r' :
  holds (readsWatched (connectionPlan r')) (λ _, False) (λ _ ending, ending = [])
    (Reconcile r).
Proof.
  unfold Reconcile. cbn [foldG].
  repeat holds_step ltac:(watched) ltac:(reflexivity) ltac:(forget).
Qed.

(** X27.  Every secret that a pass of the connection controller reads by
    name, the guardian secret through the client and the certificates of
    packet capture and of Prometheus through the certificate manager, is
    a secret that the controller's set-up watches, in the namespace it is
    read from; so after a set-up that returned no error each of these
    secrets is watched. *)
Theorem connection_reads_watched r r' e name namespace :
  e ∈ snd (runG (Reconcile r)) →
  secretRead e = Some (name, namespace) →
  Watch (SecretsWatch name namespace) ∈ connectionPlan r' ∧
  (fst (runG (ConnectionSetup.add r')) = None →
   Watch (SecretsWatch name namespace) ∈ snd (runG (ConnectionSetup.add r'))).
Proof.
  intros Hin Hread.
  destruct (holds_run _ _ _ (connection_holds_watched r r'))
    as (pre & ending & Htrace & Hpre & ->).
  rewrite Htrace, app_nil_r in Hin. rewrite Forall_forall in Hpre.
  pose proof (Hpre _ Hin name namespace Hread) as Hplanned.
  split; [done|]. intros Hnone.
  by destruct (follows_complete _ _ (connection_add_follows r') Hnone) as [-> _].
Qed.

End Proofs.

(** *** On concrete clusters *)

Lemma apiserver_setup_follows_plan_witness :
  ∃ err text,
    fst (runG (ApiServerSetup.add (cluster:=Examples.cluster)
                 (manager:=MoreExamples.managerWithoutImageSets)
                 Examples.apiServerReconciler)) = Some err ∧
    Error err = text +:+ "no kind ImageSet is registered".
Proof.
  exact (proj2 (proj1 (apiserver_setup_follows_plan (cluster:=Examples.cluster)
                         (manager:=MoreExamples.managerWithoutImageSets)
                         Examples.apiServerReconciler MoreExamples.options))).
Defined.

Lemma compliance_setup_follows_plan_witness :
  runG (ComplianceSetup.Add (cluster:=Examples.cluster)
          (manager:=MoreExamples.manager) MoreExamples.community_options)
  = (None, []).
Proof.
  apply (proj2 (proj2 (compliance_setup_follows_plan (cluster:=Examples.cluster)
                         (manager:=MoreExamples.manager)
                         MoreExamples.community_options))).
  reflexivity.
Defined.

Lemma connection_setup_follows_plan_witness :
  runG (ConnectionSetup.Add (cluster:=MoreExamples.managed)
          (connection:=MoreExamples.connection)
          (manager:=MoreExamples.manager) MoreExamples.community_options)
  = (None, []).
Proof.
  apply (proj2 (proj2 (connection_setup_follows_plan (cluster:=MoreExamples.managed)
                         (connection:=MoreExamples.connection)
                         (manager:=MoreExamples.manager)
                         MoreExamples.connectionReconciler
                         MoreExamples.community_options))).
  reflexivity.
Defined.

Lemma apiserver_watches_gated_witness :
  Watch (Kind_ TypeManagementCluster)
    ∈ snd (runG (ApiServerSetup.add (cluster:=Examples.cluster)
                   (manager:=MoreExamples.manager) Examples.apiServerReconciler)) ∧
  ApiServer.enterpriseCRDsExist Examples.apiServerReconciler = true.
Proof.
  assert (Hin : Watch (Kind_ TypeManagementCluster)
    ∈ snd (runG (ApiServerSetup.add (cluster:=Examples.cluster)
                   (manager:=MoreExamples.manager) Examples.apiServerReconciler))).
  { vm_compute. repeat constructor. }
  split; [exact Hin|].
  apply (proj1 (proj2 (apiserver_watches_gated (cluster:=Examples.cluster)
                         (manager:=MoreExamples.manager)
                         Examples.apiServerReconciler TypeManagementCluster)));
    [repeat constructor | exact Hin].
Defined.

Lemma connection_reads_watched_witness :
  Watch (SecretsWatch "tigera-managed-cluster-connection" "tigera-operator")
    ∈ snd (runG (ConnectionSetup.add (cluster:=MoreExamples.managed)
                   (connection:=MoreExamples.connection)
                   (manager:=MoreExamples.manager)
                   MoreExamples.connectionReconciler)).
Proof.
  apply (connection_reads_watched (cluster:=MoreExamples.managed)
           (connection:=MoreExamples.connection) (manager:=MoreExamples.manager)
           MoreExamples.connectionReconciler MoreExamples.connectionReconciler
           (ReadSecret "tigera-managed-cluster-connection" "tigera-operator" true)).
  - vm_compute. repeat constructor.
  - reflexivity.
  - reflexivity.
Defined.

End SetupSpec.
